(** * Order fulfilment, platform commission and referral accounting

    A shallow embedding of the seller order controller
    (modules/checkout/controllers/seller-order.controller.ts), the
    commission service (modules/checkout/services/commission.service.ts)
    and the referral service (modules/referral/referral.service.ts).

    Repositories are tables (lists of rows in insertion order) of an
    explicit store that every operation threads through.  A thrown
    error is the [Throw] result, an HTTP answer is a [Response].
    Ids are abstract texts; the empty text is not an id.  Stored
    decimals and the products and quotients of the accrual formulas are
    exact rationals extended with [NaN]; the sums of the commission
    summary are IEEE doubles.  What the database refuses is modelled
    where the code can send it: an invalid date, an empty id, a text
    that is not a decimal.  An unreachable database is not modelled.
    The commission service called by [updateOrderStatus] is a parameter
    of the controller, so that any service can be put in its place. *)

From Stdlib Require Import List String ZArith QArith Bool Lia Lqa.
From Stdlib Require Import DecimalString Qround.
From Stdlib Require Floats.PrimFloat Numbers.Cyclic.Int63.Uint63.
Import ListNotations.

Local Open Scope string_scope.

(* ------------------------------------------------------------------ *)
(** ** JavaScript values used by the services *)

(** A JS [number]: a finite value or [NaN]. *)
Inductive number : Type :=
| Fin (q : Q)
| NaN.

(** [ToNumber] of a property read: a missing property is [undefined],
    and [undefined] converts to [NaN]. *)
Definition ToNumber (v : option number) : number :=
  match v with
  | Some n => n
  | None => NaN
  end.

Definition nadd (a b : number) : number :=
  match a, b with
  | Fin x, Fin y => Fin (x + y)
  | _, _ => NaN
  end.

Definition nmul (a b : number) : number :=
  match a, b with
  | Fin x, Fin y => Fin (x * y)
  | _, _ => NaN
  end.

(** Division; the services only ever divide by the literal 100, so the
    infinities of a zero divisor are folded into [NaN]. *)
Definition ndiv (a b : number) : number :=
  match a, b with
  | Fin x, Fin y => if Qeq_bool y 0 then NaN else Fin (x / y)
  | _, _ => NaN
  end.

(** [a <= b]; every comparison with [NaN] is false. *)
Definition nleb (a b : number) : bool :=
  match a, b with
  | Fin x, Fin y => Qle_bool x y
  | _, _ => false
  end.

(** Truthiness of a number: [0] and [NaN] are falsy. *)
Definition truthy_number (a : number) : bool :=
  match a with
  | Fin x => negb (Qeq_bool x 0)
  | NaN => false
  end.

(** Truthiness of a nullable string: [null], [undefined] and [""] are falsy. *)
Definition truthy_string (s : option string) : bool :=
  match s with
  | Some x => negb (x =? "")
  | None => false
  end.

Definition of_Z (z : Z) : number := Fin (inject_Z z).

(** Numeric equality of two JS numbers as values (rationals up to
    [Qeq]); [NaN] is only related to itself here, as a stored value. *)
Definition num_eq (a b : number) : Prop :=
  match a, b with
  | Fin x, Fin y => x == y
  | NaN, NaN => True
  | _, _ => False
  end.

(** Decimal rendering of an integer inside a template literal. *)
Definition string_of_Z (z : Z) : string :=
  NilZero.string_of_int (Z.to_int z).

(** The outcome of an [async] service method. *)
Inductive Result (A : Type) : Type :=
| Return (a : A)
| Throw (message : string).
Arguments Return {A} a.
Arguments Throw {A} message.

(* ------------------------------------------------------------------ *)
(** ** Enumerations (entities/order.enums.ts) *)

Module ORDER_STATUS.
Inductive t : Type :=
| PENDING
| SELLER_NOTIFIED
| SELLER_ACCEPTED
| CONFIRMED
| PROCESSING
| SHIPPED
| DELIVERED
| CANCELLED
| REFUNDED
| RETURNED.

Definition eq_dec (a b : t) : {a = b} + {a <> b}.
Proof. decide equality. Defined.

Definition eqb (a b : t) : bool := if eq_dec a b then true else false.

Definition to_string (s : t) : string :=
  match s with
  | PENDING => "pending"
  | SELLER_NOTIFIED => "seller_notified"
  | SELLER_ACCEPTED => "seller_accepted"
  | CONFIRMED => "confirmed"
  | PROCESSING => "processing"
  | SHIPPED => "shipped"
  | DELIVERED => "delivered"
  | CANCELLED => "cancelled"
  | REFUNDED => "refunded"
  | RETURNED => "returned"
  end.
End ORDER_STATUS.

Module COMMISSION_STATUS.
Inductive t : Type :=
| PENDING
| CALCULATED
| PAID
| CANCELLED.

Definition eq_dec (a b : t) : {a = b} + {a <> b}.
Proof. decide equality. Defined.

Definition eqb (a b : t) : bool := if eq_dec a b then true else false.
End COMMISSION_STATUS.

(* ------------------------------------------------------------------ *)
(** ** Entities of the checkout module *)

(** product.entity.ts: the columns the services read; [sellerId] and
    [regularPrice] are nullable. *)
Record Product : Type := {
  product_id : string;
  product_sellerId : option string;
  regularPrice : option number
}.

Record Order : Type := {
  order_id : string;
  orderNumber : string;
  order_status : ORDER_STATUS.t;
  totalAmount : number;
  trackingNumber : option string;
  estimatedDeliveryDate : option Z;
  order_notes : option string
}.

(** order-item.entity.ts: the columns the services read.  The entity
    declares [unitPrice] and [totalPrice]; it has no [price] column. *)
Record OrderItem : Type := {
  item_id : string;
  item_orderId : string;
  item_productId : string;
  quantity : Z;
  unitPrice : number;
  totalPrice : number
}.

Record OrderStatusHistory : Type := {
  history_id : string;
  history_orderId : string;
  history_status : ORDER_STATUS.t;
  previousStatus : ORDER_STATUS.t;
  changedBy : option string;
  history_notes : string;
  notificationSent : bool
}.

Record Commission : Type := {
  commission_id : string;
  commission_orderId : string;
  commission_sellerId : string;
  orderAmount : number;
  commissionRate : number;
  commissionAmount : number;
  commission_status : COMMISSION_STATUS.t;
  commission_notes : string;
  paidAt : option Z
}.

Inductive NOTIFICATION_TYPE : Type :=
| NEW_ORDER
| ORDER_ACCEPTED
| ORDER_STATUS_UPDATE
| COMMISSION_EARNED.

Record SellerNotification : Type := {
  notification_id : string;
  notification_sellerId : string;
  notification_orderId : string;
  notification_type : NOTIFICATION_TYPE;
  title : string;
  message : string
}.

(** The ledger store: one table per repository, the lines written with
    [console.error], the clock and the counter behind generated ids. *)
Record Store : Type := {
  orders : list Order;
  orderItems : list OrderItem;
  products : list Product;
  statusHistory : list OrderStatusHistory;
  commissions : list Commission;
  notifications : list SellerNotification;
  console : list string;
  now : Z;
  nextId : nat
}.

(** The id the store gives to the next inserted row. *)
Definition fresh_id (st : Store) : string :=
  "row-" ++ NilZero.string_of_uint (Nat.to_uint (nextId st)).

(* ------------------------------------------------------------------ *)
(** ** Repository operations *)

Definition findOrder (st : Store) (orderId : string) : option Order :=
  find (fun o => order_id o =? orderId) (orders st).

(** The [product] relation of an item, joined on [productId]. *)
Definition item_product (st : Store) (item : OrderItem) : option Product :=
  find (fun p => product_id p =? item_productId item) (products st).

(** [orderItemRepository.find({ where: { orderId, product: { sellerId } } })]. *)
Definition findItemsOfSeller (st : Store) (orderId sellerId : string)
  : list OrderItem :=
  filter
    (fun item =>
       (item_orderId item =? orderId) &&
       match item_product st item with
       | Some p =>
           match product_sellerId p with
           | Some s => s =? sellerId
           | None => false
           end
       | None => false
       end)
    (orderItems st).

(** [order.items] as loaded by the [items] relation. *)
Definition order_items (st : Store) (o : Order) : list OrderItem :=
  filter (fun item => item_orderId item =? order_id o) (orderItems st).

(** [orderRepository.save(order)] of a loaded order: the row with the
    same id is overwritten. *)
Definition saveOrder (st : Store) (o : Order) : Store :=
  {| orders := map (fun x => if order_id x =? order_id o then o else x) (orders st);
     orderItems := orderItems st;
     products := products st;
     statusHistory := statusHistory st;
     commissions := commissions st;
     notifications := notifications st;
     console := console st;
     now := now st;
     nextId := nextId st |}.

Definition insertHistory (st : Store) (h : OrderStatusHistory) : Store :=
  {| orders := orders st;
     orderItems := orderItems st;
     products := products st;
     statusHistory := statusHistory st ++ [h];
     commissions := commissions st;
     notifications := notifications st;
     console := console st;
     now := now st;
     nextId := S (nextId st) |}.

Definition insertCommission (st : Store) (c : Commission) : Store :=
  {| orders := orders st;
     orderItems := orderItems st;
     products := products st;
     statusHistory := statusHistory st;
     commissions := commissions st ++ [c];
     notifications := notifications st;
     console := console st;
     now := now st;
     nextId := S (nextId st) |}.

Definition insertNotification (st : Store) (n : SellerNotification) : Store :=
  {| orders := orders st;
     orderItems := orderItems st;
     products := products st;
     statusHistory := statusHistory st;
     commissions := commissions st;
     notifications := notifications st ++ [n];
     console := console st;
     now := now st;
     nextId := S (nextId st) |}.

Definition console_error (st : Store) (line : string) : Store :=
  {| orders := orders st;
     orderItems := orderItems st;
     products := products st;
     statusHistory := statusHistory st;
     commissions := commissions st;
     notifications := notifications st;
     console := console st ++ [line];
     now := now st;
     nextId := nextId st |}.

Definition setCommissions (st : Store) (cs : list Commission) : Store :=
  {| orders := orders st;
     orderItems := orderItems st;
     products := products st;
     statusHistory := statusHistory st;
     commissions := cs;
     notifications := notifications st;
     console := console st;
     now := now st;
     nextId := nextId st |}.

(** [findAndCount({ where, order: { createdAt: "DESC" }, skip, take })]
    on rows kept in insertion order: rows are stamped [createdAt] when
    they are inserted, so newest first is the reverse of the table.
    The query builder sets a limit only for a truthy [take]: with
    [take: 0] the query has no LIMIT and returns every row from [skip]
    on. *)
Definition newestFirstPage {A : Type} (rows : list A) (skip take : nat) : list A :=
  if (take =? 0)%nat
  then skipn skip (rev rows)
  else firstn take (skipn skip (rev rows)).

(* ------------------------------------------------------------------ *)
(** ** CommissionService (services/commission.service.ts) *)

Module CommissionService.

(** The names commission.entity.ts exports: the class alone.  The file
    imports [COMMISSION_STATUS] from order.enums for its [status]
    column and does not export it. *)
Definition commission_entity_exports : list string := ["Commission"].

(** [COMMISSION_STATUS.member] inside the service.  The service has
    [import { Commission, COMMISSION_STATUS } from "../entities/commission.entity"]:
    a name the module does not export is bound to [undefined], and
    reading a member of [undefined] throws a TypeError. *)
Definition COMMISSION_STATUS_member (member : string) (value : COMMISSION_STATUS.t)
  : Result COMMISSION_STATUS.t :=
  if existsb (String.eqb "COMMISSION_STATUS") commission_entity_exports
  then Return value
  else Throw ("TypeError: Cannot read properties of undefined (reading '"
              ++ member ++ "')").

(** [getCommissionRate]: the flat default, whatever the seller. *)
Definition getCommissionRate (sellerId : string) : number := Fin 10.

(** The property read [item.price].  [OrderItem] has no property of
    that name (its price columns are [unitPrice] and [totalPrice]),
    so the read yields [undefined]. *)
Definition item_price (item : OrderItem) : option number := None.

(** A value of the [sellerCommissions] map. *)
Record CommissionData : Type := {
  amount : number;
  rate : number
}.

(** [Map<string, { amount, rate }>]: iteration follows insertion order. *)
Definition SellerMap : Type := list (string * CommissionData).

Definition Map_has (m : SellerMap) (k : string) : bool :=
  existsb (fun e => fst e =? k) m.

(** [m.get(k)!.amount += x] *)
Definition Map_add_amount (m : SellerMap) (k : string) (x : number) : SellerMap :=
  map (fun e =>
         if fst e =? k
         then (fst e, {| amount := nadd (amount (snd e)) x; rate := rate (snd e) |})
         else e) m.

(** [m.set(k, v)] for a key that is not in the map yet. *)
Definition Map_set_new (m : SellerMap) (k : string) (v : CommissionData) : SellerMap :=
  (m ++ [(k, v)])%list.

(** One iteration of the grouping loop over [order.items]. *)
Definition groupItem (st : Store) (m : SellerMap) (item : OrderItem) : SellerMap :=
  match item_product st item with
  | Some p =>
      match product_sellerId p with
      | Some sellerId =>
          if truthy_string (Some sellerId) then
            let itemTotal := nmul (of_Z (quantity item)) (ToNumber (item_price item)) in
            let commissionRate := getCommissionRate sellerId in
            let commissionAmount := nmul itemTotal (ndiv commissionRate (Fin 100)) in
            if Map_has m sellerId
            then Map_add_amount m sellerId commissionAmount
            else Map_set_new m sellerId
                   {| amount := commissionAmount; rate := commissionRate |}
          else m
      | None => m
      end
  | None => m
  end.

Definition groupItems (st : Store) (items : list OrderItem) : SellerMap :=
  fold_left (groupItem st) items [].

(** The argument of [commissionRepository.create] for one map entry.
    The object literal is evaluated property by property; reading
    [COMMISSION_STATUS.CALCULATED] for [status] is where it throws. *)
Definition newCommission (st : Store) (order : Order) (orderId : string)
           (e : string * CommissionData) : Result Commission :=
  match COMMISSION_STATUS_member "CALCULATED" COMMISSION_STATUS.CALCULATED with
  | Throw error => Throw error
  | Return status =>
      Return {| commission_id := fresh_id st;
                commission_orderId := orderId;
                commission_sellerId := fst e;
                orderAmount := totalAmount order;
                commissionRate := rate (snd e);
                commissionAmount := amount (snd e);
                commission_status := status;
                commission_notes :=
                  "Commission calculated for order #" ++ orderNumber order;
                paidAt := None |}
  end.

(** The loop over the map: each turn creates a row, saves it and pushes
    it onto [commissions]; an exception leaves the loop at once. *)
Fixpoint saveCommissions (order : Order) (orderId : string) (entries : SellerMap)
         (st : Store) (commissions : list Commission)
  : Store * Result (list Commission) :=
  match entries with
  | [] => (st, Return commissions)
  | e :: rest =>
      match newCommission st order orderId e with
      | Throw error => (st, Throw error)
      | Return commission =>
          saveCommissions order orderId rest (insertCommission st commission)
                          (commissions ++ [commission])%list
      end
  end.

Definition calculateAndCreateCommission (st : Store) (orderId : string)
  : Store * Result (list Commission) :=
  match findOrder st orderId with
  | None => (st, Throw "Order not found")
  | Some order =>
      if negb (ORDER_STATUS.eqb (order_status order) ORDER_STATUS.DELIVERED)
      then (st, Throw "Commission can only be calculated for delivered orders")
      else
        let sellerCommissions := groupItems st (order_items st order) in
        saveCommissions order orderId sellerCommissions st []
  end.

(** [commissionRepository.save] of a loaded row: overwrite by id. *)
Definition saveCommission (st : Store) (c : Commission) : Store :=
  setCommissions st
    (map (fun x => if commission_id x =? commission_id c then c else x)
         (commissions st)).

Definition markCommissionAsPaid (st : Store) (commissionId : string)
  : Store * Result Commission :=
  match find (fun c => commission_id c =? commissionId) (commissions st) with
  | None => (st, Throw "Commission not found")
  | Some commission =>
      match COMMISSION_STATUS_member "PAID" COMMISSION_STATUS.PAID with
      | Throw error => (st, Throw error)
      | Return status =>
          let commission' :=
            {| commission_id := commission_id commission;
               commission_orderId := commission_orderId commission;
               commission_sellerId := commission_sellerId commission;
               orderAmount := orderAmount commission;
               commissionRate := commissionRate commission;
               commissionAmount := commissionAmount commission;
               commission_status := status;
               commission_notes := commission_notes commission;
               paidAt := Some (now st) |} in
          (saveCommission st commission', Return commission')
      end
  end.

(** The double nearest to an integer of the range a decimal(10,2) column
    can hold. *)
Definition Z_to_float (z : Z) : PrimFloat.float :=
  match z with
  | Z0 => PrimFloat.zero
  | Zpos _ => PrimFloat.of_uint63 (Uint63.of_Z z)
  | Zneg p => PrimFloat.opp (PrimFloat.of_uint63 (Uint63.of_Z (Zpos p)))
  end.

(** [Number(c.commissionAmount)]: the driver hands a decimal over as
    text and [Number] reads it as the nearest double, which is the
    rounded quotient of numerator and denominator. *)
Definition Number (n : number) : PrimFloat.float :=
  match n with
  | Fin q => PrimFloat.div (Z_to_float (Qnum q)) (Z_to_float (Zpos (Qden q)))
  | NaN => PrimFloat.nan
  end.

(** [rows.reduce((sum, c) => sum + Number(c.commissionAmount), 0)] *)
Definition sumAmounts (rows : list Commission) : PrimFloat.float :=
  fold_left (fun sum c => PrimFloat.add sum (Number (commissionAmount c)))
            rows PrimFloat.zero.

(** [rows.filter(c => c.status === COMMISSION_STATUS.member)]: the
    callback reads the member once for every row. *)
Fixpoint filterByStatus (member : string) (value : COMMISSION_STATUS.t)
         (rows : list Commission) : Result (list Commission) :=
  match rows with
  | [] => Return []
  | c :: rest =>
      match COMMISSION_STATUS_member member value with
      | Throw error => Throw error
      | Return status =>
          match filterByStatus member value rest with
          | Throw error => Throw error
          | Return kept =>
              Return (if COMMISSION_STATUS.eqb (commission_status c) status
                      then c :: kept else kept)
          end
      end
  end.

Record Summary : Type := {
  totalEarned : PrimFloat.float;
  totalPaid : PrimFloat.float;
  pendingAmount : PrimFloat.float;
  commissionCount : nat
}.

Definition getCommissionSummary (st : Store) (sellerId : string) : Result Summary :=
  let commissions := filter (fun c => commission_sellerId c =? sellerId) (commissions st) in
  let total := List.length commissions in
  let totalEarned := sumAmounts commissions in
  match filterByStatus "PAID" COMMISSION_STATUS.PAID commissions with
  | Throw error => Throw error
  | Return paid =>
      let totalPaid := sumAmounts paid in
      match filterByStatus "CALCULATED" COMMISSION_STATUS.CALCULATED commissions with
      | Throw error => Throw error
      | Return calculated =>
          let pendingAmount := sumAmounts calculated in
          Return {| totalEarned := totalEarned;
                    totalPaid := totalPaid;
                    pendingAmount := pendingAmount;
                    commissionCount := total |}
      end
  end.

Record SellerCommissions : Type := {
  page_commissions : list Commission;
  page_total : nat;
  page_totalEarned : PrimFloat.float;
  page_totalPaid : PrimFloat.float;
  page_pendingAmount : PrimFloat.float
}.

(** [getSellerCommissions(sellerId, limit = 50, offset = 0)] *)
Definition getSellerCommissions (st : Store) (sellerId : string)
           (limit offset : option nat) : Result SellerCommissions :=
  let limit' := match limit with Some n => n | None => 50%nat end in
  let offset' := match offset with Some n => n | None => 0%nat end in
  let all := filter (fun c => commission_sellerId c =? sellerId) (commissions st) in
  let commissions := newestFirstPage all offset' limit' in
  let total := List.length all in
  let totalEarned := sumAmounts commissions in
  match filterByStatus "PAID" COMMISSION_STATUS.PAID commissions with
  | Throw error => Throw error
  | Return paid =>
      let totalPaid := sumAmounts paid in
      match filterByStatus "CALCULATED" COMMISSION_STATUS.CALCULATED commissions with
      | Throw error => Throw error
      | Return calculated =>
          let pendingAmount := sumAmounts calculated in
          Return {| page_commissions := commissions;
                    page_total := total;
                    page_totalEarned := totalEarned;
                    page_totalPaid := totalPaid;
                    page_pendingAmount := pendingAmount |}
      end
  end.

End CommissionService.

(* ------------------------------------------------------------------ *)
(** ** SellerNotificationService (services/seller-notification.service.ts) *)

Module SellerNotificationService.

Definition sendOrderAcceptedNotification (st : Store) (order : Order)
           (sellerId : string) : Store :=
  insertNotification st
    {| notification_id := fresh_id st;
       notification_sellerId := sellerId;
       notification_orderId := order_id order;
       notification_type := ORDER_ACCEPTED;
       title := "Order Accepted";
       message := "Order #" ++ orderNumber order
                  ++ " has been accepted and is now being processed." |}.

(** [getSellerNotifications(sellerId, limit = 50, offset = 0)]: the page,
    newest first, and the number of all notifications of the seller. *)
Definition getSellerNotifications (st : Store) (sellerId : string)
           (limit offset : option nat) : list SellerNotification * nat :=
  let limit' := match limit with Some n => n | None => 50%nat end in
  let offset' := match offset with Some n => n | None => 0%nat end in
  let all := filter (fun n => notification_sellerId n =? sellerId) (notifications st) in
  (newestFirstPage all offset' limit', List.length all).

End SellerNotificationService.

(* ------------------------------------------------------------------ *)
(** ** SellerOrderController (controllers/seller-order.controller.ts) *)

(** What [res.json] sends back. *)
Inductive Body : Type :=
| Message (text : string)
| OrderBody (order : Order)
| SummaryBody (summary : CommissionService.Summary).

(** [res.status(code).json(getResponseAPI(code, body))]; a bare
    [res.json] answers 200. *)
Record Response : Type := {
  statusCode : Z;
  body : Body
}.

Definition respond (code : Z) (b : Body) : Response :=
  {| statusCode := code; body := b |}.

(** SellerOrderAcceptDto *)
Record SellerOrderAcceptDto : Type := {
  accept_orderId : string;
  accept_notes : option string;
  estimatedProcessingTime : option Z
}.

(** What [new Date(text)] makes of a text: the instant it denotes, in
    milliseconds since the epoch, or an invalid date when the text does
    not parse. *)
Inductive DateInput : Type :=
| ParsedDate (milliseconds : Z)
| InvalidDate.

(** SellerOrderUpdateDto.  The routes of the controller run no
    validation on the body.  [update_estimatedDeliveryDate] stands for a
    text that is not empty, given by what [new Date] makes of it. *)
Record SellerOrderUpdateDto : Type := {
  update_orderId : string;
  update_status : ORDER_STATUS.t;
  update_notes : option string;
  update_trackingNumber : option string;
  update_estimatedDeliveryDate : option DateInput
}.

(** [x || ""] on an optional string. *)
Definition or_empty (s : option string) : string :=
  match s with
  | Some x => x
  | None => ""
  end.

Module SellerOrderController.

(** The [validTransitions] record of [isValidStatusTransition]. *)
Definition validTransitions (currentStatus : ORDER_STATUS.t) : list ORDER_STATUS.t :=
  match currentStatus with
  | ORDER_STATUS.PENDING => [ORDER_STATUS.CANCELLED]
  | ORDER_STATUS.SELLER_NOTIFIED => [ORDER_STATUS.SELLER_ACCEPTED; ORDER_STATUS.CANCELLED]
  | ORDER_STATUS.SELLER_ACCEPTED => [ORDER_STATUS.CONFIRMED; ORDER_STATUS.CANCELLED]
  | ORDER_STATUS.CONFIRMED => [ORDER_STATUS.PROCESSING; ORDER_STATUS.CANCELLED]
  | ORDER_STATUS.PROCESSING => [ORDER_STATUS.SHIPPED; ORDER_STATUS.CANCELLED]
  | ORDER_STATUS.SHIPPED => [ORDER_STATUS.DELIVERED; ORDER_STATUS.CANCELLED]
  | ORDER_STATUS.DELIVERED => [ORDER_STATUS.RETURNED]
  | ORDER_STATUS.CANCELLED => []
  | ORDER_STATUS.REFUNDED => []
  | ORDER_STATUS.RETURNED => []
  end.

Definition isValidStatusTransition (currentStatus newStatus : ORDER_STATUS.t) : bool :=
  existsb (ORDER_STATUS.eqb newStatus) (validTransitions currentStatus).

Definition acceptOrder (st : Store) (user : option string) (dto : SellerOrderAcceptDto)
  : Store * Response :=
  if negb (truthy_string user)
  then (st, respond 401 (Message "User not authenticated"))
  else
    let sellerId := or_empty user in
    let orderId := accept_orderId dto in
    let notes := accept_notes dto in
    let orderItems := findItemsOfSeller st orderId sellerId in
    if (List.length orderItems =? 0)%nat
    then (st, respond 403 (Message "Access denied to this order"))
    else
      match findOrder st orderId with
      | None => (st, respond 404 (Message "Order not found"))
      | Some order =>
          if negb (ORDER_STATUS.eqb (order_status order) ORDER_STATUS.SELLER_NOTIFIED)
          then (st, respond 400 (Message "Order cannot be accepted in current status"))
          else
            let order' :=
              {| order_id := order_id order;
                 orderNumber := orderNumber order;
                 order_status := ORDER_STATUS.SELLER_ACCEPTED;
                 totalAmount := totalAmount order;
                 trackingNumber := trackingNumber order;
                 estimatedDeliveryDate := estimatedDeliveryDate order;
                 order_notes :=
                   match estimatedProcessingTime dto with
                   | Some days =>
                       if (days =? 0)%Z
                       then if truthy_string notes then notes else order_notes order
                       else Some ("Estimated processing time: " ++ string_of_Z days
                                  ++ " days. " ++ or_empty notes)
                   | None =>
                       if truthy_string notes then notes else order_notes order
                   end |} in
            let st1 := saveOrder st order' in
            let statusHistory :=
              {| history_id := fresh_id st1;
                 history_orderId := orderId;
                 history_status := ORDER_STATUS.SELLER_ACCEPTED;
                 previousStatus := ORDER_STATUS.SELLER_NOTIFIED;
                 changedBy := None;
                 history_notes := "Order accepted by seller. " ++ or_empty notes;
                 notificationSent := true |} in
            let st2 := insertHistory st1 statusHistory in
            let st3 :=
              SellerNotificationService.sendOrderAcceptedNotification st2 order' sellerId in
            (st3, respond 200 (OrderBody order'))
      end.

(** The mutations [updateOrderStatus] applies to the loaded order
    before saving it.  An invalid Date has no stored form; the order
    carrying one is refused by [saveUpdatedOrder] below and goes
    neither to the store nor into a response, so the field keeps the
    loaded value in that case. *)
Definition updatedOrder (order : Order) (dto : SellerOrderUpdateDto) : Order :=
  {| order_id := order_id order;
     orderNumber := orderNumber order;
     order_status := update_status dto;
     totalAmount := totalAmount order;
     trackingNumber :=
       if truthy_string (update_trackingNumber dto)
       then update_trackingNumber dto
       else trackingNumber order;
     estimatedDeliveryDate :=
       match update_estimatedDeliveryDate dto with
       | Some (ParsedDate milliseconds) => Some milliseconds
       | Some InvalidDate => estimatedDeliveryDate order
       | None => estimatedDeliveryDate order
       end;
     order_notes :=
       if truthy_string (update_notes dto) then update_notes dto
       else order_notes order |}.

(** [orderRepository.save(order)] in [updateOrderStatus].  An invalid
    Date assigned to [estimatedDeliveryDate] cannot be written to the
    timestamp column: the UPDATE fails and nothing is stored. *)
Definition saveUpdatedOrder (st : Store) (dto : SellerOrderUpdateDto) (order' : Order)
  : Result Store :=
  match update_estimatedDeliveryDate dto with
  | Some InvalidDate => Throw "QueryFailedError: invalid input syntax for type timestamp"
  | _ => Return (saveOrder st order')
  end.

(** The history row [updateOrderStatus] creates. *)
Definition updateHistory (st : Store) (dto : SellerOrderUpdateDto)
           (previousStatus' : ORDER_STATUS.t) : OrderStatusHistory :=
  {| history_id := fresh_id st;
     history_orderId := update_orderId dto;
     history_status := update_status dto;
     previousStatus := previousStatus';
     changedBy := None;
     history_notes :=
       if truthy_string (update_notes dto) then or_empty (update_notes dto)
       else "Status updated to " ++ ORDER_STATUS.to_string (update_status dto);
     notificationSent := true |}.

Section WithCommissionService.

(** [this.commissionService.calculateAndCreateCommission]: the
    service the controller holds, as a store transformer that either
    returns the created rows or throws. *)
Variable calculateAndCreateCommission :
  Store -> string -> Store * Result (list Commission).

Definition updateOrderStatusWith (st : Store) (user : option string)
           (dto : SellerOrderUpdateDto) : Store * Response :=
  if negb (truthy_string user)
  then (st, respond 401 (Message "User not authenticated"))
  else
    let sellerId := or_empty user in
    let orderId := update_orderId dto in
    let status := update_status dto in
    let orderItems := findItemsOfSeller st orderId sellerId in
    if (List.length orderItems =? 0)%nat
    then (st, respond 403 (Message "Access denied to this order"))
    else
      match findOrder st orderId with
      | None => (st, respond 404 (Message "Order not found"))
      | Some order =>
          if negb (isValidStatusTransition (order_status order) status)
          then (st, respond 400 (Message "Invalid status transition"))
          else
            let previousStatus := order_status order in
            let order' := updatedOrder order dto in
            match saveUpdatedOrder st dto order' with
            | Throw error =>
                (console_error st ("Error updating order status: " ++ error),
                 respond 500 (Message "Failed to update order status"))
            | Return st1 =>
                let statusHistory := updateHistory st1 dto previousStatus in
                let st2 := insertHistory st1 statusHistory in
                let st3 :=
                  if ORDER_STATUS.eqb status ORDER_STATUS.DELIVERED then
                    match calculateAndCreateCommission st2 orderId with
                    | (st', Return _) => st'
                    | (st', Throw error) =>
                        console_error st' ("Failed to calculate commission: " ++ error)
                    end
                  else st2 in
                (st3, respond 200 (OrderBody order'))
            end
      end.

End WithCommissionService.

(** The controller as constructed: [new CommissionService(dataSource)]. *)
Definition updateOrderStatus : Store -> option string -> SellerOrderUpdateDto
                               -> Store * Response :=
  updateOrderStatusWith CommissionService.calculateAndCreateCommission.

Definition getCommissionSummary (st : Store) (user : option string) : Store * Response :=
  if negb (truthy_string user)
  then (st, respond 401 (Message "User not authenticated"))
  else
    match CommissionService.getCommissionSummary st (or_empty user) with
    | Return summary => (st, respond 200 (SummaryBody summary))
    | Throw error =>
        (console_error st ("Error getting commission summary: " ++ error),
         respond 500 (Message "Failed to get commission summary"))
    end.

End SellerOrderController.

(* ------------------------------------------------------------------ *)
(** ** Referral entities (modules/referral/entities/referral.entity.ts) *)

Module REFERRAL_TYPE.
Inductive t : Type :=
| SELLER_ACCOUNT
| PRODUCT.

Definition eq_dec (a b : t) : {a = b} + {a <> b}.
Proof. decide equality. Defined.

Definition eqb (a b : t) : bool := if eq_dec a b then true else false.
End REFERRAL_TYPE.

Module REFERRAL_STATUS.
Inductive t : Type :=
| PENDING
| ACTIVE
| COMPLETED
| EXPIRED
| CANCELLED.

Definition eq_dec (a b : t) : {a = b} + {a <> b}.
Proof. decide equality. Defined.

Definition eqb (a b : t) : bool := if eq_dec a b then true else false.
End REFERRAL_STATUS.

(** The [COMMISSION_STATUS] enum of the referral module. *)
Module REFERRAL_COMMISSION_STATUS.
Inductive t : Type :=
| PENDING
| EARNED
| PAID
| CANCELLED.

Definition eq_dec (a b : t) : {a = b} + {a <> b}.
Proof. decide equality. Defined.

Definition eqb (a b : t) : bool := if eq_dec a b then true else false.
End REFERRAL_COMMISSION_STATUS.

Record ReferralCode : Type := {
  code_id : string;
  code_userId : string;
  code : string;
  code_type : REFERRAL_TYPE.t;
  code_commissionRate : number;
  isActive : bool;
  code_expiresAt : option Z;
  usageCount : Z;
  maxUsage : option Z
}.

Record Referral : Type := {
  referral_id : string;
  referrerId : string;
  referredId : string;
  referral_type : REFERRAL_TYPE.t;
  referral_status : REFERRAL_STATUS.t;
  referralCode : option string;
  referral_productId : option string;
  referral_sellerId : option string;
  referral_commissionRate : number;
  totalCommission : number;
  referral_expiresAt : option Z;
  activatedAt : option Z;
  completedAt : option Z
}.

Record ReferralCommission : Type := {
  rc_id : string;
  rc_referralId : string;
  rc_orderId : string;
  rc_orderAmount : number;
  rc_commissionRate : number;
  rc_commissionAmount : number;
  rc_status : REFERRAL_COMMISSION_STATUS.t;
  rc_paidAt : option Z;
  payoutTransactionId : option string
}.

(** The columns of [Seller] the referral service reads. *)
Record Seller : Type := {
  seller_id : string;
  totalRevenue : number
}.

(** CreateReferralDto *)
Record CreateReferralDto : Type := {
  dto_referrerId : string;
  dto_referredId : string;
  dto_type : REFERRAL_TYPE.t;
  dto_referralCode : string;
  dto_productId : option string;
  dto_sellerId : option string;
  dto_commissionRate : option number
}.

(** CreateReferralCodeDto; [cdto_expiresAt] is the instant the ISO
    string of the request denotes. *)
Record CreateReferralCodeDto : Type := {
  cdto_userId : string;
  cdto_type : REFERRAL_TYPE.t;
  cdto_productId : option string;
  cdto_commissionRate : option number;
  cdto_maxUsage : option Z;
  cdto_expiresAt : option Z
}.

(** The tables behind the repositories of [ReferralService], with the
    clock (milliseconds since the epoch) and the id counter. *)
Record ReferralStore : Type := {
  referralCodes : list ReferralCode;
  referrals : list Referral;
  referralCommissions : list ReferralCommission;
  sellers : list Seller;
  clock : Z;
  nextReferralId : nat
}.

Definition fresh_referral_id (st : ReferralStore) : string :=
  "row-" ++ NilZero.string_of_uint (Nat.to_uint (nextReferralId st)).

(* ------------------------------------------------------------------ *)
(** ** ReferralService (modules/referral/referral.service.ts) *)

Module ReferralService.

Definition insertReferral (st : ReferralStore) (r : Referral) : ReferralStore :=
  {| referralCodes := referralCodes st;
     referrals := referrals st ++ [r];
     referralCommissions := referralCommissions st;
     sellers := sellers st;
     clock := clock st;
     nextReferralId := S (nextReferralId st) |}.

Definition saveReferralCode (st : ReferralStore) (c : ReferralCode) : ReferralStore :=
  {| referralCodes :=
       map (fun x => if code_id x =? code_id c then c else x) (referralCodes st);
     referrals := referrals st;
     referralCommissions := referralCommissions st;
     sellers := sellers st;
     clock := clock st;
     nextReferralId := nextReferralId st |}.

Definition saveReferral (st : ReferralStore) (r : Referral) : ReferralStore :=
  {| referralCodes := referralCodes st;
     referrals :=
       map (fun x => if referral_id x =? referral_id r then r else x) (referrals st);
     referralCommissions := referralCommissions st;
     sellers := sellers st;
     clock := clock st;
     nextReferralId := nextReferralId st |}.

Definition insertReferralCommission (st : ReferralStore) (c : ReferralCommission)
  : ReferralStore :=
  {| referralCodes := referralCodes st;
     referrals := referrals st;
     referralCommissions := referralCommissions st ++ [c];
     sellers := sellers st;
     clock := clock st;
     nextReferralId := S (nextReferralId st) |}.

Definition saveReferralCommission (st : ReferralStore) (c : ReferralCommission)
  : ReferralStore :=
  {| referralCodes := referralCodes st;
     referrals := referrals st;
     referralCommissions :=
       map (fun x => if rc_id x =? rc_id c then c else x) (referralCommissions st);
     sellers := sellers st;
     clock := clock st;
     nextReferralId := nextReferralId st |}.

(** [referralCode.expiresAt && referralCode.expiresAt < new Date()] *)
Definition codeExpired (st : ReferralStore) (c : ReferralCode) : bool :=
  match code_expiresAt c with
  | Some e => (e <? clock st)%Z
  | None => false
  end.

(** [referralCode.maxUsage && referralCode.usageCount >= referralCode.maxUsage] *)
Definition usageLimitReached (c : ReferralCode) : bool :=
  match maxUsage c with
  | Some m => negb (m =? 0)%Z && (m <=? usageCount c)%Z
  | None => false
  end.

(** [30 * 24 * 60 * 60 * 1000] milliseconds. *)
Definition thirtyDays : Z := (30 * 24 * 60 * 60 * 1000)%Z.

Definition createReferral (st : ReferralStore) (data : CreateReferralDto)
  : ReferralStore * Result Referral :=
  match find (fun c => (code c =? dto_referralCode data) && isActive c)
             (referralCodes st) with
  | None => (st, Throw "Invalid or inactive referral code")
  | Some referralCode =>
      if codeExpired st referralCode
      then (st, Throw "Referral code has expired")
      else if usageLimitReached referralCode
      then (st, Throw "Referral code usage limit reached")
      else
        match find (fun r => (referredId r =? dto_referredId data)
                             && REFERRAL_TYPE.eqb (referral_type r) (dto_type data))
                   (referrals st) with
        | Some existingReferral =>
            (st, Throw "User has already been referred for this type")
        | None =>
            let commissionRate :=
              match dto_commissionRate data with
              | Some r => if truthy_number r then r else code_commissionRate referralCode
              | None => code_commissionRate referralCode
              end in
            let referral :=
              {| referral_id := fresh_referral_id st;
                 referrerId := dto_referrerId data;
                 referredId := dto_referredId data;
                 referral_type := dto_type data;
                 referral_status := REFERRAL_STATUS.PENDING;
                 referralCode := Some (dto_referralCode data);
                 referral_productId := dto_productId data;
                 referral_sellerId := dto_sellerId data;
                 referral_commissionRate := commissionRate;
                 totalCommission := Fin 0;
                 referral_expiresAt := Some (clock st + thirtyDays)%Z;
                 activatedAt := None;
                 completedAt := None |} in
            let st1 := insertReferral st referral in
            let referralCode' :=
              {| code_id := code_id referralCode;
                 code_userId := code_userId referralCode;
                 code := code referralCode;
                 code_type := code_type referralCode;
                 code_commissionRate := code_commissionRate referralCode;
                 isActive := isActive referralCode;
                 code_expiresAt := code_expiresAt referralCode;
                 usageCount := (usageCount referralCode + 1)%Z;
                 maxUsage := maxUsage referralCode |} in
            let st2 := saveReferralCode st1 referralCode' in
            (st2, Return referral)
        end
  end.

(** The referral module's own [markCommissionAsPaid], which guards on
    the [earned] status and records the payout transaction. *)
Definition markCommissionAsPaid (st : ReferralStore)
           (commissionId payoutTransactionId' : string)
  : ReferralStore * Result ReferralCommission :=
  match find (fun c => rc_id c =? commissionId) (referralCommissions st) with
  | None => (st, Throw "Commission not found")
  | Some commission =>
      if negb (REFERRAL_COMMISSION_STATUS.eqb (rc_status commission)
                                              REFERRAL_COMMISSION_STATUS.EARNED)
      then (st, Throw "Commission cannot be marked as paid")
      else
        let commission' :=
          {| rc_id := rc_id commission;
             rc_referralId := rc_referralId commission;
             rc_orderId := rc_orderId commission;
             rc_orderAmount := rc_orderAmount commission;
             rc_commissionRate := rc_commissionRate commission;
             rc_commissionAmount := rc_commissionAmount commission;
             rc_status := REFERRAL_COMMISSION_STATUS.PAID;
             rc_paidAt := Some (clock st);
             payoutTransactionId := Some payoutTransactionId' |} in
        (saveReferralCommission st commission', Return commission')
  end.

(** *** Code issuance *)

(** The alphabet [generateReferralCode] draws from. *)
Definition chars : string := "ABCDEFGHIJKLMNOPQRSTUVWXYZ0123456789".

(** [s.charAt(i)]: the empty string outside the bounds. *)
Definition charAt (s : string) (i : Z) : string :=
  if (i <? 0)%Z then ""
  else match String.get (Z.to_nat i) s with
       | Some c => String c ""
       | None => ""
       end.

(** [Math.floor(r * chars.length)] for a draw [r] of [Math.random()]. *)
Definition randomIndex (r : Q) : Z :=
  Qfloor (r * inject_Z (Z.of_nat (String.length chars))).

(** [generateReferralCode]: the loop appends eight characters; [random]
    is the sequence of values [Math.random()] returns and [cursor] the
    number of draws made so far. *)
Definition generateReferralCode (random : nat -> Q) (cursor : nat) : string :=
  fold_left (fun result i => result ++ charAt chars (randomIndex (random (cursor + i)%nat)))
            (seq 0 8) "".

(** [referralCodeRepository.findOne({ where: { code } }) !== null] *)
Definition codeExists (st : ReferralStore) (c : string) : bool :=
  existsb (fun x => code x =? c) (referralCodes st).

(** The [do ... while] loop of [createReferralCode].  [attempts] is the
    counter before the iteration and [left] is [10 - attempts]: the
    iteration throws when the incremented counter exceeds 10, that is
    when nothing is left. *)
Fixpoint generateUniqueCode (st : ReferralStore) (random : nat -> Q)
         (attempts left : nat) : Result string :=
  let c := generateReferralCode random (8 * attempts) in
  match left with
  | O => Throw "Unable to generate unique referral code"
  | S left' =>
      if codeExists st c
      then generateUniqueCode st random (S attempts) left'
      else Return c
  end.

(** The default of [createReferralCode] for a rate that is not
    provided (a rate of 0 counts as not provided). *)
Definition defaultCodeRate (data : CreateReferralCodeDto) : number :=
  let provided :=
    match cdto_commissionRate data with
    | Some r => truthy_number r
    | None => false
    end in
  if provided then ToNumber (cdto_commissionRate data)
  else if REFERRAL_TYPE.eqb (cdto_type data) REFERRAL_TYPE.SELLER_ACCOUNT
       then Fin 10
       else Fin 5.

Definition insertReferralCode (st : ReferralStore) (c : ReferralCode) : ReferralStore :=
  {| referralCodes := referralCodes st ++ [c];
     referrals := referrals st;
     referralCommissions := referralCommissions st;
     sellers := sellers st;
     clock := clock st;
     nextReferralId := S (nextReferralId st) |}.

(** [createReferralCode].  The [productId] of the DTO goes to a column
    that no method of the service reads; it is not part of
    [ReferralCode] here. *)
Definition createReferralCode (st : ReferralStore) (random : nat -> Q)
           (data : CreateReferralCodeDto) : ReferralStore * Result ReferralCode :=
  match generateUniqueCode st random 0 10 with
  | Throw error => (st, Throw error)
  | Return c =>
      let referralCode :=
        {| code_id := fresh_referral_id st;
           code_userId := cdto_userId data;
           code := c;
           code_type := cdto_type data;
           code_commissionRate := defaultCodeRate data;
           isActive := true;
           code_expiresAt := cdto_expiresAt data;
           usageCount := 0;
           maxUsage := cdto_maxUsage data |} in
      (insertReferralCode st referralCode, Return referralCode)
  end.

(** *** Referral lifecycle *)

Definition findReferral (st : ReferralStore) (referralId : string) : option Referral :=
  find (fun r => referral_id r =? referralId) (referrals st).

Definition activateReferral (st : ReferralStore) (referralId : string)
  : ReferralStore * Result Referral :=
  match findReferral st referralId with
  | None => (st, Throw "Referral not found")
  | Some referral =>
      if negb (REFERRAL_STATUS.eqb (referral_status referral) REFERRAL_STATUS.PENDING)
      then (st, Throw "Referral cannot be activated")
      else
        let referral' :=
          {| referral_id := referral_id referral;
             referrerId := referrerId referral;
             referredId := referredId referral;
             referral_type := referral_type referral;
             referral_status := REFERRAL_STATUS.ACTIVE;
             referralCode := referralCode referral;
             referral_productId := referral_productId referral;
             referral_sellerId := referral_sellerId referral;
             referral_commissionRate := referral_commissionRate referral;
             totalCommission := totalCommission referral;
             referral_expiresAt := referral_expiresAt referral;
             activatedAt := Some (clock st);
             completedAt := completedAt referral |} in
        (saveReferral st referral', Return referral')
  end.

Definition completeReferral (st : ReferralStore) (referralId : string)
  : ReferralStore * Result Referral :=
  match findReferral st referralId with
  | None => (st, Throw "Referral not found")
  | Some referral =>
      if negb (REFERRAL_STATUS.eqb (referral_status referral) REFERRAL_STATUS.ACTIVE)
      then (st, Throw "Referral cannot be completed")
      else
        let referral' :=
          {| referral_id := referral_id referral;
             referrerId := referrerId referral;
             referredId := referredId referral;
             referral_type := referral_type referral;
             referral_status := REFERRAL_STATUS.COMPLETED;
             referralCode := referralCode referral;
             referral_productId := referral_productId referral;
             referral_sellerId := referral_sellerId referral;
             referral_commissionRate := referral_commissionRate referral;
             totalCommission := totalCommission referral;
             referral_expiresAt := referral_expiresAt referral;
             activatedAt := activatedAt referral;
             completedAt := Some (clock st) |} in
        (saveReferral st referral', Return referral')
  end.

(** *** Code validation *)

Definition validateReferralCode (st : ReferralStore) (c : string) (type : REFERRAL_TYPE.t)
  : option ReferralCode :=
  match find (fun x => (code x =? c) && REFERRAL_TYPE.eqb (code_type x) type && isActive x)
             (referralCodes st) with
  | None => None
  | Some referralCode =>
      if codeExpired st referralCode then None
      else if usageLimitReached referralCode then None
      else Some referralCode
  end.

(** *** Commission accrual *)

(** Ids are abstract texts that stand for uuids; the empty text is not
    a uuid. *)
Definition isUuid (s : string) : bool := negb (s =? "").

(** [referralCommissionRepository.save(commission)] of a new row.  The
    [orderId] column of referral_commissions is [uuid NOT NULL] with a
    foreign key to orders (migration CreateReferralTables): a text that
    is not a uuid is refused and nothing is stored. *)
Definition saveNewReferralCommission (st : ReferralStore) (c : ReferralCommission)
  : Result ReferralStore :=
  if isUuid (rc_orderId c)
  then Return (insertReferralCommission st c)
  else Throw "QueryFailedError: invalid input syntax for type uuid".

(** The test of [matchingItems]:
    [item.product?.sellerId === referral.referrerId ||
     item.productId === referral.productId]. *)
Definition itemMatches (db : Store) (referral : Referral) (item : OrderItem) : bool :=
  match item_product db item with
  | Some p =>
      match product_sellerId p with
      | Some s => s =? referrerId referral
      | None => false
      end
  | None => false
  end
  || match referral_productId referral with
     | Some p => item_productId item =? p
     | None => false
     end.

(** [(item.product?.regularPrice || 0) * item.quantity].  A loaded
    price is a decimal text, which is truthy whatever its value; only a
    missing product or a null price gives 0. *)
Definition itemAmount (db : Store) (item : OrderItem) : number :=
  let price :=
    match item_product db item with
    | Some p =>
        match regularPrice p with
        | Some price => price
        | None => Fin 0
        end
    | None => Fin 0
    end in
  nmul price (of_Z (quantity item)).

(** The referrals loaded by [processOrderCommission]. *)
Definition activeProductReferrals (st : ReferralStore) : list Referral :=
  filter (fun r => REFERRAL_STATUS.eqb (referral_status r) REFERRAL_STATUS.ACTIVE
                   && REFERRAL_TYPE.eqb (referral_type r) REFERRAL_TYPE.PRODUCT)
         (referrals st).

Section DecimalText.

(** The conversions around the decimal column [totalCommission]: the
    text the driver returns for a stored decimal, the text JavaScript
    makes of a number that is appended to a text, and the decimal the
    column makes of a text written to it, if it takes the text at
    all. *)
Variable decimalText : number -> string.
Variable Number_toString : number -> string.
Variable numeric_in : string -> option number.

(** [referral.totalCommission += commissionAmount] followed by
    [referralRepository.save(referral)].  The loaded [totalCommission]
    is a text, so [+=] appends the number to it and the UPDATE sends the
    joined text; when the column refuses it the save throws and the row
    stays as it was. *)
Definition addToTotalCommission (st : ReferralStore) (referral : Referral)
           (commissionAmount : number) : ReferralStore * Result unit :=
  let totalCommission' :=
    decimalText (totalCommission referral) ++ Number_toString commissionAmount in
  match numeric_in totalCommission' with
  | None => (st, Throw "QueryFailedError: invalid input syntax for type numeric")
  | Some stored =>
      let referral' :=
        {| referral_id := referral_id referral;
           referrerId := referrerId referral;
           referredId := referredId referral;
           referral_type := referral_type referral;
           referral_status := referral_status referral;
           referralCode := referralCode referral;
           referral_productId := referral_productId referral;
           referral_sellerId := referral_sellerId referral;
           referral_commissionRate := referral_commissionRate referral;
           totalCommission := stored;
           referral_expiresAt := referral_expiresAt referral;
           activatedAt := activatedAt referral;
           completedAt := completedAt referral |} in
      (saveReferral st referral', Return tt)
  end.

Definition processSellerReferralCommission (st : ReferralStore) (sellerId : string)
  : ReferralStore * Result unit :=
  match find (fun r =>
                match referral_sellerId r with
                | Some s => s =? sellerId
                | None => false
                end
                && REFERRAL_TYPE.eqb (referral_type r) REFERRAL_TYPE.SELLER_ACCOUNT
                && REFERRAL_STATUS.eqb (referral_status r) REFERRAL_STATUS.ACTIVE)
             (referrals st) with
  | None => (st, Return tt)
  | Some referral =>
      match find (fun s => seller_id s =? sellerId) (sellers st) with
      | None => (st, Return tt)
      | Some seller =>
          if nleb (totalRevenue seller) (Fin 0) then (st, Return tt)
          else
            let commissionAmount :=
              ndiv (nmul (totalRevenue seller) (referral_commissionRate referral))
                   (Fin 100) in
            let commission :=
              {| rc_id := fresh_referral_id st;
                 rc_referralId := referral_id referral;
                 rc_orderId := "";
                 rc_orderAmount := totalRevenue seller;
                 rc_commissionRate := referral_commissionRate referral;
                 rc_commissionAmount := commissionAmount;
                 rc_status := REFERRAL_COMMISSION_STATUS.EARNED;
                 rc_paidAt := None;
                 payoutTransactionId := None |} in
            match saveNewReferralCommission st commission with
            | Throw error => (st, Throw error)
            | Return st1 => addToTotalCommission st1 referral commissionAmount
            end
      end
  end.

(** The body of the loop over the active product referrals. *)
Definition accrueOrderCommission (db : Store) (order : Order)
           (st : ReferralStore) (referral : Referral) : ReferralStore * Result unit :=
  let matchingItems := filter (itemMatches db referral) (order_items db order) in
  if (0 <? List.length matchingItems)%nat then
    let totalAmount' :=
      fold_left (fun sum item => nadd sum (itemAmount db item)) matchingItems (Fin 0) in
    let commissionAmount :=
      ndiv (nmul totalAmount' (referral_commissionRate referral)) (Fin 100) in
    let commission :=
      {| rc_id := fresh_referral_id st;
         rc_referralId := referral_id referral;
         rc_orderId := order_id order;
         rc_orderAmount := totalAmount';
         rc_commissionRate := referral_commissionRate referral;
         rc_commissionAmount := commissionAmount;
         rc_status := REFERRAL_COMMISSION_STATUS.EARNED;
         rc_paidAt := None;
         payoutTransactionId := None |} in
    match saveNewReferralCommission st commission with
    | Throw error => (st, Throw error)
    | Return st1 => addToTotalCommission st1 referral commissionAmount
    end
  else (st, Return tt).

(** The loop [for (const referral of referrals)]: an exception leaves
    it, and what earlier turns have stored stays stored. *)
Fixpoint accrueAll (db : Store) (order : Order) (referrals : list Referral)
         (st : ReferralStore) : ReferralStore * Result unit :=
  match referrals with
  | [] => (st, Return tt)
  | referral :: rest =>
      match accrueOrderCommission db order st referral with
      | (st1, Throw error) => (st1, Throw error)
      | (st1, Return _) => accrueAll db order rest st1
      end
  end.

(** [processOrderCommission]; [db] holds the order, its items and their
    products. *)
Definition processOrderCommission (db : Store) (st : ReferralStore) (orderId : string)
  : ReferralStore * Result unit :=
  match findOrder db orderId with
  | None => (st, Throw "Order not found")
  | Some order => accrueAll db order (activeProductReferrals st) st
  end.

End DecimalText.

(** *** Statistics and payout queries *)

(** The counting fields of [ReferralStats]; the three money fields of
    the interface are not part of the record. *)
Record ReferralStats : Type := {
  totalReferrals : nat;
  activeReferrals : nat;
  sellerAccounts : nat;
  products_count : nat
}.

(** The [commissions] relation of a referral. *)
Definition commissionsOfReferral (st : ReferralStore) (r : Referral)
  : list ReferralCommission :=
  filter (fun c => rc_referralId c =? referral_id r) (referralCommissions st).

Definition getUserReferralStats (st : ReferralStore) (userId : string) : ReferralStats :=
  let referrals := filter (fun r => referrerId r =? userId) (referrals st) in
  {| totalReferrals := List.length referrals;
     activeReferrals :=
       List.length (filter (fun r => REFERRAL_STATUS.eqb (referral_status r)
                                                         REFERRAL_STATUS.ACTIVE)
                           referrals);
     sellerAccounts :=
       List.length (filter (fun r => REFERRAL_TYPE.eqb (referral_type r)
                                                       REFERRAL_TYPE.SELLER_ACCOUNT)
                           referrals);
     products_count :=
       List.length (filter (fun r => REFERRAL_TYPE.eqb (referral_type r)
                                                       REFERRAL_TYPE.PRODUCT)
                           referrals) |}.

Definition getUserReferralCodes (st : ReferralStore) (userId : string) : list ReferralCode :=
  filter (fun c => (code_userId c =? userId) && isActive c) (referralCodes st).

Definition getUserReferrals (st : ReferralStore) (userId : string) : list Referral :=
  filter (fun r => referrerId r =? userId) (referrals st).

Definition getPendingCommissions (st : ReferralStore) (userId : string)
  : list ReferralCommission :=
  let referralIds :=
    map referral_id (filter (fun r => referrerId r =? userId) (referrals st)) in
  filter (fun c => existsb (fun i => i =? rc_referralId c) referralIds
                   && REFERRAL_COMMISSION_STATUS.eqb (rc_status c)
                                                     REFERRAL_COMMISSION_STATUS.EARNED)
         (referralCommissions st).

End ReferralService.

(* ------------------------------------------------------------------ *)
(** ** Notions the properties are stated with *)

(** The allowed transition table, as the specification lists it. *)
Inductive allowed : ORDER_STATUS.t -> ORDER_STATUS.t -> Prop :=
| pending_cancelled : allowed ORDER_STATUS.PENDING ORDER_STATUS.CANCELLED
| notified_accepted : allowed ORDER_STATUS.SELLER_NOTIFIED ORDER_STATUS.SELLER_ACCEPTED
| notified_cancelled : allowed ORDER_STATUS.SELLER_NOTIFIED ORDER_STATUS.CANCELLED
| accepted_confirmed : allowed ORDER_STATUS.SELLER_ACCEPTED ORDER_STATUS.CONFIRMED
| accepted_cancelled : allowed ORDER_STATUS.SELLER_ACCEPTED ORDER_STATUS.CANCELLED
| confirmed_processing : allowed ORDER_STATUS.CONFIRMED ORDER_STATUS.PROCESSING
| confirmed_cancelled : allowed ORDER_STATUS.CONFIRMED ORDER_STATUS.CANCELLED
| processing_shipped : allowed ORDER_STATUS.PROCESSING ORDER_STATUS.SHIPPED
| processing_cancelled : allowed ORDER_STATUS.PROCESSING ORDER_STATUS.CANCELLED
| shipped_delivered : allowed ORDER_STATUS.SHIPPED ORDER_STATUS.DELIVERED
| shipped_cancelled : allowed ORDER_STATUS.SHIPPED ORDER_STATUS.CANCELLED
| delivered_returned : allowed ORDER_STATUS.DELIVERED ORDER_STATUS.RETURNED.

(** A history row records a transition of the table. *)
Definition history_allowed (h : OrderStatusHistory) : Prop :=
  allowed (previousStatus h) (history_status h).

(** The rows of one order, in the order they were appended. *)
Definition historyOf (st : Store) (orderId : string) : list OrderStatusHistory :=
  filter (fun h => history_orderId h =? orderId) (statusHistory st).

(** Consecutive rows link up: each row starts from the status the row
    before it ended in. *)
Fixpoint chained (rows : list OrderStatusHistory) : Prop :=
  match rows with
  | [] => True
  | h :: rest =>
      match rest with
      | [] => True
      | h' :: _ => previousStatus h' = history_status h
      end /\ chained rest
  end.

Fixpoint lastRow (rows : list OrderStatusHistory) : option OrderStatusHistory :=
  match rows with
  | [] => None
  | h :: rest =>
      match rest with
      | [] => Some h
      | _ :: _ => lastRow rest
      end
  end.

(** The sequence of statuses a history records: where it started, then
    the status after each row. *)
Definition recordedStatuses (rows : list OrderStatusHistory) : list ORDER_STATUS.t :=
  match rows with
  | [] => []
  | h :: _ => previousStatus h :: map history_status rows
  end.

(** The transitions met when a sequence of statuses is replayed. *)
Fixpoint transitions (l : list ORDER_STATUS.t) : list (ORDER_STATUS.t * ORDER_STATUS.t) :=
  match l with
  | [] => []
  | a :: rest =>
      match rest with
      | [] => []
      | b :: _ => (a, b) :: transitions rest
      end
  end.

Definition replayAllowed (rows : list OrderStatusHistory) : Prop :=
  Forall (fun p => allowed (fst p) (snd p)) (transitions (recordedStatuses rows)).

(** The history of the store is consistent: every row is a transition
    of the table, the rows of each order link up, and the last row of an
    order ends in the order's current status. *)
Definition consistentHistory (st : Store) : Prop :=
  Forall history_allowed (statusHistory st) /\
  forall orderId,
    chained (historyOf st orderId) /\
    forall order h,
      findOrder st orderId = Some order ->
      lastRow (historyOf st orderId) = Some h ->
      history_status h = order_status order.

(** The seller-facing requests that write status history. *)
Inductive SellerRequest : Type :=
| AcceptOrder (user : option string) (dto : SellerOrderAcceptDto)
| UpdateOrderStatus (user : option string) (dto : SellerOrderUpdateDto).

Definition handle (st : Store) (r : SellerRequest) : Store :=
  match r with
  | AcceptOrder user dto => fst (SellerOrderController.acceptOrder st user dto)
  | UpdateOrderStatus user dto => fst (SellerOrderController.updateOrderStatus st user dto)
  end.

Definition handleAll (rs : list SellerRequest) (st : Store) : Store :=
  fold_left handle rs st.

(** A commission service writes commission rows only: it leaves the
    orders and the status history as they are. *)
Definition writesCommissionsOnly
           (service : Store -> string -> Store * Result (list Commission)) : Prop :=
  forall st orderId,
    orders (fst (service st orderId)) = orders st /\
    statusHistory (fst (service st orderId)) = statusHistory st.


(** The seller of an item, when its product names one. *)
Definition item_seller (st : Store) (item : OrderItem) : option string :=
  match item_product st item with
  | Some p => if truthy_string (product_sellerId p) then product_sellerId p else None
  | None => None
  end.

(** A seller is represented in an order when one of the order's items
    is a product of that seller. *)
Definition represented (st : Store) (order : Order) (sellerId : string) : bool :=
  existsb (fun item =>
             match item_seller st item with
             | Some s => s =? sellerId
             | None => false
             end)
          (order_items st order).

(** Number of non-cancelled commission rows of an (order, seller) pair. *)
Definition nonCancelledCount (st : Store) (orderId sellerId : string) : nat :=
  List.length
    (filter (fun c =>
               (commission_orderId c =? orderId)
               && (commission_sellerId c =? sellerId)
               && negb (COMMISSION_STATUS.eqb (commission_status c)
                                              COMMISSION_STATUS.CANCELLED))
            (commissions st)).

(** [n] successive invocations of [calculateAndCreateCommission]. *)
Fixpoint invoke (n : nat) (st : Store) (orderId : string) : Store :=
  match n with
  | O => st
  | S k => invoke k (fst (CommissionService.calculateAndCreateCommission st orderId)) orderId
  end.

(** The rows of one seller, as [getCommissionSummary] selects them. *)
Definition commissionsOf (st : Store) (sellerId : string) : list Commission :=
  filter (fun c => commission_sellerId c =? sellerId) (commissions st).



(** Successive [createReferral] calls, whatever their outcome. *)
Definition createReferrals (calls : list CreateReferralDto) (st : ReferralStore)
  : ReferralStore :=
  fold_left (fun s data => fst (ReferralService.createReferral s data)) calls st.

(** *** Notions of the further properties *)

(** How far along the lifecycle a status is; the three ways out share
    the last rank. *)
Definition statusRank (s : ORDER_STATUS.t) : nat :=
  match s with
  | ORDER_STATUS.PENDING => 0
  | ORDER_STATUS.SELLER_NOTIFIED => 1
  | ORDER_STATUS.SELLER_ACCEPTED => 2
  | ORDER_STATUS.CONFIRMED => 3
  | ORDER_STATUS.PROCESSING => 4
  | ORDER_STATUS.SHIPPED => 5
  | ORDER_STATUS.DELIVERED => 6
  | ORDER_STATUS.RETURNED => 7
  | ORDER_STATUS.CANCELLED => 7
  | ORDER_STATUS.REFUNDED => 7
  end.

(** The statuses the transition table gives no way out of. *)
Definition terminal (s : ORDER_STATUS.t) : Prop :=
  s = ORDER_STATUS.CANCELLED \/ s = ORDER_STATUS.REFUNDED \/ s = ORDER_STATUS.RETURNED.

(** The order a request is about and the user who sends it. *)
Definition targetOf (r : SellerRequest) : string :=
  match r with
  | AcceptOrder _ dto => accept_orderId dto
  | UpdateOrderStatus _ dto => update_orderId dto
  end.

Definition requesterOf (r : SellerRequest) : option string :=
  match r with
  | AcceptOrder user _ => user
  | UpdateOrderStatus user _ => user
  end.

(** The calls that move a referral along its lifecycle. *)
Inductive LifecycleCall : Type :=
| Activate (referralId : string)
| Complete (referralId : string).

Definition lifecycleStep (st : ReferralStore) (c : LifecycleCall) : ReferralStore :=
  match c with
  | Activate referralId => fst (ReferralService.activateReferral st referralId)
  | Complete referralId => fst (ReferralService.completeReferral st referralId)
  end.

Definition referralRank (s : REFERRAL_STATUS.t) : nat :=
  match s with
  | REFERRAL_STATUS.PENDING => 0
  | REFERRAL_STATUS.ACTIVE => 1
  | REFERRAL_STATUS.COMPLETED => 2
  | REFERRAL_STATUS.EXPIRED => 2
  | REFERRAL_STATUS.CANCELLED => 2
  end.

(** A capped code has not been used more often than its cap. *)
Definition capRespected (c : ReferralCode) : Prop :=
  match maxUsage c with
  | Some m => m <> 0%Z -> (usageCount c <= m)%Z
  | None => True
  end.

(** A draw of [Math.random()]: at least 0 and less than 1. *)
Definition unitInterval (r : Q) : Prop := 0 <= r /\ r < 1.

(** Every character of a string occurs in the alphabet. *)
Fixpoint fromAlphabet (alphabet s : string) : Prop :=
  match s with
  | EmptyString => True
  | String c rest =>
      (exists i, String.get i alphabet = Some c) /\ fromAlphabet alphabet rest
  end.

(** The ten codes the issuance loop may try. *)
Definition candidateCodes (random : nat -> Q) : list string :=
  map (fun attempts => ReferralService.generateReferralCode random (8 * attempts))
      (seq 0 10).

(** A commission row as the accrual loop of [processOrderCommission]
    stores it for a referral. *)
Definition accruedFor (order : Order) (referral : Referral) (c : ReferralCommission)
  : Prop :=
  rc_referralId c = referral_id referral /\
  rc_orderId c = order_id order /\
  rc_commissionRate c = referral_commissionRate referral /\
  rc_status c = REFERRAL_COMMISSION_STATUS.EARNED /\
  rc_paidAt c = None /\
  payoutTransactionId c = None.

(* ------------------------------------------------------------------ *)
(** ** Scenarios *)

Module Scenario.

Definition productA : Product :=
  {| product_id := "product-A"; product_sellerId := Some "seller-A";
     regularPrice := Some (Fin 10) |}.

Definition productB : Product :=
  {| product_id := "product-B"; product_sellerId := Some "seller-B";
     regularPrice := Some (Fin 30) |}.

(** Seller A: price 10, quantity 2. *)
Definition itemA : OrderItem :=
  {| item_id := "item-1"; item_orderId := "order-1"; item_productId := "product-A";
     quantity := 2; unitPrice := Fin 10; totalPrice := Fin 20 |}.

(** Seller B: price 30, quantity 1. *)
Definition itemB : OrderItem :=
  {| item_id := "item-2"; item_orderId := "order-1"; item_productId := "product-B";
     quantity := 1; unitPrice := Fin 30; totalPrice := Fin 30 |}.

Definition order1 (status : ORDER_STATUS.t) : Order :=
  {| order_id := "order-1"; orderNumber := "ORD-0001"; order_status := status;
     totalAmount := Fin 50; trackingNumber := None;
     estimatedDeliveryDate := None; order_notes := None |}.

(** A store holding that single order in the given status. *)
Definition store (status : ORDER_STATUS.t) : Store :=
  {| orders := [order1 status];
     orderItems := [itemA; itemB];
     products := [productA; productB];
     statusHistory := [];
     commissions := [];
     notifications := [];
     console := [];
     now := 1700000000000;
     nextId := 0 |}.

Definition delivered : Store := store ORDER_STATUS.DELIVERED.

Definition acceptDto : SellerOrderAcceptDto :=
  {| accept_orderId := "order-1"; accept_notes := None;
     estimatedProcessingTime := Some 3%Z |}.


Definition updateDto (status : ORDER_STATUS.t) : SellerOrderUpdateDto :=
  {| update_orderId := "order-1"; update_status := status;
     update_notes := None; update_trackingNumber := None;
     update_estimatedDeliveryDate := None |}.

(** An update whose delivery date does not parse. *)
Definition badDateDto (status : ORDER_STATUS.t) : SellerOrderUpdateDto :=
  {| update_orderId := "order-1"; update_status := status;
     update_notes := None; update_trackingNumber := None;
     update_estimatedDeliveryDate := Some InvalidDate |}.

(** A commission service whose every call throws. *)
Definition failingService (st : Store) (orderId : string)
  : Store * Result (list Commission) :=
  (st, Throw "connection terminated").

(** One commission row of seller A in the given status. *)
Definition commissionRow (status : COMMISSION_STATUS.t) (amount : number) : Commission :=
  {| commission_id := "commission-1"; commission_orderId := "order-1";
     commission_sellerId := "seller-A"; orderAmount := Fin 50;
     commissionRate := Fin 10; commissionAmount := amount;
     commission_status := status; commission_notes := ""; paidAt := None |}.

Definition withCommission (status : COMMISSION_STATUS.t) (amount : number) : Store :=
  {| orders := [order1 ORDER_STATUS.DELIVERED];
     orderItems := [itemA; itemB];
     products := [productA; productB];
     statusHistory := [];
     commissions := [commissionRow status amount];
     notifications := [];
     console := [];
     now := 1700000000000;
     nextId := 1 |}.

Definition sellerCode : ReferralCode :=
  {| code_id := "code-1"; code_userId := "user-1"; code := "ABC12345";
     code_type := REFERRAL_TYPE.SELLER_ACCOUNT; code_commissionRate := Fin 10;
     isActive := true; code_expiresAt := None; usageCount := 0;
     maxUsage := Some 5%Z |}.

Definition referralDto (referred : string) : CreateReferralDto :=
  {| dto_referrerId := "user-1"; dto_referredId := referred;
     dto_type := REFERRAL_TYPE.SELLER_ACCOUNT; dto_referralCode := "ABC12345";
     dto_productId := None; dto_sellerId := Some "seller-9";
     dto_commissionRate := None |}.

Definition referralStore : ReferralStore :=
  {| referralCodes := [sellerCode];
     referrals := [];
     referralCommissions := [];
     sellers := [];
     clock := 1700000000000;
     nextReferralId := 0 |}.

(** An active seller-account referral at rate 10 for a seller whose
    revenue is 1000. *)
Definition activeReferral : Referral :=
  {| referral_id := "referral-1"; referrerId := "user-1"; referredId := "user-2";
     referral_type := REFERRAL_TYPE.SELLER_ACCOUNT;
     referral_status := REFERRAL_STATUS.ACTIVE;
     referralCode := Some "ABC12345"; referral_productId := None;
     referral_sellerId := Some "seller-9"; referral_commissionRate := Fin 10;
     totalCommission := Fin 0; referral_expiresAt := None;
     activatedAt := Some 1690000000000%Z; completedAt := None |}.

Definition approvalStore : ReferralStore :=
  {| referralCodes := [sellerCode];
     referrals := [activeReferral];
     referralCommissions := [];
     sellers := [{| seller_id := "seller-9"; totalRevenue := Fin 1000 |}];
     clock := 1700000000000;
     nextReferralId := 0 |}.

(** A random source that always returns 0: every candidate code is
    "AAAAAAAA". *)
Definition allZero (i : nat) : Q := 0.

Definition codeDto : CreateReferralCodeDto :=
  {| cdto_userId := "user-1"; cdto_type := REFERRAL_TYPE.PRODUCT;
     cdto_productId := None; cdto_commissionRate := Some (Fin 0);
     cdto_maxUsage := Some 3%Z; cdto_expiresAt := None |}.


(** A pending seller-account referral and the store holding it. *)
Definition pendingReferral : Referral :=
  {| referral_id := "referral-1"; referrerId := "user-1"; referredId := "user-2";
     referral_type := REFERRAL_TYPE.SELLER_ACCOUNT;
     referral_status := REFERRAL_STATUS.PENDING;
     referralCode := Some "ABC12345"; referral_productId := None;
     referral_sellerId := Some "seller-9"; referral_commissionRate := Fin 10;
     totalCommission := Fin 0; referral_expiresAt := None;
     activatedAt := None; completedAt := None |}.

Definition pendingStore : ReferralStore :=
  {| referralCodes := [sellerCode];
     referrals := [pendingReferral];
     referralCommissions := [];
     sellers := [{| seller_id := "seller-9"; totalRevenue := Fin 1000 |}];
     clock := 1700000000000;
     nextReferralId := 0 |}.

(** An active product referral of seller A's user and its store. *)
Definition productReferral : Referral :=
  {| referral_id := "referral-2"; referrerId := "seller-A"; referredId := "user-5";
     referral_type := REFERRAL_TYPE.PRODUCT;
     referral_status := REFERRAL_STATUS.ACTIVE;
     referralCode := Some "PRD00001"; referral_productId := Some "product-B";
     referral_sellerId := None; referral_commissionRate := Fin 5;
     totalCommission := Fin 0; referral_expiresAt := None;
     activatedAt := Some 1690000000000%Z; completedAt := None |}.

Definition productReferralStore : ReferralStore :=
  {| referralCodes := [];
     referrals := [productReferral];
     referralCommissions := [];
     sellers := [];
     clock := 1700000000000;
     nextReferralId := 0 |}.


(** An earned commission of the active referral, and a pending one,
    waiting in the store. *)
Definition earnedCommission : ReferralCommission :=
  {| rc_id := "rc-1"; rc_referralId := "referral-1"; rc_orderId := "order-2";
     rc_orderAmount := Fin 1000; rc_commissionRate := Fin 10;
     rc_commissionAmount := Fin 100;
     rc_status := REFERRAL_COMMISSION_STATUS.EARNED;
     rc_paidAt := None; payoutTransactionId := None |}.

Definition secondCommission : ReferralCommission :=
  {| rc_id := "rc-2"; rc_referralId := "referral-1"; rc_orderId := "order-1";
     rc_orderAmount := Fin 50; rc_commissionRate := Fin 10;
     rc_commissionAmount := Fin 5;
     rc_status := REFERRAL_COMMISSION_STATUS.EARNED;
     rc_paidAt := None; payoutTransactionId := None |}.

Definition payoutStore : ReferralStore :=
  {| referralCodes := [sellerCode];
     referrals := [activeReferral];
     referralCommissions := [earnedCommission; secondCommission];
     sellers := [{| seller_id := "seller-9"; totalRevenue := Fin 1000 |}];
     clock := 1700000000000;
     nextReferralId := 2 |}.

(** Text conversions for the scenarios: a stored decimal of 0 reads
    "0.00", the number 100 is appended as "100", and the column takes
    the text "0.00100", which it rounds to 0, and no other. *)
Definition decimalText (n : number) : string := "0.00".

Definition Number_toString (n : number) : string := "100".

Definition numeric_in (s : string) : option number :=
  if s =? "0.00100" then Some (Fin 0) else None.

End Scenario.

(* ------------------------------------------------------------------ *)
(** ** The transition table of the order lifecycle *)

Lemma isValidStatusTransition_allowed (currentStatus newStatus : ORDER_STATUS.t) :
  SellerOrderController.isValidStatusTransition currentStatus newStatus = true
  <-> allowed currentStatus newStatus.
Proof.
  split.
  - destruct currentStatus, newStatus; intro H;
      solve [ constructor | discriminate H ].
  - intro H; destruct H; reflexivity.
Qed.

Lemma isValidStatusTransition_not_allowed (currentStatus newStatus : ORDER_STATUS.t) :
  ~ allowed currentStatus newStatus ->
  SellerOrderController.isValidStatusTransition currentStatus newStatus = false.
Proof.
  intro H.
  destruct (SellerOrderController.isValidStatusTransition currentStatus newStatus) eqn:E;
    [ | reflexivity ].
  apply isValidStatusTransition_allowed in E. contradiction.
Qed.

Lemma length_nonzero {A : Type} (l : list A) :
  l <> [] -> (List.length l =? 0)%nat = false.
Proof.
  destruct l; simpl; intro H; [ contradiction H | ]; reflexivity.
Qed.

(** Every member read of the enumeration throws inside the service. *)
Lemma COMMISSION_STATUS_member_throws (member : string) (value : COMMISSION_STATUS.t) :
  CommissionService.COMMISSION_STATUS_member member value
  = Throw ("TypeError: Cannot read properties of undefined (reading '" ++ member ++ "')").
Proof. reflexivity. Qed.

(** The loop over the map stores nothing: it ends at once on an empty
    map and throws in its first turn otherwise. *)
Lemma saveCommissions_outcome (order : Order) (orderId : string)
      (m : CommissionService.SellerMap) (st : Store) (saved : list Commission) :
  CommissionService.saveCommissions order orderId m st saved
  = (st, match m with
         | [] => Return saved
         | _ :: _ =>
             Throw "TypeError: Cannot read properties of undefined (reading 'CALCULATED')"
         end).
Proof.
  destruct m as [ | e m ]; reflexivity.
Qed.

(** No call of the commission service writes anything. *)
Lemma calculateAndCreateCommission_unchanged (st : Store) (orderId : string) :
  fst (CommissionService.calculateAndCreateCommission st orderId) = st.
Proof.
  unfold CommissionService.calculateAndCreateCommission.
  destruct (findOrder st orderId) as [ order | ]; [ | reflexivity ].
  destruct (negb _); [ reflexivity | ].
  cbv zeta. rewrite saveCommissions_outcome. reflexivity.
Qed.

Lemma calculateAndCreateCommission_writesCommissionsOnly :
  writesCommissionsOnly CommissionService.calculateAndCreateCommission.
Proof.
  intros st orderId.
  rewrite calculateAndCreateCommission_unchanged. split; reflexivity.
Qed.

Lemma find_order_id (st : Store) (orderId : string) (order : Order) :
  findOrder st orderId = Some order -> order_id order = orderId.
Proof.
  unfold findOrder. intro H. apply find_some in H. destruct H as [ _ H ].
  apply String.eqb_eq. assumption.
Qed.

Lemma findOrder_saveOrder (st : Store) (orderId : string) (order order' : Order) :
  findOrder st orderId = Some order ->
  order_id order' = order_id order ->
  findOrder (saveOrder st order') orderId = Some order'.
Proof.
  intros Hfind Hid.
  pose proof (find_order_id _ _ _ Hfind) as Hoid.
  unfold findOrder in *. simpl.
  induction (orders st) as [ | x l IH ]; simpl in *; [ discriminate Hfind | ].
  destruct (order_id x =? orderId) eqn:Hx.
  - apply String.eqb_eq in Hx.
    replace (order_id x =? order_id order') with true
      by (symmetry; apply String.eqb_eq; congruence).
    replace (order_id order' =? orderId) with true
      by (symmetry; apply String.eqb_eq; congruence).
    reflexivity.
  - replace (order_id x =? order_id order') with false
      by (rewrite Hid, Hoid, Hx; reflexivity).
    rewrite Hx. apply IH. assumption.
Qed.

Lemma findOrder_saveOrder_other (st : Store) (orderId : string) (order' : Order) :
  order_id order' <> orderId ->
  findOrder (saveOrder st order') orderId = findOrder st orderId.
Proof.
  intro Hne. unfold findOrder. simpl.
  assert (Hne' : (order_id order' =? orderId) = false)
    by (apply String.eqb_neq; assumption).
  induction (orders st) as [ | x l IH ]; simpl; [ reflexivity | ].
  destruct (order_id x =? order_id order') eqn:Hx.
  - apply String.eqb_eq in Hx. rewrite Hx, Hne'. exact IH.
  - destruct (order_id x =? orderId); [ reflexivity | exact IH ].
Qed.

Lemma findOrder_orders (st st' : Store) (orderId : string) :
  orders st' = orders st -> findOrder st' orderId = findOrder st orderId.
Proof.
  unfold findOrder. intro H. rewrite H. reflexivity.
Qed.

(** The save of an updated order fails exactly for a date that does not
    parse. *)
Lemma saveUpdatedOrder_outcome (st : Store) (dto : SellerOrderUpdateDto) (order' : Order) :
  (exists error, SellerOrderController.saveUpdatedOrder st dto order' = Throw error) \/
  SellerOrderController.saveUpdatedOrder st dto order' = Return (saveOrder st order').
Proof.
  unfold SellerOrderController.saveUpdatedOrder.
  destruct (update_estimatedDeliveryDate dto) as [ [ milliseconds | ] | ];
    [ right; reflexivity | left; eexists; reflexivity | right; reflexivity ].
Qed.

Lemma saveUpdatedOrder_valid (st : Store) (dto : SellerOrderUpdateDto) (order' : Order) :
  update_estimatedDeliveryDate dto <> Some InvalidDate ->
  SellerOrderController.saveUpdatedOrder st dto order' = Return (saveOrder st order').
Proof.
  intro H. unfold SellerOrderController.saveUpdatedOrder.
  destruct (update_estimatedDeliveryDate dto) as [ [ milliseconds | ] | ];
    [ reflexivity | contradiction H; reflexivity | reflexivity ].
Qed.

(** Consistency of the history looks at orders and history rows only. *)
Lemma consistentHistory_frame (st st' : Store) :
  orders st' = orders st ->
  statusHistory st' = statusHistory st ->
  consistentHistory st -> consistentHistory st'.
Proof.
  intros Ho Hh [ Hall Hper ]. unfold consistentHistory, historyOf, findOrder in *.
  rewrite Ho, Hh. split; assumption.
Qed.

(** What a successful status update does to orders and history,
    whatever the service. *)
Lemma updateOrderStatusWith_outcome
      (service : Store -> string -> Store * Result (list Commission))
      (st : Store) (user : option string) (dto : SellerOrderUpdateDto) :
  writesCommissionsOnly service ->
  (orders (fst (SellerOrderController.updateOrderStatusWith service st user dto))
   = orders st /\
   statusHistory (fst (SellerOrderController.updateOrderStatusWith service st user dto))
   = statusHistory st)
  \/ exists order order' h,
      findOrder st (update_orderId dto) = Some order /\
      allowed (order_status order) (update_status dto) /\
      order_id order' = order_id order /\
      order_status order' = update_status dto /\
      history_orderId h = update_orderId dto /\
      previousStatus h = order_status order /\
      history_status h = update_status dto /\
      orders (fst (SellerOrderController.updateOrderStatusWith service st user dto))
      = orders (saveOrder st order') /\
      statusHistory (fst (SellerOrderController.updateOrderStatusWith service st user dto))
      = (statusHistory st ++ [h])%list.
Proof.
  intro Hframe.
  unfold SellerOrderController.updateOrderStatusWith.
  destruct (negb (truthy_string user)); [ left; split; reflexivity | ].
  cbv zeta.
  destruct (List.length _ =? 0)%nat; [ left; split; reflexivity | ].
  destruct (findOrder st (update_orderId dto)) as [ order | ] eqn:Hfind;
    [ | left; split; reflexivity ].
  destruct (SellerOrderController.isValidStatusTransition _ _) eqn:Hvalid;
    [ | left; split; reflexivity ].
  simpl negb. cbv iota.
  destruct (saveUpdatedOrder_outcome st dto (SellerOrderController.updatedOrder order dto))
    as [ (error & E) | E ]; rewrite E; [ left; split; reflexivity | ].
  right.
  exists order, (SellerOrderController.updatedOrder order dto).
  exists (SellerOrderController.updateHistory
            (saveOrder st (SellerOrderController.updatedOrder order dto))
            dto (order_status order)).
  apply isValidStatusTransition_allowed in Hvalid.
  split; [ reflexivity | ]. split; [ assumption | ].
  split; [ reflexivity | ]. split; [ reflexivity | ].
  split; [ reflexivity | ]. split; [ reflexivity | ]. split; [ reflexivity | ].
  cbn [fst].
  destruct (ORDER_STATUS.eqb _ _); [ | split; reflexivity ].
  match goal with
  | |- context [ service ?s ?i ] =>
      destruct (Hframe s i) as [ Ho Hh ]; destruct (service s i) as [ st' [ rows | error ] ]
  end; cbn [fst] in Ho, Hh; simpl; rewrite Ho, Hh; split; reflexivity.
Qed.

Lemma acceptOrder_outcome (st : Store) (user : option string)
      (dto : SellerOrderAcceptDto) :
  fst (SellerOrderController.acceptOrder st user dto) = st
  \/ exists order order' h,
      findOrder st (accept_orderId dto) = Some order /\
      order_status order = ORDER_STATUS.SELLER_NOTIFIED /\
      order_id order' = order_id order /\
      order_status order' = ORDER_STATUS.SELLER_ACCEPTED /\
      history_orderId h = accept_orderId dto /\
      previousStatus h = ORDER_STATUS.SELLER_NOTIFIED /\
      history_status h = ORDER_STATUS.SELLER_ACCEPTED /\
      orders (fst (SellerOrderController.acceptOrder st user dto))
      = orders (saveOrder st order') /\
      statusHistory (fst (SellerOrderController.acceptOrder st user dto))
      = (statusHistory st ++ [h])%list.
Proof.
  unfold SellerOrderController.acceptOrder.
  destruct (negb (truthy_string user)); [ left; reflexivity | ].
  cbv zeta.
  destruct (List.length _ =? 0)%nat; [ left; reflexivity | ].
  destruct (findOrder st (accept_orderId dto)) as [ order | ]; [ | left; reflexivity ].
  unfold ORDER_STATUS.eqb.
  destruct (ORDER_STATUS.eq_dec (order_status order) ORDER_STATUS.SELLER_NOTIFIED)
    as [ Hstatus | _ ]; [ | left; reflexivity ].
  right. simpl negb. cbv iota.
  exists order. eexists. eexists.
  split; [ reflexivity | ]. split; [ assumption | ].
  refine (conj _ (conj _ (conj _ (conj _ (conj _ (conj eq_refl eq_refl)))))); reflexivity.
Qed.

Lemma chained_app (rows : list OrderStatusHistory) (h : OrderStatusHistory) :
  chained rows ->
  (forall h0, lastRow rows = Some h0 -> previousStatus h = history_status h0) ->
  chained (rows ++ [h]).
Proof.
  induction rows as [ | x rest IH ]; intros Hc Hlast.
  - simpl. auto.
  - destruct rest as [ | y rest' ].
    + simpl. split; [ apply Hlast; reflexivity | auto ].
    + destruct Hc as [ Hxy Hrest ].
      change ((x :: y :: rest') ++ [h])%list with (x :: ((y :: rest') ++ [h]))%list.
      split; [ exact Hxy | ].
      apply IH; [ exact Hrest | ]. intros h0 Hh0. apply Hlast. exact Hh0.
Qed.

Lemma lastRow_app (rows : list OrderStatusHistory) (h : OrderStatusHistory) :
  lastRow (rows ++ [h]) = Some h.
Proof.
  induction rows as [ | x rest IH ]; [ reflexivity | ].
  destruct rest as [ | y rest' ]; [ reflexivity | ].
  change ((x :: y :: rest') ++ [h])%list with (x :: ((y :: rest') ++ [h]))%list.
  change (lastRow (x :: ((y :: rest') ++ [h])%list))
    with (lastRow ((y :: rest') ++ [h])%list).
  exact IH.
Qed.

(** Linked rows that are each in the table replay as transitions of
    the table. *)
Lemma chained_replayAllowed (rows : list OrderStatusHistory) :
  chained rows -> Forall history_allowed rows -> replayAllowed rows.
Proof.
  unfold replayAllowed.
  induction rows as [ | x rest IH ]; intros Hc Hall.
  - constructor.
  - inversion Hall as [ | ? ? Hx Hrest ]; subst.
    destruct Hc as [ Hlink Hc ].
    destruct rest as [ | y rest' ].
    + simpl. constructor; [ exact Hx | constructor ].
    + specialize (IH Hc Hrest).
      change (transitions (recordedStatuses (x :: y :: rest')))
        with ((previousStatus x, history_status x)
                :: transitions (history_status x :: map history_status (y :: rest'))).
      constructor; [ exact Hx | ].
      rewrite <- Hlink. exact IH.
Qed.

(** One persisted transition keeps the history consistent. *)
Lemma transition_consistent (st st' : Store) (orderId : string)
      (order order' : Order) (h : OrderStatusHistory) :
  consistentHistory st ->
  findOrder st orderId = Some order ->
  order_id order' = order_id order ->
  history_orderId h = orderId ->
  previousStatus h = order_status order ->
  history_status h = order_status order' ->
  allowed (previousStatus h) (history_status h) ->
  orders st' = orders (saveOrder st order') ->
  statusHistory st' = (statusHistory st ++ [h])%list ->
  consistentHistory st'.
Proof.
  intros [ Hall Hper ] Hfind Hid Hh Hprev Hnext Hallowed Horders Hhistory.
  split.
  - rewrite Hhistory. apply Forall_app. split; [ assumption | ].
    constructor; [ exact Hallowed | constructor ].
  - intro orderId'. destruct (Hper orderId') as [ Hchain Hlast ].
    unfold historyOf in *. rewrite Hhistory, filter_app. simpl.
    destruct (history_orderId h =? orderId') eqn:Hsame.
    + apply String.eqb_eq in Hsame. rewrite Hh in Hsame. subst orderId'.
      split.
      * apply chained_app; [ assumption | ].
        intros h0 Hh0. rewrite Hprev. symmetry. apply (Hlast order h0); assumption.
      * intros o hl Ho Hl. rewrite lastRow_app in Hl. injection Hl as Hl. subst hl.
        rewrite (findOrder_orders (saveOrder st order') st' orderId Horders) in Ho.
        rewrite (findOrder_saveOrder st orderId order order' Hfind Hid) in Ho.
        injection Ho as Ho. subst o. exact Hnext.
    + rewrite app_nil_r. split; [ assumption | ].
      intros o hl Ho Hl. apply (Hlast o hl); [ | assumption ].
      rewrite (findOrder_orders (saveOrder st order') st' orderId' Horders) in Ho.
      rewrite findOrder_saveOrder_other in Ho; [ assumption | ].
      apply String.eqb_neq in Hsame.
      rewrite Hid, (find_order_id _ _ _ Hfind), <- Hh. exact Hsame.
Qed.

Lemma handle_consistent (st : Store) (r : SellerRequest) :
  consistentHistory st -> consistentHistory (handle st r).
Proof.
  intro H. destruct r as [ user dto | user dto ]; simpl.
  - destruct (acceptOrder_outcome st user dto)
      as [ E | (order & order' & h & Hfind & Hs & Hid & Hs' & Hh & Hp & Hn & Ho & Hhist) ];
      [ rewrite E; assumption | ].
    apply (transition_consistent st _ (accept_orderId dto) order order' h);
      try assumption.
    + rewrite Hp, Hs. reflexivity.
    + rewrite Hn, Hs'. reflexivity.
    + rewrite Hp, Hn. constructor.
  - unfold SellerOrderController.updateOrderStatus.
    destruct (updateOrderStatusWith_outcome _ st user dto
                calculateAndCreateCommission_writesCommissionsOnly)
      as [ (Ho & Hh)
         | (order & order' & h & Hfind & Hallowed & Hid & Hs' & Hh & Hp & Hn & Ho & Hhist) ];
      [ apply (consistentHistory_frame st); assumption | ].
    apply (transition_consistent st _ (update_orderId dto) order order' h);
      try assumption.
    + rewrite Hn, Hs'. reflexivity.
    + rewrite Hp, Hn. assumption.
Qed.

Lemma handleAll_consistent (rs : list SellerRequest) (st : Store) :
  consistentHistory st -> consistentHistory (handleAll rs st).
Proof.
  revert st. induction rs as [ | r rs IH ]; intros st H; simpl.
  - assumption.
  - apply IH. apply handle_consistent. assumption.
Qed.

Lemma Forall_filter {A : Type} (P : A -> Prop) (f : A -> bool) (l : list A) :
  Forall P l -> Forall P (filter f l).
Proof.
  intro H. apply Forall_forall. intros x Hx.
  apply filter_In in Hx. destruct Hx as [ Hx _ ].
  rewrite Forall_forall in H. apply H. assumption.
Qed.

(** C1. [updateOrderStatus] answers 200 only for a pair (current status,
    requested status) of the allowed transition table; for a request that
    passes authentication, ownership and lookup but asks for a pair
    outside the table it answers 400 "Invalid status transition" and
    leaves the store untouched; hence, from a consistent history, after
    any sequence of seller requests every row of an order's history is a
    transition of the table, the rows link up, and the replayed sequence
    of statuses only steps along the table. *)
Theorem updateOrderStatus_respects_transition_table :
  forall (st : Store) (user : option string) (dto : SellerOrderUpdateDto),
    (statusCode (snd (SellerOrderController.updateOrderStatus st user dto)) = 200%Z ->
     exists order,
       findOrder st (update_orderId dto) = Some order /\
       allowed (order_status order) (update_status dto)) /\
    (forall order,
        truthy_string user = true ->
        findItemsOfSeller st (update_orderId dto) (or_empty user) <> [] ->
        findOrder st (update_orderId dto) = Some order ->
        ~ allowed (order_status order) (update_status dto) ->
        SellerOrderController.updateOrderStatus st user dto
        = (st, respond 400 (Message "Invalid status transition"))) /\
    (forall (requests : list SellerRequest) (orderId : string),
        consistentHistory st ->
        consistentHistory (handleAll requests st) /\
        Forall history_allowed (historyOf (handleAll requests st) orderId) /\
        replayAllowed (historyOf (handleAll requests st) orderId)).
Proof.
  intros st user dto. split; [ | split ].
  - unfold SellerOrderController.updateOrderStatus,
      SellerOrderController.updateOrderStatusWith.
    destruct (negb (truthy_string user)); [ intro H; discriminate H | ].
    cbv zeta.
    destruct (List.length _ =? 0)%nat; [ intro H; discriminate H | ].
    destruct (findOrder st (update_orderId dto)) as [ order | ];
      [ | intro H; discriminate H ].
    destruct (SellerOrderController.isValidStatusTransition _ _) eqn:Hvalid;
      [ | intro H; discriminate H ].
    intros _. exists order. split; [ reflexivity | ].
    apply isValidStatusTransition_allowed. assumption.
  - intros order Huser Hitems Hfind Hnot.
    unfold SellerOrderController.updateOrderStatus,
      SellerOrderController.updateOrderStatusWith.
    rewrite Huser. simpl negb. cbv iota zeta.
    rewrite (length_nonzero _ Hitems), Hfind.
    rewrite (isValidStatusTransition_not_allowed _ _ Hnot). reflexivity.
  - intros requests orderId H.
    pose proof (handleAll_consistent requests st H) as Hc.
    split; [ exact Hc | ].
    destruct Hc as [ Hall Hper ].
    assert (Hrows : Forall history_allowed (historyOf (handleAll requests st) orderId))
      by (apply Forall_filter; assumption).
    split; [ exact Hrows | ].
    apply chained_replayAllowed; [ apply Hper | exact Hrows ].
Qed.

Lemma updateOrderStatus_respects_transition_table_witness :
  (exists order,
      findOrder (Scenario.store ORDER_STATUS.SHIPPED) "order-1" = Some order /\
      allowed (order_status order) ORDER_STATUS.DELIVERED) /\
  SellerOrderController.updateOrderStatus
    (Scenario.store ORDER_STATUS.SHIPPED) (Some "seller-A")
    (Scenario.updateDto ORDER_STATUS.PROCESSING)
  = (Scenario.store ORDER_STATUS.SHIPPED,
     respond 400 (Message "Invalid status transition")) /\
  replayAllowed
         (historyOf
            (handleAll
               [UpdateOrderStatus (Some "seller-A")
                                  (Scenario.updateDto ORDER_STATUS.DELIVERED);
                UpdateOrderStatus (Some "seller-B")
                                  (Scenario.updateDto ORDER_STATUS.RETURNED);
                AcceptOrder (Some "seller-A") Scenario.acceptDto]
               (Scenario.store ORDER_STATUS.SHIPPED))
            "order-1").
Proof.
  split; [ | split ].
  - apply (updateOrderStatus_respects_transition_table
             (Scenario.store ORDER_STATUS.SHIPPED) (Some "seller-A")
             (Scenario.updateDto ORDER_STATUS.DELIVERED)).
    reflexivity.
  - apply (updateOrderStatus_respects_transition_table
             (Scenario.store ORDER_STATUS.SHIPPED) (Some "seller-A")
             (Scenario.updateDto ORDER_STATUS.PROCESSING))
      with (order := Scenario.order1 ORDER_STATUS.SHIPPED).
    + reflexivity.
    + vm_compute. intro H. discriminate H.
    + reflexivity.
    + simpl. intro H. inversion H.
  - apply (updateOrderStatus_respects_transition_table
             (Scenario.store ORDER_STATUS.SHIPPED) (Some "seller-A")
             (Scenario.updateDto ORDER_STATUS.DELIVERED)).
    split; [ constructor | ].
    intro orderId. split; [ exact I | ].
    intros order h _ Hlast. discriminate Hlast.
Defined.

(* ------------------------------------------------------------------ *)
(** ** The grouping loop of calculateAndCreateCommission *)

Lemma Map_has_In (m : CommissionService.SellerMap) (k : string) :
  CommissionService.Map_has m k = true <-> In k (map fst m).
Proof.
  unfold CommissionService.Map_has. rewrite existsb_exists. split.
  - intros (e & He & Hk). apply String.eqb_eq in Hk. subst k.
    apply in_map. assumption.
  - intro H. apply in_map_iff in H. destruct H as (e & Hk & He).
    exists e. split; [ assumption | ]. apply String.eqb_eq. assumption.
Qed.

Lemma Map_add_amount_keys (m : CommissionService.SellerMap) (k : string) (x : number) :
  map fst (CommissionService.Map_add_amount m k x) = map fst m.
Proof.
  unfold CommissionService.Map_add_amount. rewrite map_map.
  apply map_ext. intro e. destruct (fst e =? k); reflexivity.
Qed.

Lemma groupItem_keys (st : Store) (m : CommissionService.SellerMap) (item : OrderItem) :
  map fst (CommissionService.groupItem st m item)
  = match item_seller st item with
    | Some s => if CommissionService.Map_has m s
                then map fst m
                else (map fst m ++ [s])%list
    | None => map fst m
    end.
Proof.
  unfold CommissionService.groupItem, item_seller.
  destruct (item_product st item) as [ p | ]; [ | reflexivity ].
  destruct (product_sellerId p) as [ s | ]; [ | reflexivity ].
  destruct (truthy_string (Some s)); [ | reflexivity ].
  destruct (CommissionService.Map_has m s).
  - apply Map_add_amount_keys.
  - unfold CommissionService.Map_set_new. rewrite map_app. reflexivity.
Qed.

Lemma groupItem_NoDup (st : Store) (m : CommissionService.SellerMap) (item : OrderItem) :
  NoDup (map fst m) -> NoDup (map fst (CommissionService.groupItem st m item)).
Proof.
  intro H. rewrite groupItem_keys.
  destruct (item_seller st item) as [ s | ]; [ | assumption ].
  destruct (CommissionService.Map_has m s) eqn:Hhas; [ assumption | ].
  apply NoDup_app; [ assumption | repeat constructor; intros [] | ].
  intros x Hx [ Hs | [] ]. subst x.
  apply Map_has_In in Hx. congruence.
Qed.

Lemma groupItem_In (st : Store) (m : CommissionService.SellerMap) (item : OrderItem)
      (k : string) :
  In k (map fst (CommissionService.groupItem st m item))
  <-> In k (map fst m) \/ item_seller st item = Some k.
Proof.
  rewrite groupItem_keys.
  destruct (item_seller st item) as [ s | ].
  - destruct (CommissionService.Map_has m s) eqn:Hhas.
    + split; [ auto | ]. intros [ H | H ]; [ assumption | ].
      injection H as H. subst s. apply Map_has_In. assumption.
    + rewrite in_app_iff. simpl. split.
      * intros [ H | [ H | [] ] ]; [ auto | subst; auto ].
      * intros [ H | H ]; [ auto | injection H as H; auto ].
  - split; [ auto | ]. intros [ H | H ]; [ assumption | discriminate H ].
Qed.

Lemma fold_groupItem_NoDup (st : Store) (items : list OrderItem)
      (m : CommissionService.SellerMap) :
  NoDup (map fst m) ->
  NoDup (map fst (fold_left (CommissionService.groupItem st) items m)).
Proof.
  revert m. induction items as [ | item items IH ]; intros m H; simpl.
  - assumption.
  - apply IH. apply groupItem_NoDup. assumption.
Qed.

Lemma fold_groupItem_In (st : Store) (items : list OrderItem)
      (m : CommissionService.SellerMap) (k : string) :
  In k (map fst (fold_left (CommissionService.groupItem st) items m))
  <-> In k (map fst m) \/ exists item, In item items /\ item_seller st item = Some k.
Proof.
  revert m. induction items as [ | item items IH ]; intro m; simpl.
  - split; [ auto | ]. intros [ H | (item & [] & _) ]. assumption.
  - rewrite IH, groupItem_In. split.
    + intros [ [ H | H ] | (i & Hi & Hs) ].
      * auto.
      * right. exists item. auto.
      * right. exists i. auto.
    + intros [ H | (i & [ Hi | Hi ] & Hs) ].
      * auto.
      * subst i. auto.
      * right. exists i. auto.
Qed.

(** The map built for an order has one key per represented seller. *)
Lemma groupItems_keys (st : Store) (order : Order) :
  let m := CommissionService.groupItems st (order_items st order) in
  NoDup (map fst m) /\
  forall sellerId, In sellerId (map fst m) <-> represented st order sellerId = true.
Proof.
  cbv zeta. unfold CommissionService.groupItems. split.
  - apply fold_groupItem_NoDup. constructor.
  - intro sellerId. rewrite fold_groupItem_In. unfold represented.
    rewrite existsb_exists. split.
    + intros [ [] | (item & Hi & Hs) ]. exists item. split; [ assumption | ].
      rewrite Hs. apply String.eqb_refl.
    + intros (item & Hi & Hs). right. exists item. split; [ assumption | ].
      destruct (item_seller st item) as [ s | ]; [ | discriminate Hs ].
      apply String.eqb_eq in Hs. subst s. reflexivity.
Qed.

(** Reading [item.price] makes the commission of every item [NaN], and
    [NaN] is absorbing for the running sum. *)
Lemma groupItem_amounts (st : Store) (m : CommissionService.SellerMap) (item : OrderItem) :
  Forall (fun e => CommissionService.amount (snd e) = NaN
                   /\ CommissionService.rate (snd e) = Fin 10) m ->
  Forall (fun e => CommissionService.amount (snd e) = NaN
                   /\ CommissionService.rate (snd e) = Fin 10)
         (CommissionService.groupItem st m item).
Proof.
  intro H. unfold CommissionService.groupItem.
  destruct (item_product st item) as [ p | ]; [ | assumption ].
  destruct (product_sellerId p) as [ s | ]; [ | assumption ].
  destruct (truthy_string (Some s)); [ | assumption ].
  destruct (CommissionService.Map_has m s).
  - unfold CommissionService.Map_add_amount.
    apply Forall_forall. intros e He. apply in_map_iff in He.
    destruct He as (e0 & He & Hin). rewrite Forall_forall in H.
    destruct (H e0 Hin) as [ Ha Hr ].
    destruct (fst e0 =? s); subst e; simpl.
    + rewrite Ha. split; [ reflexivity | assumption ].
    + split; assumption.
  - unfold CommissionService.Map_set_new. apply Forall_app. split; [ assumption | ].
    constructor; [ | constructor ]. simpl. split; reflexivity.
Qed.

Lemma groupItems_amounts (st : Store) (items : list OrderItem) :
  Forall (fun e => CommissionService.amount (snd e) = NaN
                   /\ CommissionService.rate (snd e) = Fin 10)
         (CommissionService.groupItems st items).
Proof.
  unfold CommissionService.groupItems.
  assert (H : Forall (fun e : string * CommissionService.CommissionData =>
                        CommissionService.amount (snd e) = NaN
                        /\ CommissionService.rate (snd e) = Fin 10) [])
    by constructor.
  revert H. generalize (@nil (string * CommissionService.CommissionData)).
  induction items as [ | item items IH ]; intros m H; simpl.
  - assumption.
  - apply IH. apply groupItem_amounts. assumption.
Qed.


(* ------------------------------------------------------------------ *)
(** ** What calculateAndCreateCommission does *)

Lemma represented_frame (st st' : Store) (order : Order) (sellerId : string) :
  orderItems st' = orderItems st ->
  products st' = products st ->
  represented st' order sellerId = represented st order sellerId.
Proof.
  intros Hi Hp. unfold represented, order_items, item_seller, item_product.
  rewrite Hi, Hp. reflexivity.
Qed.

(** The map is empty exactly when no seller is represented. *)
Lemma groupItems_represented (st : Store) (order : Order) (sellerId : string) :
  represented st order sellerId = true ->
  CommissionService.groupItems st (order_items st order) <> [].
Proof.
  intros H Hnil.
  destruct (groupItems_keys st order) as [ _ Hkeys ]. cbv zeta in Hkeys.
  apply Hkeys in H. rewrite Hnil in H. exact H.
Qed.

Lemma groupItems_unrepresented (st : Store) (order : Order) :
  (forall sellerId, represented st order sellerId = false) ->
  CommissionService.groupItems st (order_items st order) = [].
Proof.
  intro H.
  destruct (groupItems_keys st order) as [ _ Hkeys ]. cbv zeta in Hkeys.
  destruct (CommissionService.groupItems st (order_items st order)) as [ | e m ];
    [ reflexivity | exfalso ].
  specialize (Hkeys (fst e)). rewrite H in Hkeys.
  assert (Hin : In (fst e) (map fst (e :: m))) by (left; reflexivity).
  apply Hkeys in Hin. discriminate Hin.
Qed.

(** On a delivered order the call stores nothing; it returns the empty
    list when no item has a seller and throws otherwise. *)
Lemma calculateAndCreateCommission_delivered (st : Store) (orderId : string)
      (order : Order) :
  findOrder st orderId = Some order ->
  order_status order = ORDER_STATUS.DELIVERED ->
  CommissionService.calculateAndCreateCommission st orderId
  = (st, match CommissionService.groupItems st (order_items st order) with
         | [] => Return []
         | _ :: _ =>
             Throw "TypeError: Cannot read properties of undefined (reading 'CALCULATED')"
         end).
Proof.
  intros Hfind Hstatus. unfold CommissionService.calculateAndCreateCommission.
  rewrite Hfind, Hstatus. simpl negb. cbv iota zeta.
  apply saveCommissions_outcome.
Qed.

Lemma calculateAndCreateCommission_throws (st : Store) (orderId sellerId : string)
      (order : Order) :
  findOrder st orderId = Some order ->
  order_status order = ORDER_STATUS.DELIVERED ->
  represented st order sellerId = true ->
  CommissionService.calculateAndCreateCommission st orderId
  = (st, Throw "TypeError: Cannot read properties of undefined (reading 'CALCULATED')").
Proof.
  intros Hfind Hstatus Hrep.
  rewrite (calculateAndCreateCommission_delivered st orderId order Hfind Hstatus).
  pose proof (groupItems_represented st order sellerId Hrep) as Hne.
  destruct (CommissionService.groupItems st (order_items st order));
    [ contradiction Hne; reflexivity | reflexivity ].
Qed.

Lemma invoke_unchanged (n : nat) (st : Store) (orderId : string) :
  invoke n st orderId = st.
Proof.
  induction n as [ | n IH ]; simpl; [ reflexivity | ].
  rewrite calculateAndCreateCommission_unchanged. exact IH.
Qed.

(** C2.  The service imports [COMMISSION_STATUS] from a module that
    does not export it.  For a delivered order and a seller represented
    in it, every invocation of [calculateAndCreateCommission] throws a
    TypeError before its first save: the store is as it was after any
    number of invocations, so the seller has as many non-cancelled
    Commission rows as before, none when there was none, where the
    specification promises exactly one. *)
Theorem invocations_create_no_commission :
  forall (n : nat) (st : Store) (orderId sellerId : string) (order : Order),
    findOrder st orderId = Some order ->
    order_status order = ORDER_STATUS.DELIVERED ->
    represented st order sellerId = true ->
    CommissionService.calculateAndCreateCommission st orderId
    = (st, Throw "TypeError: Cannot read properties of undefined (reading 'CALCULATED')") /\
    invoke n st orderId = st /\
    nonCancelledCount (invoke n st orderId) orderId sellerId
    = nonCancelledCount st orderId sellerId.
Proof.
  intros n st orderId sellerId order Hfind Hstatus Hrep.
  split; [ exact (calculateAndCreateCommission_throws st orderId sellerId order
                    Hfind Hstatus Hrep) | ].
  rewrite invoke_unchanged. split; reflexivity.
Qed.

Lemma invocations_create_no_commission_witness :
  represented Scenario.delivered (Scenario.order1 ORDER_STATUS.DELIVERED) "seller-A" = true /\
  nonCancelledCount (invoke 1 Scenario.delivered "order-1") "order-1" "seller-A" = 0%nat /\
  nonCancelledCount (invoke 3 Scenario.delivered "order-1") "order-1" "seller-A" = 0%nat.
Proof.
  split; [ reflexivity | ]. split.
  - rewrite (proj2 (proj2 (invocations_create_no_commission
                             1 Scenario.delivered "order-1" "seller-A"
                             (Scenario.order1 ORDER_STATUS.DELIVERED)
                             eq_refl eq_refl eq_refl))).
    reflexivity.
  - rewrite (proj2 (proj2 (invocations_create_no_commission
                             3 Scenario.delivered "order-1" "seller-A"
                             (Scenario.order1 ORDER_STATUS.DELIVERED)
                             eq_refl eq_refl eq_refl))).
    reflexivity.
Defined.

(** C3.  On the order of the scenario (seller A: price 10, quantity 2;
    seller B: price 30, quantity 1) the grouping loop does group by
    seller at rate 10, but it multiplies the quantity by [item.price],
    which no order item has, so both grouped amounts are [NaN] and not
    2 and 3; and creating the first row throws the TypeError of the
    missing import, so no Commission row is stored or returned.  For
    every delivered order the grouped amounts are [NaN] and nothing is
    stored. *)
Theorem scenario_commissions_are_never_stored :
  let st := Scenario.delivered in
  let grouped :=
    CommissionService.groupItems st (order_items st (Scenario.order1 ORDER_STATUS.DELIVERED)) in
  (map fst grouped = ["seller-A"; "seller-B"] /\
   map (fun e => CommissionService.rate (snd e)) grouped = [Fin 10; Fin 10] /\
   map (fun e => CommissionService.amount (snd e)) grouped = [NaN; NaN] /\
   ~ num_eq NaN (Fin 2) /\ ~ num_eq NaN (Fin 3)) /\
  CommissionService.calculateAndCreateCommission st "order-1"
  = (st, Throw "TypeError: Cannot read properties of undefined (reading 'CALCULATED')") /\
  commissions (fst (CommissionService.calculateAndCreateCommission st "order-1")) = [] /\
  (forall (st' : Store) (orderId : string) (order : Order),
      findOrder st' orderId = Some order ->
      order_status order = ORDER_STATUS.DELIVERED ->
      Forall (fun e => CommissionService.amount (snd e) = NaN)
             (CommissionService.groupItems st' (order_items st' order)) /\
      fst (CommissionService.calculateAndCreateCommission st' orderId) = st' /\
      forall rows,
        snd (CommissionService.calculateAndCreateCommission st' orderId) = Return rows ->
        rows = []).
Proof.
  cbv zeta. split; [ | split; [ | split ] ].
  - split; [ reflexivity | ]. split; [ reflexivity | ]. split; [ reflexivity | ].
    split; intro H; exact H.
  - reflexivity.
  - reflexivity.
  - intros st' orderId order Hfind Hstatus. split; [ | split ].
    + pose proof (groupItems_amounts st' (order_items st' order)) as H.
      rewrite Forall_forall in *. intros e He. apply (H e He).
    + apply calculateAndCreateCommission_unchanged.
    + intros rows.
      rewrite (calculateAndCreateCommission_delivered st' orderId order Hfind Hstatus).
      destruct (CommissionService.groupItems st' (order_items st' order)); simpl;
        intro H; [ injection H as H; subst rows; reflexivity | discriminate H ].
Qed.


(* ------------------------------------------------------------------ *)
(** ** markCommissionAsPaid of the platform commission service *)

(** C5.  The platform [markCommissionAsPaid] marks nothing paid: for a
    commission that exists, whatever its status, it throws the
    TypeError of the missing import at [COMMISSION_STATUS.PAID], before
    it assigns the status or the date, and the store is unchanged; for
    an id without commission it throws "Commission not found".  It has
    no payout reference parameter and no check of the status. *)
Theorem markCommissionAsPaid_marks_nothing_paid :
  forall (st : Store) (commissionId : string),
    fst (CommissionService.markCommissionAsPaid st commissionId) = st /\
    (forall paid,
        snd (CommissionService.markCommissionAsPaid st commissionId) <> Return paid) /\
    (forall commission,
        find (fun c => commission_id c =? commissionId) (commissions st) = Some commission ->
        CommissionService.markCommissionAsPaid st commissionId
        = (st, Throw "TypeError: Cannot read properties of undefined (reading 'PAID')")) /\
    (find (fun c => commission_id c =? commissionId) (commissions st) = None ->
     CommissionService.markCommissionAsPaid st commissionId
     = (st, Throw "Commission not found")).
Proof.
  intros st commissionId. unfold CommissionService.markCommissionAsPaid.
  destruct (find _ (commissions st)) as [ commission | ]; simpl.
  - split; [ reflexivity | ]. split; [ intros paid H; discriminate H | ].
    split; [ intros c _; reflexivity | intro H; discriminate H ].
  - split; [ reflexivity | ]. split; [ intros paid H; discriminate H | ].
    split; [ intros c H; discriminate H | intros _; reflexivity ].
Qed.

(* ------------------------------------------------------------------ *)
(** ** The commission summary of a seller *)

(** The status filters throw on the first row they meet. *)
Lemma filterByStatus_outcome (member : string) (value : COMMISSION_STATUS.t)
      (rows : list Commission) :
  CommissionService.filterByStatus member value rows
  = match rows with
    | [] => Return []
    | _ :: _ =>
        Throw ("TypeError: Cannot read properties of undefined (reading '"
               ++ member ++ "')")
    end.
Proof.
  destruct rows as [ | c rows ]; reflexivity.
Qed.

(** C10.  [getCommissionSummary] returns only for a seller without
    Commission rows, and then all three sums are 0 and the count is 0.
    For a seller with at least one row the filter for the paid rows
    reads [COMMISSION_STATUS.PAID] and throws the TypeError of the
    missing import, and the controller answers 500 after logging the
    error: no totalEarned, totalPaid or pendingAmount is returned. *)
Theorem getCommissionSummary_fails_on_rows :
  forall (st : Store) (sellerId : string),
    (commissionsOf st sellerId = [] ->
     CommissionService.getCommissionSummary st sellerId
     = Return {| CommissionService.totalEarned := PrimFloat.zero;
                 CommissionService.totalPaid := PrimFloat.zero;
                 CommissionService.pendingAmount := PrimFloat.zero;
                 CommissionService.commissionCount := 0 |}) /\
    (commissionsOf st sellerId <> [] ->
     CommissionService.getCommissionSummary st sellerId
     = Throw "TypeError: Cannot read properties of undefined (reading 'PAID')") /\
    (forall user,
        truthy_string user = true ->
        sellerId = or_empty user ->
        commissionsOf st sellerId <> [] ->
        SellerOrderController.getCommissionSummary st user
        = (console_error
             st
             ("Error getting commission summary: "
              ++ "TypeError: Cannot read properties of undefined (reading 'PAID')"),
           respond 500 (Message "Failed to get commission summary"))).
Proof.
  intros st sellerId.
  assert (Hrows : commissionsOf st sellerId <> [] ->
                  CommissionService.getCommissionSummary st sellerId
                  = Throw "TypeError: Cannot read properties of undefined (reading 'PAID')").
  { unfold commissionsOf, CommissionService.getCommissionSummary. cbv zeta.
    intro H. rewrite filterByStatus_outcome.
    destruct (filter _ (commissions st)); [ contradiction H; reflexivity | reflexivity ]. }
  split; [ | split; [ exact Hrows | ] ].
  - unfold commissionsOf, CommissionService.getCommissionSummary. cbv zeta.
    intro H. rewrite H. reflexivity.
  - intros user Huser Hid H. unfold SellerOrderController.getCommissionSummary.
    rewrite Huser. simpl negb. cbv iota. rewrite <- Hid, (Hrows H). reflexivity.
Qed.

Lemma markCommissionAsPaid_marks_nothing_paid_witness :
  CommissionService.markCommissionAsPaid
    (Scenario.withCommission COMMISSION_STATUS.CALCULATED (Fin 5)) "commission-1"
  = (Scenario.withCommission COMMISSION_STATUS.CALCULATED (Fin 5),
     Throw "TypeError: Cannot read properties of undefined (reading 'PAID')").
Proof.
  apply (markCommissionAsPaid_marks_nothing_paid
           (Scenario.withCommission COMMISSION_STATUS.CALCULATED (Fin 5)) "commission-1")
    with (commission := Scenario.commissionRow COMMISSION_STATUS.CALCULATED (Fin 5)).
  reflexivity.
Defined.

Lemma getCommissionSummary_fails_on_rows_witness :
  CommissionService.getCommissionSummary
    (Scenario.withCommission COMMISSION_STATUS.CANCELLED (Fin 5)) "seller-A"
  = Throw "TypeError: Cannot read properties of undefined (reading 'PAID')" /\
  statusCode (snd (SellerOrderController.getCommissionSummary
                     (Scenario.withCommission COMMISSION_STATUS.PAID (Fin 5))
                     (Some "seller-A"))) = 500%Z.
Proof.
  split.
  - apply (getCommissionSummary_fails_on_rows
             (Scenario.withCommission COMMISSION_STATUS.CANCELLED (Fin 5)) "seller-A").
    vm_compute. intro H. discriminate H.
  - rewrite (proj2 (proj2 (getCommissionSummary_fails_on_rows
                             (Scenario.withCommission COMMISSION_STATUS.PAID (Fin 5))
                             "seller-A"))
               (Some "seller-A") eq_refl eq_refl).
    + reflexivity.
    + vm_compute. intro H. discriminate H.
Defined.


(* ------------------------------------------------------------------ *)
(** ** Status updates and the commission side effect *)

(** A seller who owns an item of an order is represented in it. *)
Lemma owner_is_represented (st : Store) (order : Order) (user : option string) :
  truthy_string user = true ->
  findItemsOfSeller st (order_id order) (or_empty user) <> [] ->
  represented st order (or_empty user) = true.
Proof.
  intros Huser Hitems.
  destruct (findItemsOfSeller st (order_id order) (or_empty user)) as [ | item l ] eqn:E;
    [ contradiction Hitems; reflexivity | ].
  assert (Hin : In item (findItemsOfSeller st (order_id order) (or_empty user)))
    by (rewrite E; left; reflexivity).
  unfold findItemsOfSeller in Hin. apply filter_In in Hin. destruct Hin as [ Hin Hp ].
  apply andb_true_iff in Hp. destruct Hp as [ Ho Hs ].
  unfold represented. apply existsb_exists. exists item. split.
  - unfold order_items. apply filter_In. split; assumption.
  - unfold item_seller. destruct (item_product st item) as [ p | ]; [ | discriminate Hs ].
    destruct (product_sellerId p) as [ s | ]; [ | discriminate Hs ].
    apply String.eqb_eq in Hs. subst s.
    destruct user as [ x | ]; [ | discriminate Huser ].
    cbn [or_empty] in *. rewrite Huser. apply String.eqb_refl.
Qed.

(** C8. When [updateOrderStatus] moves an order to delivered (the
    request is authenticated, the caller owns an item, the transition
    is in the table and the delivery date, if one is given, parses),
    then whatever the commission service does, throwing included, the
    answer is 200 with the updated order; the order is stored as
    delivered with the tracking number, date and notes of the request;
    exactly one history row is appended, from shipped to delivered for
    that order, with the notes of the request or "Status updated to
    delivered"; and an error thrown by the service is only written to
    the console.  With the service of the controller as constructed
    the computation does throw, and the update succeeds all the
    same. *)
Theorem updateOrderStatus_delivered_despite_commission_failure :
  forall (service : Store -> string -> Store * Result (list Commission))
         (st : Store) (user : option string) (dto : SellerOrderUpdateDto)
         (order : Order),
    writesCommissionsOnly service ->
    truthy_string user = true ->
    findItemsOfSeller st (update_orderId dto) (or_empty user) <> [] ->
    findOrder st (update_orderId dto) = Some order ->
    allowed (order_status order) (update_status dto) ->
    update_status dto = ORDER_STATUS.DELIVERED ->
    update_estimatedDeliveryDate dto <> Some InvalidDate ->
    let order' :=
      {| order_id := order_id order;
         orderNumber := orderNumber order;
         order_status := ORDER_STATUS.DELIVERED;
         totalAmount := totalAmount order;
         trackingNumber :=
           if truthy_string (update_trackingNumber dto)
           then update_trackingNumber dto else trackingNumber order;
         estimatedDeliveryDate :=
           match update_estimatedDeliveryDate dto with
           | Some (ParsedDate milliseconds) => Some milliseconds
           | _ => estimatedDeliveryDate order
           end;
         order_notes :=
           if truthy_string (update_notes dto)
           then update_notes dto else order_notes order |} in
    let row :=
      {| history_id := fresh_id st;
         history_orderId := update_orderId dto;
         history_status := ORDER_STATUS.DELIVERED;
         previousStatus := ORDER_STATUS.SHIPPED;
         changedBy := None;
         history_notes :=
           if truthy_string (update_notes dto) then or_empty (update_notes dto)
           else "Status updated to delivered";
         notificationSent := true |} in
    let st2 := insertHistory (saveOrder st order') row in
    let r := SellerOrderController.updateOrderStatusWith service st user dto in
    order_status order = ORDER_STATUS.SHIPPED /\
    snd r = respond 200 (OrderBody order') /\
    findOrder (fst r) (update_orderId dto) = Some order' /\
    statusHistory (fst r) = (statusHistory st ++ [row])%list /\
    (forall error,
        snd (service st2 (update_orderId dto)) = Throw error ->
        fst r = console_error (fst (service st2 (update_orderId dto)))
                              ("Failed to calculate commission: " ++ error)) /\
    (forall rows,
        snd (service st2 (update_orderId dto)) = Return rows ->
        fst r = fst (service st2 (update_orderId dto))) /\
    SellerOrderController.updateOrderStatus st user dto
    = (console_error
         st2
         ("Failed to calculate commission: "
          ++ "TypeError: Cannot read properties of undefined (reading 'CALCULATED')"),
       respond 200 (OrderBody order')).
Proof.
  intros service st user dto order Hframe Huser Hitems Hfind Hallowed Hstatus Hdate.
  assert (Hshipped : order_status order = ORDER_STATUS.SHIPPED)
    by (rewrite Hstatus in Hallowed; inversion Hallowed; reflexivity).
  assert (Horder : SellerOrderController.updatedOrder order dto
                   = {| order_id := order_id order;
                        orderNumber := orderNumber order;
                        order_status := ORDER_STATUS.DELIVERED;
                        totalAmount := totalAmount order;
                        trackingNumber :=
                          if truthy_string (update_trackingNumber dto)
                          then update_trackingNumber dto else trackingNumber order;
                        estimatedDeliveryDate :=
                          match update_estimatedDeliveryDate dto with
                          | Some (ParsedDate milliseconds) => Some milliseconds
                          | _ => estimatedDeliveryDate order
                          end;
                        order_notes :=
                          if truthy_string (update_notes dto)
                          then update_notes dto else order_notes order |}).
  { unfold SellerOrderController.updatedOrder. rewrite Hstatus.
    destruct (update_estimatedDeliveryDate dto) as [ [ milliseconds | ] | ]; reflexivity. }
  cbv zeta. rewrite <- Horder.
  set (order' := SellerOrderController.updatedOrder order dto).
  assert (Hrow : SellerOrderController.updateHistory (saveOrder st order') dto
                                                     (order_status order)
                 = {| history_id := fresh_id st;
                      history_orderId := update_orderId dto;
                      history_status := ORDER_STATUS.DELIVERED;
                      previousStatus := ORDER_STATUS.SHIPPED;
                      changedBy := None;
                      history_notes :=
                        if truthy_string (update_notes dto)
                        then or_empty (update_notes dto)
                        else "Status updated to delivered";
                      notificationSent := true |}).
  { unfold SellerOrderController.updateHistory. rewrite Hstatus, Hshipped. reflexivity. }
  rewrite <- Hrow.
  set (row := SellerOrderController.updateHistory (saveOrder st order') dto
                                                   (order_status order)).
  set (st2 := insertHistory (saveOrder st order') row).
  assert (Hfind' : findOrder st2 (update_orderId dto) = Some order').
  { unfold st2. rewrite (findOrder_orders (saveOrder st order') _) by reflexivity.
    apply (findOrder_saveOrder st _ order); [ assumption | reflexivity ]. }
  assert (Hrun : forall service',
             SellerOrderController.updateOrderStatusWith service' st user dto
             = (match service' st2 (update_orderId dto) with
                | (st', Return _) => st'
                | (st', Throw error) =>
                    console_error st' ("Failed to calculate commission: " ++ error)
                end,
                respond 200 (OrderBody order'))).
  { intro service'. unfold SellerOrderController.updateOrderStatusWith.
    rewrite Huser. simpl negb. cbv iota zeta.
    rewrite (length_nonzero _ Hitems), Hfind.
    rewrite (proj2 (isValidStatusTransition_allowed _ _) Hallowed).
    simpl negb. cbv iota.
    rewrite (saveUpdatedOrder_valid st dto _ Hdate).
    replace (ORDER_STATUS.eqb (update_status dto) ORDER_STATUS.DELIVERED)
      with true by (rewrite Hstatus; reflexivity).
    reflexivity. }
  split; [ exact Hshipped | ].
  rewrite (Hrun service).
  destruct (Hframe st2 (update_orderId dto)) as [ Horders Hhistory ].
  split; [ reflexivity | ].
  split; [ | split; [ | split; [ | split ] ] ].
  - destruct (service st2 (update_orderId dto)) as [ st' [ rows | error ] ];
      cbn [fst snd] in *;
      [ rewrite (findOrder_orders st2 _) by assumption
      | rewrite (findOrder_orders st2 (console_error st' _)) by assumption ];
      exact Hfind'.
  - destruct (service st2 (update_orderId dto)) as [ st' [ rows | error ] ];
      cbn [fst snd] in *; simpl; rewrite Hhistory; reflexivity.
  - intros error H.
    destruct (service st2 (update_orderId dto)) as [ st' [ rows | error' ] ];
      cbn [fst snd] in *; [ discriminate H | ].
    injection H as H. subst error'. reflexivity.
  - intros rows H.
    destruct (service st2 (update_orderId dto)) as [ st' [ rows' | error ] ];
      cbn [fst snd] in *; [ reflexivity | discriminate H ].
  - unfold SellerOrderController.updateOrderStatus.
    rewrite (Hrun CommissionService.calculateAndCreateCommission).
    rewrite (calculateAndCreateCommission_throws st2 (update_orderId dto)
                                                 (or_empty user) order' Hfind').
    + reflexivity.
    + unfold order'. simpl. exact Hstatus.
    + rewrite (represented_frame st st2) by reflexivity.
      assert (E : represented st order' (or_empty user)
                  = represented st order (or_empty user)) by reflexivity.
      rewrite E. apply owner_is_represented; [ exact Huser | ].
      rewrite (find_order_id _ _ _ Hfind). exact Hitems.
Qed.

Lemma updateOrderStatus_delivered_despite_commission_failure_witness :
  let st := Scenario.store ORDER_STATUS.SHIPPED in
  let r := SellerOrderController.updateOrderStatusWith
             Scenario.failingService st
             (Some "seller-A") (Scenario.updateDto ORDER_STATUS.DELIVERED) in
  snd r = respond 200 (OrderBody (Scenario.order1 ORDER_STATUS.DELIVERED)) /\
  findOrder (fst r) "order-1" = Some (Scenario.order1 ORDER_STATUS.DELIVERED) /\
  statusHistory (fst r)
  = [{| history_id := "row-0";
        history_orderId := "order-1";
        history_status := ORDER_STATUS.DELIVERED;
        previousStatus := ORDER_STATUS.SHIPPED;
        changedBy := None;
        history_notes := "Status updated to delivered";
        notificationSent := true |}] /\
  console (fst r) = ["Failed to calculate commission: connection terminated"] /\
  console (fst (SellerOrderController.updateOrderStatus
                  st (Some "seller-A") (Scenario.updateDto ORDER_STATUS.DELIVERED)))
  = ["Failed to calculate commission: TypeError: Cannot read properties of undefined (reading 'CALCULATED')"].
Proof.
  cbv zeta.
  destruct (updateOrderStatus_delivered_despite_commission_failure
              Scenario.failingService (Scenario.store ORDER_STATUS.SHIPPED)
              (Some "seller-A") (Scenario.updateDto ORDER_STATUS.DELIVERED)
              (Scenario.order1 ORDER_STATUS.SHIPPED))
    as (_ & Hresp & Hfind & Hhist & Hlog & _ & Hreal).
  - intros st orderId. split; reflexivity.
  - reflexivity.
  - vm_compute. intro H. discriminate H.
  - reflexivity.
  - constructor.
  - reflexivity.
  - simpl. intro H. discriminate H.
  - split; [ | split; [ | split; [ | split ] ] ].
    + rewrite Hresp. reflexivity.
    + simpl update_orderId in Hfind. rewrite Hfind. reflexivity.
    + rewrite Hhist. reflexivity.
    + rewrite (Hlog "connection terminated" eq_refl). reflexivity.
    + rewrite Hreal. reflexivity.
Defined.

(** A date that does not parse stops the update before anything is
    stored: the answer is 500 and only the console has a new line. *)
Remark updateOrderStatus_unparsable_date :
  let st := Scenario.store ORDER_STATUS.SHIPPED in
  let r := SellerOrderController.updateOrderStatus
             st (Some "seller-A") (Scenario.badDateDto ORDER_STATUS.DELIVERED) in
  snd r = respond 500 (Message "Failed to update order status") /\
  orders (fst r) = orders st /\
  statusHistory (fst r) = statusHistory st /\
  commissions (fst r) = commissions st.
Proof.
  cbv zeta. repeat split.
Qed.

(* ------------------------------------------------------------------ *)
(** ** Failures of acceptOrder *)





(* ------------------------------------------------------------------ *)
(** ** createReferral and the one-referral-per-pair invariant *)











(* ------------------------------------------------------------------ *)
(** ** The seller-account referral accrual *)

(** C7.  [processSellerReferralCommission] never stores anything.  For
    a seller with an active seller-account referral and a positive
    revenue it computes the commission and builds the commission row
    with the empty text as [orderId]; the [orderId] column is a uuid
    with a foreign key to orders, so the insert is refused and the
    method throws before it touches [totalCommission]: no
    ReferralCommission row exists after the first run, the referral's
    total is what it was, and a second run does the same, whatever the
    decimal conversions are. *)
Theorem seller_referral_accrual_creates_no_commission :
  forall (decimalText Number_toString : number -> string)
         (numeric_in : string -> option number)
         (st : ReferralStore) (sellerId : string),
    let run :=
      ReferralService.processSellerReferralCommission
        decimalText Number_toString numeric_in in
    fst (run st sellerId) = st /\
    (forall referral seller,
        find (fun r =>
                match referral_sellerId r with
                | Some s => s =? sellerId
                | None => false
                end
                && REFERRAL_TYPE.eqb (referral_type r) REFERRAL_TYPE.SELLER_ACCOUNT
                && REFERRAL_STATUS.eqb (referral_status r) REFERRAL_STATUS.ACTIVE)
             (referrals st) = Some referral ->
        find (fun s => seller_id s =? sellerId) (sellers st) = Some seller ->
        nleb (totalRevenue seller) (Fin 0) = false ->
        run st sellerId
        = (st, Throw "QueryFailedError: invalid input syntax for type uuid") /\
        run (fst (run st sellerId)) sellerId = run st sellerId).
Proof.
  intros decimalText Number_toString numeric_in st sellerId. cbv zeta.
  assert (Hfst : forall s,
             fst (ReferralService.processSellerReferralCommission
                    decimalText Number_toString numeric_in s sellerId) = s).
  { intro s. unfold ReferralService.processSellerReferralCommission.
    destruct (find _ (referrals s)) as [ referral | ]; [ | reflexivity ].
    destruct (find _ (sellers s)) as [ seller | ]; [ | reflexivity ].
    destruct (nleb (totalRevenue seller) (Fin 0)); reflexivity. }
  split; [ apply Hfst | ].
  intros referral seller Hreferral Hseller Hrevenue.
  rewrite Hfst. split; [ | reflexivity ].
  unfold ReferralService.processSellerReferralCommission.
  rewrite Hreferral, Hseller, Hrevenue. reflexivity.
Qed.

Lemma seller_referral_accrual_creates_no_commission_witness :
  let run :=
    ReferralService.processSellerReferralCommission
      Scenario.decimalText Scenario.Number_toString Scenario.numeric_in in
  run Scenario.approvalStore "seller-9"
  = (Scenario.approvalStore,
     Throw "QueryFailedError: invalid input syntax for type uuid") /\
  referralCommissions (fst (run Scenario.approvalStore "seller-9")) = [] /\
  map totalCommission (referrals (fst (run Scenario.approvalStore "seller-9"))) = [Fin 0].
Proof.
  cbv zeta.
  destruct (seller_referral_accrual_creates_no_commission
              Scenario.decimalText Scenario.Number_toString Scenario.numeric_in
              Scenario.approvalStore "seller-9")
    as (Hfst & Hrun).
  split; [ | split ].
  - apply (Hrun Scenario.activeReferral
                {| seller_id := "seller-9"; totalRevenue := Fin 1000 |});
      reflexivity.
  - rewrite Hfst. reflexivity.
  - rewrite Hfst. reflexivity.
Defined.

(* ------------------------------------------------------------------ *)
(** * Further properties of the order lifecycle *)

Lemma allowed_rank (a b : ORDER_STATUS.t) :
  allowed a b -> (statusRank a < statusRank b)%nat.
Proof.
  intro H. destruct H; simpl; lia.
Qed.

(** What a seller request does: it never touches items, products or
    commission rows, and it either leaves orders and history as they
    are or persists one transition of the table for the order it
    targets, on behalf of a seller owning an item of that order. *)
Lemma handle_effect (st : Store) (r : SellerRequest) :
  orderItems (handle st r) = orderItems st /\
  products (handle st r) = products st /\
  commissions (handle st r) = commissions st /\
  ((orders (handle st r) = orders st /\
    statusHistory (handle st r) = statusHistory st) \/
   exists order order' h,
     truthy_string (requesterOf r) = true /\
     findItemsOfSeller st (targetOf r) (or_empty (requesterOf r)) <> [] /\
     findOrder st (targetOf r) = Some order /\
     allowed (order_status order) (order_status order') /\
     order_id order' = order_id order /\
     orderNumber order' = orderNumber order /\
     totalAmount order' = totalAmount order /\
     history_orderId h = targetOf r /\
     previousStatus h = order_status order /\
     history_status h = order_status order' /\
     orders (handle st r) = orders (saveOrder st order') /\
     statusHistory (handle st r) = (statusHistory st ++ [h])%list).
Proof.
  destruct r as [ user dto | user dto ]; simpl handle; simpl targetOf; simpl requesterOf.
  - unfold SellerOrderController.acceptOrder.
    destruct (truthy_string user) eqn:Huser; simpl negb; cbv iota;
      [ | repeat split; left; split; reflexivity ].
    cbv zeta.
    destruct (findItemsOfSeller st (accept_orderId dto) (or_empty user))
      as [ | i l ] eqn:Hitems; [ repeat split; left; split; reflexivity | ].
    cbn [List.length Nat.eqb].
    destruct (findOrder st (accept_orderId dto)) as [ order | ] eqn:Hfind;
      [ | repeat split; left; split; reflexivity ].
    destruct (ORDER_STATUS.eqb (order_status order) ORDER_STATUS.SELLER_NOTIFIED)
      eqn:Hs; simpl negb; cbv iota;
      [ | repeat split; left; split; reflexivity ].
    assert (Hstatus : order_status order = ORDER_STATUS.SELLER_NOTIFIED).
    { unfold ORDER_STATUS.eqb in Hs.
      destruct (ORDER_STATUS.eq_dec (order_status order) ORDER_STATUS.SELLER_NOTIFIED);
        [ assumption | discriminate Hs ]. }
    split; [ reflexivity | ]. split; [ reflexivity | ]. split; [ reflexivity | ].
    right. exists order. eexists. eexists.
    split; [ reflexivity | ]. split; [ discriminate | ].
    split; [ reflexivity | ].
    refine (conj _ (conj _ (conj _ (conj _ (conj _ (conj _ (conj _
             (conj eq_refl eq_refl)))))))); try reflexivity.
    + rewrite Hstatus. constructor.
    + symmetry. exact Hstatus.
  - unfold SellerOrderController.updateOrderStatus,
      SellerOrderController.updateOrderStatusWith.
    destruct (truthy_string user) eqn:Huser; simpl negb; cbv iota;
      [ | repeat split; left; split; reflexivity ].
    cbv zeta.
    destruct (findItemsOfSeller st (update_orderId dto) (or_empty user))
      as [ | i l ] eqn:Hitems; [ repeat split; left; split; reflexivity | ].
    cbn [List.length Nat.eqb].
    destruct (findOrder st (update_orderId dto)) as [ order | ] eqn:Hfind;
      [ | repeat split; left; split; reflexivity ].
    destruct (SellerOrderController.isValidStatusTransition _ _) eqn:Hvalid;
      simpl negb; cbv iota; [ | repeat split; left; split; reflexivity ].
    apply isValidStatusTransition_allowed in Hvalid.
    set (order' := SellerOrderController.updatedOrder order dto).
    destruct (saveUpdatedOrder_outcome st dto order') as [ (error & E) | E ]; rewrite E;
      [ repeat split; left; split; reflexivity | ].
    set (h := SellerOrderController.updateHistory (saveOrder st order') dto
                                                  (order_status order)).
    set (st2 := insertHistory (saveOrder st order') h).
    assert (Hst3 :
              (if ORDER_STATUS.eqb (update_status dto) ORDER_STATUS.DELIVERED
               then
                 match CommissionService.calculateAndCreateCommission
                         st2 (update_orderId dto) with
                 | (st', Return _) => st'
                 | (st', Throw error) =>
                     console_error st' ("Failed to calculate commission: " ++ error)
                 end
               else st2) = st2
              \/ exists line,
                (if ORDER_STATUS.eqb (update_status dto) ORDER_STATUS.DELIVERED
                 then
                   match CommissionService.calculateAndCreateCommission
                           st2 (update_orderId dto) with
                   | (st', Return _) => st'
                   | (st', Throw error) =>
                       console_error st' ("Failed to calculate commission: " ++ error)
                   end
                 else st2) = console_error st2 line).
    { destruct (ORDER_STATUS.eqb (update_status dto) ORDER_STATUS.DELIVERED);
        [ | left; reflexivity ].
      pose proof (calculateAndCreateCommission_unchanged st2 (update_orderId dto)) as Hsame.
      destruct (CommissionService.calculateAndCreateCommission st2 (update_orderId dto))
        as [ st' [ rows | error ] ]; cbn [fst] in Hsame; subst st'.
      - left. reflexivity.
      - right. eexists. reflexivity. }
    cbn [fst].
    destruct Hst3 as [ E3 | (line & E3) ]; rewrite E3;
      (split; [ reflexivity | ]; split; [ reflexivity | ]; split; [ reflexivity | ];
       right; exists order, order', h;
       split; [ reflexivity | ]; split; [ discriminate | ];
       split; [ reflexivity | ]; split; [ exact Hvalid | ];
       repeat split).
Qed.

Lemma historyOf_app (st st' : Store) (h : OrderStatusHistory) (orderId : string) :
  statusHistory st' = (statusHistory st ++ [h])%list ->
  history_orderId h <> orderId ->
  historyOf st' orderId = historyOf st orderId.
Proof.
  intros H Hne. unfold historyOf. rewrite H, filter_app. simpl.
  apply String.eqb_neq in Hne. rewrite Hne. apply app_nil_r.
Qed.

(** One request and one order: the order stays as it is, or the request
    targets it and moves it along the table. *)
Lemma handle_order (st : Store) (r : SellerRequest) (orderId : string) (order : Order) :
  findOrder st orderId = Some order ->
  exists order1,
    findOrder (handle st r) orderId = Some order1 /\
    ((order1 = order /\ historyOf (handle st r) orderId = historyOf st orderId) \/
     (targetOf r = orderId /\
      allowed (order_status order) (order_status order1) /\
      order_id order1 = order_id order /\
      orderNumber order1 = orderNumber order /\
      totalAmount order1 = totalAmount order)).
Proof.
  intro Hfind.
  destruct (handle_effect st r)
    as (_ & _ & _ & [ (Eo & Eh) | (o & o' & h & _ & _ & Ho & Hallowed & Hid & Hnum & Htotal
                                   & Hh & _ & _ & Horders & Hhist) ]).
  - exists order. split.
    + rewrite (findOrder_orders st _ orderId Eo). assumption.
    + left. split; [ reflexivity | ]. unfold historyOf. rewrite Eh. reflexivity.
  - rewrite (findOrder_orders (saveOrder st o') _ orderId Horders).
    destruct (string_dec (targetOf r) orderId) as [ Heq | Hne ].
    + rewrite Heq in Ho. rewrite Hfind in Ho. injection Ho as Ho. subst o.
      exists o'. split.
      * apply (findOrder_saveOrder st orderId order o' Hfind Hid).
      * right. repeat split; assumption.
    + exists order. split.
      * rewrite findOrder_saveOrder_other; [ assumption | ].
        rewrite Hid, (find_order_id _ _ _ Ho). assumption.
      * left. split; [ reflexivity | ].
        apply (historyOf_app st _ h); [ assumption | ]. rewrite Hh. assumption.
Qed.

(** X1. Under any sequence of seller requests an order keeps its id,
    number and total amount, and its status either stays or has moved
    to a status of strictly higher rank: an order never returns to a
    status it has left. *)
Theorem order_status_only_advances :
  forall (requests : list SellerRequest) (st : Store) (orderId : string) (order : Order),
    findOrder st orderId = Some order ->
    exists order',
      findOrder (handleAll requests st) orderId = Some order' /\
      order_id order' = order_id order /\
      orderNumber order' = orderNumber order /\
      totalAmount order' = totalAmount order /\
      (order_status order' = order_status order \/
       (statusRank (order_status order) < statusRank (order_status order'))%nat).
Proof.
  induction requests as [ | r rs IH ]; intros st orderId order Hfind; simpl.
  - exists order. repeat split; try assumption. left. reflexivity.
  - destruct (handle_order st r orderId order Hfind)
      as (o1 & Hfind1 & [ (E & _) | (_ & Hallowed & Hid & Hnum & Htotal) ]).
    + subst o1. apply IH. assumption.
    + destruct (IH (handle st r) orderId o1 Hfind1)
        as (o2 & Hfind2 & Hid2 & Hnum2 & Htotal2 & Hrank).
      exists o2. split; [ assumption | ].
      split; [ congruence | ]. split; [ congruence | ]. split; [ congruence | ].
      right. apply allowed_rank in Hallowed.
      destruct Hrank as [ E | Hlt ]; [ rewrite E; assumption | lia ].
Qed.

Lemma order_status_only_advances_witness :
  exists order',
    findOrder
      (handleAll [UpdateOrderStatus (Some "seller-A")
                                    (Scenario.updateDto ORDER_STATUS.DELIVERED);
                  UpdateOrderStatus (Some "seller-A")
                                    (Scenario.updateDto ORDER_STATUS.SHIPPED)]
                 (Scenario.store ORDER_STATUS.SHIPPED))
      "order-1" = Some order' /\
    totalAmount order' = Fin 50.
Proof.
  destruct (order_status_only_advances
              [UpdateOrderStatus (Some "seller-A")
                                 (Scenario.updateDto ORDER_STATUS.DELIVERED);
               UpdateOrderStatus (Some "seller-A")
                                 (Scenario.updateDto ORDER_STATUS.SHIPPED)]
              (Scenario.store ORDER_STATUS.SHIPPED) "order-1"
              (Scenario.order1 ORDER_STATUS.SHIPPED) eq_refl)
    as (order' & Hfind & _ & _ & Htotal & _).
  exists order'. split; [ exact Hfind | exact Htotal ].
Defined.

(** X2. An order that is cancelled, refunded or returned is final: no
    sequence of seller requests changes the order or adds a row to its
    history. *)
Theorem terminal_order_is_final :
  forall (requests : list SellerRequest) (st : Store) (orderId : string) (order : Order),
    findOrder st orderId = Some order ->
    terminal (order_status order) ->
    findOrder (handleAll requests st) orderId = Some order /\
    historyOf (handleAll requests st) orderId = historyOf st orderId.
Proof.
  induction requests as [ | r rs IH ]; intros st orderId order Hfind Hterm; simpl.
  - split; [ assumption | reflexivity ].
  - destruct (handle_order st r orderId order Hfind)
      as (o1 & Hfind1 & [ (E & Hhist) | (_ & Hallowed & _) ]).
    + subst o1. destruct (IH (handle st r) orderId order Hfind1 Hterm) as [ H1 H2 ].
      split; [ exact H1 | ]. rewrite H2. exact Hhist.
    + exfalso. destruct Hterm as [ E | [ E | E ] ]; rewrite E in Hallowed;
        inversion Hallowed.
Qed.

Lemma terminal_order_is_final_witness :
  findOrder
    (handleAll [UpdateOrderStatus (Some "seller-A")
                                  (Scenario.updateDto ORDER_STATUS.DELIVERED);
                AcceptOrder (Some "seller-B") Scenario.acceptDto]
               (Scenario.store ORDER_STATUS.CANCELLED))
    "order-1" = Some (Scenario.order1 ORDER_STATUS.CANCELLED).
Proof.
  apply (terminal_order_is_final
           [UpdateOrderStatus (Some "seller-A")
                              (Scenario.updateDto ORDER_STATUS.DELIVERED);
            AcceptOrder (Some "seller-B") Scenario.acceptDto]
           (Scenario.store ORDER_STATUS.CANCELLED) "order-1"
           (Scenario.order1 ORDER_STATUS.CANCELLED) eq_refl).
  left. reflexivity.
Defined.

Lemma handleAll_commissions (requests : list SellerRequest) (st : Store) :
  commissions (handleAll requests st) = commissions st.
Proof.
  revert st. induction requests as [ | r rs IH ]; intro st; simpl; [ reflexivity | ].
  rewrite IH. apply handle_effect.
Qed.

(** X3. Through the controller an (order, seller) pair gets at most one
    non-cancelled Commission: starting from a store without such a row,
    after any sequence of seller requests there is at most one.  (There
    is none: the service the controller calls stores no row.) *)
Theorem controller_creates_at_most_one_commission :
  forall (requests : list SellerRequest) (st : Store) (orderId sellerId : string),
    nonCancelledCount st orderId sellerId = 0%nat ->
    (nonCancelledCount (handleAll requests st) orderId sellerId <= 1)%nat.
Proof.
  intros requests st orderId sellerId H0.
  unfold nonCancelledCount in *. rewrite handleAll_commissions, H0. lia.
Qed.

Lemma controller_creates_at_most_one_commission_witness :
  (nonCancelledCount
     (handleAll [UpdateOrderStatus (Some "seller-A")
                                   (Scenario.updateDto ORDER_STATUS.DELIVERED);
                 UpdateOrderStatus (Some "seller-B")
                                   (Scenario.updateDto ORDER_STATUS.DELIVERED);
                 UpdateOrderStatus (Some "seller-A")
                                   (Scenario.updateDto ORDER_STATUS.RETURNED)]
                (Scenario.store ORDER_STATUS.SHIPPED))
     "order-1" "seller-A" <= 1)%nat.
Proof.
  apply (controller_creates_at_most_one_commission
           [UpdateOrderStatus (Some "seller-A")
                              (Scenario.updateDto ORDER_STATUS.DELIVERED);
            UpdateOrderStatus (Some "seller-B")
                              (Scenario.updateDto ORDER_STATUS.DELIVERED);
            UpdateOrderStatus (Some "seller-A")
                              (Scenario.updateDto ORDER_STATUS.RETURNED)]
           (Scenario.store ORDER_STATUS.SHIPPED) "order-1" "seller-A").
  reflexivity.
Defined.

(** What a successful acceptance has done. *)
Lemma acceptOrder_success (st : Store) (user : option string)
      (dto : SellerOrderAcceptDto) :
  statusCode (snd (SellerOrderController.acceptOrder st user dto)) = 200%Z ->
  exists order order' n,
    truthy_string user = true /\
    findOrder st (accept_orderId dto) = Some order /\
    order_status order = ORDER_STATUS.SELLER_NOTIFIED /\
    order_id order' = order_id order /\
    order_status order' = ORDER_STATUS.SELLER_ACCEPTED /\
    snd (SellerOrderController.acceptOrder st user dto) = respond 200 (OrderBody order') /\
    orders (fst (SellerOrderController.acceptOrder st user dto))
    = orders (saveOrder st order') /\
    notification_sellerId n = or_empty user /\
    notification_orderId n = order_id order /\
    notification_type n = ORDER_ACCEPTED /\
    notifications (fst (SellerOrderController.acceptOrder st user dto))
    = (notifications st ++ [n])%list.
Proof.
  unfold SellerOrderController.acceptOrder.
  destruct (truthy_string user) eqn:Huser; simpl negb; cbv iota;
    [ | intro H; discriminate H ].
  cbv zeta.
  destruct (List.length _ =? 0)%nat; [ intro H; discriminate H | ].
  destruct (findOrder st (accept_orderId dto)) as [ order | ] eqn:Hfind;
    [ | intro H; discriminate H ].
  destruct (ORDER_STATUS.eqb (order_status order) ORDER_STATUS.SELLER_NOTIFIED) eqn:Hs;
    simpl negb; cbv iota; [ | intro H; discriminate H ].
  intros _.
  assert (Hstatus : order_status order = ORDER_STATUS.SELLER_NOTIFIED).
  { unfold ORDER_STATUS.eqb in Hs.
    destruct (ORDER_STATUS.eq_dec (order_status order) ORDER_STATUS.SELLER_NOTIFIED);
      [ assumption | discriminate Hs ]. }
  exists order. eexists. eexists.
  split; [ reflexivity | ]. split; [ reflexivity | ]. split; [ assumption | ].
  refine (conj _ (conj _ (conj eq_refl (conj _ (conj _ (conj _ (conj _ eq_refl)))))));
    reflexivity.
Qed.

(** X4. An order is accepted once: after a successful [acceptOrder], a
    further [acceptOrder] for the same order fails and changes nothing,
    whoever sends it, the other sellers of the order included. *)
Theorem order_is_accepted_once :
  forall (st : Store) (user user' : option string) (dto dto' : SellerOrderAcceptDto),
    statusCode (snd (SellerOrderController.acceptOrder st user dto)) = 200%Z ->
    accept_orderId dto' = accept_orderId dto ->
    let st' := fst (SellerOrderController.acceptOrder st user dto) in
    fst (SellerOrderController.acceptOrder st' user' dto') = st' /\
    (statusCode (snd (SellerOrderController.acceptOrder st' user' dto')) = 400 \/
     statusCode (snd (SellerOrderController.acceptOrder st' user' dto')) = 401 \/
     statusCode (snd (SellerOrderController.acceptOrder st' user' dto')) = 403)%Z.
Proof.
  intros st user user' dto dto' H200 Hid. cbv zeta.
  destruct (acceptOrder_success st user dto H200)
    as (order & order' & n & _ & Hfind & _ & Hoid & Hstatus & _ & Horders & _).
  set (st' := fst (SellerOrderController.acceptOrder st user dto)) in *.
  assert (Hfind' : findOrder st' (accept_orderId dto') = Some order').
  { rewrite Hid. rewrite (findOrder_orders (saveOrder st order') st' _ Horders).
    apply (findOrder_saveOrder st _ order order' Hfind Hoid). }
  unfold SellerOrderController.acceptOrder at 1 2 3 4.
  destruct (negb (truthy_string user')); [ simpl; auto | ].
  cbv zeta.
  destruct (List.length _ =? 0)%nat; [ simpl; auto | ].
  rewrite Hfind', Hstatus. simpl. auto.
Qed.

Lemma order_is_accepted_once_witness :
  let st' := fst (SellerOrderController.acceptOrder
                    (Scenario.store ORDER_STATUS.SELLER_NOTIFIED)
                    (Some "seller-A") Scenario.acceptDto) in
  fst (SellerOrderController.acceptOrder st' (Some "seller-B") Scenario.acceptDto) = st'.
Proof.
  apply (order_is_accepted_once
           (Scenario.store ORDER_STATUS.SELLER_NOTIFIED)
           (Some "seller-A") (Some "seller-B") Scenario.acceptDto Scenario.acceptDto);
    reflexivity.
Defined.

Lemma findItemsOfSeller_frame (st st' : Store) (orderId sellerId : string) :
  orderItems st' = orderItems st ->
  products st' = products st ->
  findItemsOfSeller st' orderId sellerId = findItemsOfSeller st orderId sellerId.
Proof.
  intros Hi Hp. unfold findItemsOfSeller, item_product. rewrite Hi, Hp. reflexivity.
Qed.

(** X5. Authorisation by ownership: requests for an order sent by users
    who own no item of it change neither the order, nor its history, nor
    its commissions, whatever else the same requests do to other
    orders. *)
Theorem requests_of_non_owners_leave_the_order :
  forall (requests : list SellerRequest) (st : Store) (orderId : string),
    Forall (fun r => targetOf r = orderId ->
                     findItemsOfSeller st orderId (or_empty (requesterOf r)) = [])
           requests ->
    findOrder (handleAll requests st) orderId = findOrder st orderId /\
    historyOf (handleAll requests st) orderId = historyOf st orderId /\
    forall sellerId,
      nonCancelledCount (handleAll requests st) orderId sellerId
      = nonCancelledCount st orderId sellerId.
Proof.
  induction requests as [ | r rs IH ]; intros st orderId Hall; simpl.
  - repeat split.
  - inversion Hall as [ | ? ? Hr Hrs ]; subst.
    assert (Hcount : forall sellerId,
               nonCancelledCount (handle st r) orderId sellerId
               = nonCancelledCount st orderId sellerId).
    { intro sellerId. unfold nonCancelledCount.
      rewrite (proj1 (proj2 (proj2 (handle_effect st r)))). reflexivity. }
    destruct (handle_effect st r)
      as (Hi & Hp & _ & [ (Eo & Eh) | (o & o' & h & _ & Hitems & Ho & _ & Hid & _ & _
                                       & Hh & _ & _ & Horders & Hhist) ]).
    + assert (Hrs' : Forall (fun r0 => targetOf r0 = orderId ->
                                       findItemsOfSeller (handle st r) orderId
                                                         (or_empty (requesterOf r0)) = [])
                            rs).
      { rewrite Forall_forall in *. intros r0 Hin Ht.
        rewrite (findItemsOfSeller_frame st _ _ _ Hi Hp). apply Hrs; assumption. }
      destruct (IH (handle st r) orderId Hrs') as (H1 & H2 & H3).
      split; [ | split ].
      * rewrite H1. apply (findOrder_orders st _ orderId Eo).
      * rewrite H2. unfold historyOf. rewrite Eh. reflexivity.
      * intro sellerId. rewrite H3. apply Hcount.
    + assert (Hne : targetOf r <> orderId).
      { intro Heq. rewrite Heq in Hitems. apply Hitems. apply Hr. assumption. }
      assert (Hrs' : Forall (fun r0 => targetOf r0 = orderId ->
                                       findItemsOfSeller (handle st r) orderId
                                                         (or_empty (requesterOf r0)) = [])
                            rs).
      { rewrite Forall_forall in *. intros r0 Hin Ht.
        rewrite (findItemsOfSeller_frame st _ _ _ Hi Hp). apply Hrs; assumption. }
      destruct (IH (handle st r) orderId Hrs') as (H1 & H2 & H3).
      split; [ | split ].
      * rewrite H1. rewrite (findOrder_orders (saveOrder st o') _ orderId Horders).
        apply findOrder_saveOrder_other.
        rewrite Hid, (find_order_id _ _ _ Ho). assumption.
      * rewrite H2. apply (historyOf_app st _ h); [ assumption | ].
        rewrite Hh. assumption.
      * intro sellerId. rewrite H3. apply Hcount.
Qed.

Lemma requests_of_non_owners_leave_the_order_witness :
  findOrder
    (handleAll [UpdateOrderStatus (Some "seller-C")
                                  (Scenario.updateDto ORDER_STATUS.DELIVERED);
                AcceptOrder None Scenario.acceptDto]
               (Scenario.store ORDER_STATUS.SHIPPED))
    "order-1"
  = findOrder (Scenario.store ORDER_STATUS.SHIPPED) "order-1".
Proof.
  apply (requests_of_non_owners_leave_the_order
           [UpdateOrderStatus (Some "seller-C")
                              (Scenario.updateDto ORDER_STATUS.DELIVERED);
            AcceptOrder None Scenario.acceptDto]
           (Scenario.store ORDER_STATUS.SHIPPED) "order-1").
  constructor; [ intros _; reflexivity | ].
  constructor; [ intros _; reflexivity | constructor ].
Defined.


(* ------------------------------------------------------------------ *)
(** * Further properties of notifications and paged queries *)

Lemma firstn_tiles {A : Type} (l : list A) (a b : nat) :
  (firstn a l ++ firstn b (skipn a l))%list = firstn (a + b) l.
Proof.
  revert l. induction a as [ | a IH ]; intro l; simpl.
  - reflexivity.
  - destruct l as [ | x l ]; simpl.
    + rewrite firstn_nil. reflexivity.
    + rewrite IH. reflexivity.
Qed.

(** Consecutive pages with limits that are not 0 join up. *)
Lemma newestFirstPage_tiles {A : Type} (rows : list A) (skip a b : nat) :
  (0 < a)%nat -> (0 < b)%nat ->
  (newestFirstPage rows skip a ++ newestFirstPage rows (skip + a) b)%list
  = newestFirstPage rows skip (a + b).
Proof.
  intros Ha Hb. unfold newestFirstPage.
  destruct a as [ | a ]; [ lia | ]. destruct b as [ | b ]; [ lia | ].
  cbn [Nat.eqb Nat.add].
  rewrite (Nat.add_comm skip (S a)), <- skipn_skipn.
  apply (firstn_tiles (skipn skip (rev rows)) (S a) (S b)).
Qed.

Lemma newestFirstPage_length {A : Type} (rows : list A) (skip take : nat) :
  ((0 < take)%nat -> (List.length (newestFirstPage rows skip take) <= take)%nat) /\
  ((List.length rows <= skip)%nat -> newestFirstPage rows skip take = []).
Proof.
  unfold newestFirstPage. split.
  - intro H. destruct take as [ | take ]; [ lia | ].
    cbn [Nat.eqb]. apply firstn_le_length.
  - intro H.
    assert (E : skipn skip (rev rows) = [])
      by (apply skipn_all2; rewrite length_rev; assumption).
    rewrite E. destruct (take =? 0)%nat; [ reflexivity | apply firstn_nil ].
Qed.

(** With limit 0 the whole newest-first list from the offset on comes
    back. *)
Lemma newestFirstPage_unlimited {A : Type} (rows : list A) (skip : nat) :
  newestFirstPage rows skip 0 = skipn skip (rev rows).
Proof. reflexivity. Qed.

(** X6. A successful [acceptOrder] leaves exactly one new notification,
    of type order_accepted, for the accepting seller and the accepted
    order: it heads the seller's newest-first list, whether the list is
    asked for with a limit or without one (limit 0), the seller's total
    grows by one, and the lists of all other sellers are as before. *)
Theorem accepted_order_notifies_the_seller :
  forall (st : Store) (user : option string) (dto : SellerOrderAcceptDto),
    statusCode (snd (SellerOrderController.acceptOrder st user dto)) = 200%Z ->
    let st' := fst (SellerOrderController.acceptOrder st user dto) in
    let before := SellerNotificationService.getSellerNotifications st (or_empty user) in
    let after := SellerNotificationService.getSellerNotifications st' (or_empty user) in
    exists n,
      notification_sellerId n = or_empty user /\
      notification_orderId n = accept_orderId dto /\
      notification_type n = ORDER_ACCEPTED /\
      notifications st' = (notifications st ++ [n])%list /\
      after (Some 1%nat) None = ([n], S (snd (before (Some 1%nat) None))) /\
      (forall limit,
          after (Some (S (S limit))) None
          = (n :: fst (before (Some (S limit)) None),
             S (snd (before (Some (S limit)) None)))) /\
      after (Some 0%nat) None
      = (n :: fst (before (Some 0%nat) None), S (snd (before (Some 0%nat) None))) /\
      (forall other limit offset,
          other <> or_empty user ->
          SellerNotificationService.getSellerNotifications st' other limit offset
          = SellerNotificationService.getSellerNotifications st other limit offset).
Proof.
  intros st user dto H200. cbv zeta.
  destruct (acceptOrder_success st user dto H200)
    as (order & order' & n & _ & Hfind & _ & _ & _ & _ & _ & Hs & Ho & Ht & Hn).
  exists n. split; [ assumption | ].
  split; [ rewrite Ho; apply (find_order_id _ _ _ Hfind) | ].
  split; [ assumption | ]. split; [ assumption | ].
  unfold SellerNotificationService.getSellerNotifications. rewrite Hn.
  assert (Hmine : filter (fun x => notification_sellerId x =? or_empty user)
                         (notifications st ++ [n])
                  = (filter (fun x => notification_sellerId x =? or_empty user)
                            (notifications st) ++ [n])%list).
  { rewrite filter_app. simpl. rewrite Hs, String.eqb_refl. reflexivity. }
  rewrite Hmine. unfold newestFirstPage. rewrite rev_app_distr, length_app. simpl.
  rewrite Nat.add_1_r.
  split; [ reflexivity | ]. split; [ intro limit; reflexivity | ].
  split; [ reflexivity | ].
  intros other limit offset Hne. rewrite filter_app. simpl.
  replace (notification_sellerId n =? other) with false
    by (symmetry; apply String.eqb_neq; rewrite Hs; congruence).
  rewrite app_nil_r. reflexivity.
Qed.

Lemma accepted_order_notifies_the_seller_witness :
  exists n,
    notification_type n = ORDER_ACCEPTED /\
    SellerNotificationService.getSellerNotifications
      (fst (SellerOrderController.acceptOrder
              (Scenario.store ORDER_STATUS.SELLER_NOTIFIED)
              (Some "seller-A") Scenario.acceptDto))
      "seller-A" (Some 1%nat) None
    = ([n], 1%nat).
Proof.
  destruct (accepted_order_notifies_the_seller
              (Scenario.store ORDER_STATUS.SELLER_NOTIFIED)
              (Some "seller-A") Scenario.acceptDto eq_refl)
    as (n & _ & _ & Ht & _ & Hpage & _).
  exists n. split; [ exact Ht | ]. exact Hpage.
Defined.

(** X7. Paging of a seller's notifications: the reported total is the
    number of all rows of the seller whatever the page; a page asked
    for with a limit that is not 0 never has more rows than the limit,
    and consecutive such pages join up, so that no row is skipped or
    shown twice; a page that starts at or after the total is empty; and
    limit 0 is no limit: the page holds every row from the offset
    on. *)
Theorem getSellerNotifications_pages :
  forall (st : Store) (sellerId : string) (limit limit' offset : nat),
    let page l o :=
      SellerNotificationService.getSellerNotifications st sellerId (Some l) (Some o) in
    let all := filter (fun n => notification_sellerId n =? sellerId) (notifications st) in
    snd (page limit offset) = List.length all /\
    ((0 < limit)%nat -> (List.length (fst (page limit offset)) <= limit)%nat) /\
    ((snd (page limit offset) <= offset)%nat -> fst (page limit offset) = []) /\
    ((0 < limit)%nat -> (0 < limit')%nat ->
     (fst (page limit offset) ++ fst (page limit' (offset + limit)%nat))%list
     = fst (page (limit + limit')%nat offset)) /\
    fst (page 0%nat offset) = skipn offset (rev all).
Proof.
  intros st sellerId limit limit' offset. cbv zeta.
  unfold SellerNotificationService.getSellerNotifications. cbn [fst snd].
  split; [ reflexivity | ].
  split; [ apply newestFirstPage_length | ].
  split; [ apply newestFirstPage_length | ].
  split; [ apply newestFirstPage_tiles | reflexivity ].
Qed.

Lemma getSellerNotifications_pages_witness :
  fst (SellerNotificationService.getSellerNotifications
         Scenario.delivered "seller-A" (Some 10%nat) (Some 0%nat))
  = [].
Proof.
  pose proof (getSellerNotifications_pages Scenario.delivered "seller-A"
                                           10%nat 0%nat 0%nat) as H.
  cbv zeta in H. destruct H as (_ & _ & H & _).
  apply H. simpl. lia.
Defined.

(** X8. [getSellerCommissions] returns only when its page is empty,
    that is when the seller has no row from the offset on, and then it
    reports the count of all rows of the seller and three sums of 0.
    When the page holds a row, and with limit 0 it holds every row from
    the offset on, the filter for the paid rows reads
    [COMMISSION_STATUS.PAID] and throws the TypeError of the missing
    import. *)
Theorem getSellerCommissions_pages :
  forall (st : Store) (sellerId : string) (limit offset : nat),
    let rows := commissionsOf st sellerId in
    let page := newestFirstPage rows offset limit in
    (page = [] ->
     CommissionService.getSellerCommissions st sellerId (Some limit) (Some offset)
     = Return {| CommissionService.page_commissions := [];
                 CommissionService.page_total := List.length rows;
                 CommissionService.page_totalEarned := PrimFloat.zero;
                 CommissionService.page_totalPaid := PrimFloat.zero;
                 CommissionService.page_pendingAmount := PrimFloat.zero |}) /\
    (page <> [] ->
     CommissionService.getSellerCommissions st sellerId (Some limit) (Some offset)
     = Throw "TypeError: Cannot read properties of undefined (reading 'PAID')") /\
    ((List.length rows <= offset)%nat -> page = []) /\
    ((offset < List.length rows)%nat -> page <> []).
Proof.
  intros st sellerId limit offset. cbv zeta.
  unfold commissionsOf, CommissionService.getSellerCommissions. cbv zeta.
  set (rows := filter (fun c => commission_sellerId c =? sellerId) (commissions st)).
  split; [ | split; [ | split ] ].
  - intro H. rewrite H. reflexivity.
  - intro H. rewrite filterByStatus_outcome.
    destruct (newestFirstPage rows offset limit); [ contradiction H; reflexivity | ].
    reflexivity.
  - apply newestFirstPage_length.
  - intros Hlt Hnil.
    assert (Hlen : List.length (newestFirstPage rows offset limit) = 0%nat)
      by (rewrite Hnil; reflexivity).
    unfold newestFirstPage in Hlen.
    assert (Hskip : (0 < List.length (skipn offset (rev rows)))%nat)
      by (rewrite length_skipn, length_rev; lia).
    destruct (limit =? 0)%nat eqn:E.
    + lia.
    + apply Nat.eqb_neq in E. rewrite length_firstn in Hlen. lia.
Qed.

Lemma getSellerCommissions_pages_witness :
  CommissionService.getSellerCommissions
    (Scenario.withCommission COMMISSION_STATUS.CALCULATED (Fin 5))
    "seller-A" (Some 0%nat) (Some 0%nat)
  = Throw "TypeError: Cannot read properties of undefined (reading 'PAID')".
Proof.
  apply (getSellerCommissions_pages
           (Scenario.withCommission COMMISSION_STATUS.CALCULATED (Fin 5))
           "seller-A" 0%nat 0%nat).
  vm_compute. intro H. discriminate H.
Defined.

(* ------------------------------------------------------------------ *)
(** * Further properties of referral codes *)

Lemma string_get_in_bounds (s : string) (n : nat) :
  (n < String.length s)%nat -> exists c, String.get n s = Some c.
Proof.
  revert n. induction s as [ | a s IH ]; intros n H; simpl in H.
  - lia.
  - destruct n as [ | n ]; simpl.
    + exists a. reflexivity.
    + apply IH. lia.
Qed.

Lemma randomIndex_bounds (r : Q) :
  unitInterval r -> (0 <= ReferralService.randomIndex r < 36)%Z.
Proof.
  intros [ H0 H1 ]. unfold ReferralService.randomIndex.
  change (inject_Z (Z.of_nat (String.length ReferralService.chars))) with (inject_Z 36).
  split.
  - change 0%Z with (Qfloor (inject_Z 0)) at 1. rewrite Qfloor_Z.
    rewrite <- (Qfloor_Z 0). apply Qfloor_resp_le.
    change (inject_Z 0) with 0. change (inject_Z 36) with 36. nra.
  - pose proof (Qfloor_le (r * inject_Z 36)) as Hle.
    assert (Hlt : inject_Z (Qfloor (r * inject_Z 36)) < inject_Z 36).
    { eapply Qle_lt_trans; [ exact Hle | ].
      change (inject_Z 36) with 36. nra. }
    rewrite <- Zlt_Qlt in Hlt. exact Hlt.
Qed.

Lemma charAt_in_alphabet (r : Q) :
  unitInterval r ->
  exists c,
    ReferralService.charAt ReferralService.chars (ReferralService.randomIndex r)
    = String c "" /\
    exists i, String.get i ReferralService.chars = Some c.
Proof.
  intro H. destruct (randomIndex_bounds r H) as [ H0 H36 ].
  unfold ReferralService.charAt.
  replace (ReferralService.randomIndex r <? 0)%Z with false
    by (symmetry; apply Z.ltb_ge; assumption).
  destruct (string_get_in_bounds ReferralService.chars
              (Z.to_nat (ReferralService.randomIndex r)))
    as (c & Hc).
  { change (String.length ReferralService.chars) with 36%nat. lia. }
  rewrite Hc. exists c. split; [ reflexivity | ].
  exists (Z.to_nat (ReferralService.randomIndex r)). assumption.
Qed.

Lemma fromAlphabet_app (alphabet a b : string) :
  fromAlphabet alphabet a -> fromAlphabet alphabet b -> fromAlphabet alphabet (a ++ b).
Proof.
  induction a as [ | c a IH ]; simpl; intros Ha Hb.
  - assumption.
  - destruct Ha as [ Hc Ha ]. split; [ assumption | auto ].
Qed.

Lemma string_length_app (a b : string) :
  String.length (a ++ b) = (String.length a + String.length b)%nat.
Proof.
  induction a as [ | c a IH ]; simpl; [ reflexivity | rewrite IH; reflexivity ].
Qed.

Lemma generate_loop (random : nat -> Q) (cursor : nat) (l : list nat) (acc : string) :
  (forall i, unitInterval (random i)) ->
  fromAlphabet ReferralService.chars acc ->
  let result :=
    fold_left (fun result i =>
                 result ++ ReferralService.charAt ReferralService.chars
                             (ReferralService.randomIndex (random (cursor + i)%nat)))
              l acc in
  String.length result = (String.length acc + List.length l)%nat /\
  fromAlphabet ReferralService.chars result.
Proof.
  intro Hrandom. revert acc. induction l as [ | i l IH ]; intros acc Hacc; simpl.
  - split; [ lia | assumption ].
  - destruct (charAt_in_alphabet (random (cursor + i)%nat) (Hrandom _))
      as (c & Hc & Hin).
    rewrite Hc.
    destruct (IH (acc ++ String c "")) as [ Hlen Halpha ].
    + apply fromAlphabet_app; [ assumption | ]. simpl. split; [ assumption | exact I ].
    + split; [ | exact Halpha ].
      rewrite Hlen, string_length_app. simpl. lia.
Qed.

(** X12. Whatever [Math.random()] returns (values in [0, 1)),
    [generateReferralCode] yields a code of exactly eight characters,
    each of them a capital letter or a digit of its alphabet. *)
Theorem generateReferralCode_format :
  forall (random : nat -> Q) (cursor : nat),
    (forall i, unitInterval (random i)) ->
    String.length (ReferralService.generateReferralCode random cursor) = 8%nat /\
    fromAlphabet ReferralService.chars (ReferralService.generateReferralCode random cursor).
Proof.
  intros random cursor H.
  exact (generate_loop random cursor (seq 0 8) "" H I).
Qed.

Lemma generateReferralCode_format_witness :
  String.length (ReferralService.generateReferralCode (fun i => inject_Z 0 + (1 # 2)) 0)
  = 8%nat.
Proof.
  apply (generateReferralCode_format (fun i => inject_Z 0 + (1 # 2)) 0).
  intro i. unfold unitInterval. split; [ discriminate | reflexivity ].
Defined.

(** The loop returns the first candidate that no stored code has, among
    the [left] candidates still allowed. *)
Lemma generateUniqueCode_find (st : ReferralStore) (random : nat -> Q)
      (left attempts : nat) :
  ReferralService.generateUniqueCode st random attempts left
  = match find (fun c => negb (ReferralService.codeExists st c))
               (map (fun a => ReferralService.generateReferralCode random (8 * a))
                    (seq attempts left)) with
    | Some c => Return c
    | None => Throw "Unable to generate unique referral code"
    end.
Proof.
  revert attempts. induction left as [ | left IH ]; intro attempts.
  - reflexivity.
  - cbn [ReferralService.generateUniqueCode seq map find].
    destruct (ReferralService.codeExists st
                (ReferralService.generateReferralCode random (8 * attempts)));
      simpl negb; cbv iota; [ apply IH | reflexivity ].
Qed.

Lemma codeExists_In (st : ReferralStore) (c : string) :
  ReferralService.codeExists st c = true <-> In c (map code (referralCodes st)).
Proof.
  unfold ReferralService.codeExists. rewrite existsb_exists. split.
  - intros (x & Hx & E). apply String.eqb_eq in E. subst c. apply in_map. assumption.
  - intro H. apply in_map_iff in H. destruct H as (x & E & Hx).
    exists x. split; [ assumption | apply String.eqb_eq; assumption ].
Qed.

(** X13. A successful [createReferralCode] appends one active, unused
    row whose code is one of the ten candidates and is carried by no
    row stored before, so codes that were pairwise distinct stay so.
    A rate that is missing or 0 is replaced by the default of the type,
    10 for seller accounts and 5 for products. *)
Theorem createReferralCode_issues_a_fresh_code :
  forall (st st' : ReferralStore) (random : nat -> Q) (data : CreateReferralCodeDto)
         (row : ReferralCode),
    ReferralService.createReferralCode st random data = (st', Return row) ->
    referralCodes st' = (referralCodes st ++ [row])%list /\
    In (code row) (candidateCodes random) /\
    ~ In (code row) (map code (referralCodes st)) /\
    (NoDup (map code (referralCodes st)) -> NoDup (map code (referralCodes st'))) /\
    isActive row = true /\
    usageCount row = 0%Z /\
    (code_userId row, code_type row, maxUsage row, code_expiresAt row)
    = (cdto_userId data, cdto_type data, cdto_maxUsage data, cdto_expiresAt data) /\
    (forall r, cdto_commissionRate data = Some r -> truthy_number r = true ->
               code_commissionRate row = r) /\
    (cdto_commissionRate data = None \/ cdto_commissionRate data = Some (Fin 0) ->
     code_commissionRate row
     = match cdto_type data with
       | REFERRAL_TYPE.SELLER_ACCOUNT => Fin 10
       | REFERRAL_TYPE.PRODUCT => Fin 5
       end).
Proof.
  intros st st' random data row H.
  unfold ReferralService.createReferralCode in H.
  rewrite generateUniqueCode_find in H.
  destruct (find _ _) as [ c | ] eqn:Hfind; [ | discriminate H ].
  injection H as Hst Hrow. subst st' row. cbn.
  apply find_some in Hfind. destruct Hfind as [ Hin Hfresh ].
  assert (Hnot : ~ In c (map code (referralCodes st))).
  { intro Hc. apply codeExists_In in Hc. rewrite Hc in Hfresh. discriminate Hfresh. }
  split; [ reflexivity | ]. split; [ exact Hin | ]. split; [ exact Hnot | ].
  split.
  { intro Hnodup. rewrite map_app. simpl.
    apply NoDup_app; [ assumption | repeat constructor; intros [] | ].
    intros x Hx [ E | [] ]. subst x. contradiction. }
  split; [ reflexivity | ]. split; [ reflexivity | ]. split; [ reflexivity | ].
  unfold ReferralService.defaultCodeRate. split.
  - intros r Hr Htruthy. rewrite Hr, Htruthy. reflexivity.
  - intros [ Hr | Hr ]; rewrite Hr; simpl; destruct (cdto_type data); reflexivity.
Qed.


Lemma createReferralCode_issues_a_fresh_code_witness :
  exists row,
    snd (ReferralService.createReferralCode Scenario.referralStore Scenario.allZero
                                            Scenario.codeDto) = Return row /\
    ~ In (code row) (map code (referralCodes Scenario.referralStore)) /\
    code_commissionRate row = Fin 5.
Proof.
  destruct (createReferralCode_issues_a_fresh_code
              Scenario.referralStore
              (fst (ReferralService.createReferralCode
                      Scenario.referralStore Scenario.allZero Scenario.codeDto))
              Scenario.allZero Scenario.codeDto
              (nth 0 (skipn 1 (referralCodes
                                 (fst (ReferralService.createReferralCode
                                         Scenario.referralStore Scenario.allZero
                                         Scenario.codeDto))))
                   Scenario.sellerCode)
              eq_refl)
    as (_ & _ & Hfresh & _ & _ & _ & _ & _ & Hrate).
  eexists. split; [ reflexivity | ]. split; [ exact Hfresh | ].
  apply Hrate. right. reflexivity.
Defined.


Lemma find_app_none {A : Type} (f : A -> bool) (l l' : list A) :
  find f l = None -> find f (l ++ l') = find f l'.
Proof.
  induction l as [ | x l IH ]; simpl; [ reflexivity | ].
  destruct (f x); [ intro H; discriminate H | exact IH ].
Qed.

(** X15. A code just issued validates: right after a successful
    [createReferralCode], [validateReferralCode] for the new code and
    the type it was issued for returns the new row, provided the
    expiry date asked for is not in the past and the usage cap is not
    negative. *)
Theorem issued_code_validates :
  forall (st st' : ReferralStore) (random : nat -> Q) (data : CreateReferralCodeDto)
         (row : ReferralCode),
    ReferralService.createReferralCode st random data = (st', Return row) ->
    (forall e, cdto_expiresAt data = Some e -> (clock st <= e)%Z) ->
    (forall m, cdto_maxUsage data = Some m -> (0 <= m)%Z) ->
    ReferralService.validateReferralCode st' (code row) (cdto_type data) = Some row.
Proof.
  intros st st' random data row H Hexp Hmax.
  unfold ReferralService.createReferralCode in H.
  rewrite generateUniqueCode_find in H.
  destruct (find _ _) as [ c | ] eqn:Hfind; [ | discriminate H ].
  injection H as Hst Hrow. subst st' row.
  apply find_some in Hfind. destruct Hfind as [ _ Hfresh ].
  apply negb_true_iff in Hfresh.
  unfold ReferralService.validateReferralCode. cbn [referralCodes
    ReferralService.insertReferralCode code].
  rewrite find_app_none.
  - cbn [find code code_type isActive]. rewrite String.eqb_refl.
    replace (REFERRAL_TYPE.eqb (cdto_type data) (cdto_type data)) with true
      by (unfold REFERRAL_TYPE.eqb;
          destruct (REFERRAL_TYPE.eq_dec (cdto_type data) (cdto_type data));
          [ reflexivity | contradiction ]).
    cbn [andb].
    unfold ReferralService.codeExpired, ReferralService.usageLimitReached.
    cbn [code_expiresAt maxUsage usageCount clock ReferralService.insertReferralCode].
    destruct (cdto_expiresAt data) as [ e | ] eqn:He.
    + replace (e <? clock st)%Z with false
        by (symmetry; apply Z.ltb_ge; apply Hexp; reflexivity).
      destruct (cdto_maxUsage data) as [ m | ] eqn:Hm; [ | reflexivity ].
      specialize (Hmax m eq_refl).
      destruct (m =? 0)%Z eqn:E0; simpl; [ reflexivity | ].
      apply Z.eqb_neq in E0.
      replace (m <=? 0)%Z with false by (symmetry; apply Z.leb_gt; lia).
      reflexivity.
    + destruct (cdto_maxUsage data) as [ m | ] eqn:Hm; [ | reflexivity ].
      specialize (Hmax m eq_refl).
      destruct (m =? 0)%Z eqn:E0; simpl; [ reflexivity | ].
      apply Z.eqb_neq in E0.
      replace (m <=? 0)%Z with false by (symmetry; apply Z.leb_gt; lia).
      reflexivity.
  - destruct (find _ (referralCodes st)) as [ x | ] eqn:Hx; [ | reflexivity ].
    apply find_some in Hx. destruct Hx as [ Hin Hpred ].
    apply andb_true_iff in Hpred. destruct Hpred as [ Hpred _ ].
    apply andb_true_iff in Hpred. destruct Hpred as [ Hcode _ ].
    assert (Hex : ReferralService.codeExists st c = true).
    { unfold ReferralService.codeExists. apply existsb_exists.
      exists x. split; assumption. }
    rewrite Hex in Hfresh. discriminate Hfresh.
Qed.

Lemma issued_code_validates_witness :
  exists row,
    ReferralService.validateReferralCode
      (fst (ReferralService.createReferralCode Scenario.referralStore Scenario.allZero
                                               Scenario.codeDto))
      "AAAAAAAA" REFERRAL_TYPE.PRODUCT = Some row /\
    code row = "AAAAAAAA".
Proof.
  eexists. split.
  - apply (issued_code_validates
             Scenario.referralStore
             (fst (ReferralService.createReferralCode
                     Scenario.referralStore Scenario.allZero Scenario.codeDto))
             Scenario.allZero Scenario.codeDto
             (nth 0 (skipn 1 (referralCodes
                                (fst (ReferralService.createReferralCode
                                        Scenario.referralStore Scenario.allZero
                                        Scenario.codeDto))))
                  Scenario.sellerCode)
             eq_refl).
    + intros e He. discriminate He.
    + intros m Hm. injection Hm as Hm. subst m. lia.
  - reflexivity.
Defined.

(* ------------------------------------------------------------------ *)
(** * Further properties of the referral lifecycle *)

Lemma find_referral_id (st : ReferralStore) (referralId : string) (r : Referral) :
  ReferralService.findReferral st referralId = Some r -> referral_id r = referralId.
Proof.
  unfold ReferralService.findReferral. intro H. apply find_some in H.
  destruct H as [ _ H ]. apply String.eqb_eq. assumption.
Qed.

Lemma findReferral_saveReferral (st : ReferralStore) (referralId : string)
      (r r' : Referral) :
  ReferralService.findReferral st referralId = Some r ->
  referral_id r' = referral_id r ->
  ReferralService.findReferral (ReferralService.saveReferral st r') referralId = Some r'.
Proof.
  intros Hfind Hid.
  pose proof (find_referral_id _ _ _ Hfind) as Hrid.
  unfold ReferralService.findReferral in *. simpl.
  induction (referrals st) as [ | x l IH ]; simpl in *; [ discriminate Hfind | ].
  destruct (referral_id x =? referralId) eqn:Hx.
  - apply String.eqb_eq in Hx.
    replace (referral_id x =? referral_id r') with true
      by (symmetry; apply String.eqb_eq; congruence).
    replace (referral_id r' =? referralId) with true
      by (symmetry; apply String.eqb_eq; congruence).
    reflexivity.
  - replace (referral_id x =? referral_id r') with false
      by (rewrite Hid, Hrid, Hx; reflexivity).
    rewrite Hx. apply IH. assumption.
Qed.

Lemma findReferral_saveReferral_other (st : ReferralStore) (referralId : string)
      (r' : Referral) :
  referral_id r' <> referralId ->
  ReferralService.findReferral (ReferralService.saveReferral st r') referralId
  = ReferralService.findReferral st referralId.
Proof.
  intro Hne. unfold ReferralService.findReferral. simpl.
  assert (Hne' : (referral_id r' =? referralId) = false)
    by (apply String.eqb_neq; assumption).
  induction (referrals st) as [ | x l IH ]; simpl; [ reflexivity | ].
  destruct (referral_id x =? referral_id r') eqn:Hx.
  - apply String.eqb_eq in Hx. rewrite Hx, Hne'. exact IH.
  - destruct (referral_id x =? referralId); [ reflexivity | exact IH ].
Qed.

(** One lifecycle call seen from one referral. *)
Lemma lifecycleStep_referral (st : ReferralStore) (c : LifecycleCall)
      (referralId : string) (r : Referral) :
  ReferralService.findReferral st referralId = Some r ->
  exists r',
    ReferralService.findReferral (lifecycleStep st c) referralId = Some r' /\
    (referrerId r', referredId r', referral_type r', referralCode r',
     referral_commissionRate r', totalCommission r', referral_expiresAt r')
    = (referrerId r, referredId r, referral_type r, referralCode r,
       referral_commissionRate r, totalCommission r, referral_expiresAt r) /\
    (r' = r \/
     (referral_status r = REFERRAL_STATUS.PENDING /\
      referral_status r' = REFERRAL_STATUS.ACTIVE /\
      activatedAt r' = Some (clock st) /\ completedAt r' = completedAt r) \/
     (referral_status r = REFERRAL_STATUS.ACTIVE /\
      referral_status r' = REFERRAL_STATUS.COMPLETED /\
      activatedAt r' = activatedAt r /\ completedAt r' = Some (clock st))).
Proof.
  intro Hfind.
  destruct c as [ target | target ]; simpl.
  - unfold ReferralService.activateReferral.
    destruct (ReferralService.findReferral st target) as [ r0 | ] eqn:H0;
      [ | exists r; split; [ assumption | split; [ reflexivity | left; reflexivity ] ] ].
    destruct (REFERRAL_STATUS.eqb (referral_status r0) REFERRAL_STATUS.PENDING) eqn:Hs;
      simpl negb; cbv iota;
      [ | exists r; split; [ assumption | split; [ reflexivity | left; reflexivity ] ] ].
    cbn [fst].
    destruct (string_dec target referralId) as [ E | Hne ].
    + subst target. rewrite Hfind in H0. injection H0 as H0. subst r0.
      eexists. split.
      * apply (findReferral_saveReferral st referralId r); [ assumption | reflexivity ].
      * split; [ reflexivity | ]. right. left.
        unfold REFERRAL_STATUS.eqb in Hs.
        destruct (REFERRAL_STATUS.eq_dec (referral_status r) REFERRAL_STATUS.PENDING);
          [ | discriminate Hs ].
        repeat split; assumption.
    + exists r. split.
      * rewrite findReferral_saveReferral_other; [ assumption | ].
        cbn [referral_id]. rewrite (find_referral_id _ _ _ H0). assumption.
      * split; [ reflexivity | left; reflexivity ].
  - unfold ReferralService.completeReferral.
    destruct (ReferralService.findReferral st target) as [ r0 | ] eqn:H0;
      [ | exists r; split; [ assumption | split; [ reflexivity | left; reflexivity ] ] ].
    destruct (REFERRAL_STATUS.eqb (referral_status r0) REFERRAL_STATUS.ACTIVE) eqn:Hs;
      simpl negb; cbv iota;
      [ | exists r; split; [ assumption | split; [ reflexivity | left; reflexivity ] ] ].
    cbn [fst].
    destruct (string_dec target referralId) as [ E | Hne ].
    + subst target. rewrite Hfind in H0. injection H0 as H0. subst r0.
      eexists. split.
      * apply (findReferral_saveReferral st referralId r); [ assumption | reflexivity ].
      * split; [ reflexivity | ]. right. right.
        unfold REFERRAL_STATUS.eqb in Hs.
        destruct (REFERRAL_STATUS.eq_dec (referral_status r) REFERRAL_STATUS.ACTIVE);
          [ | discriminate Hs ].
        repeat split; assumption.
    + exists r. split.
      * rewrite findReferral_saveReferral_other; [ assumption | ].
        cbn [referral_id]. rewrite (find_referral_id _ _ _ H0). assumption.
      * split; [ reflexivity | left; reflexivity ].
Qed.

(** X16. Under any sequence of [activateReferral] and
    [completeReferral] calls a referral only moves pending -> active ->
    completed: its rank never drops and a referral that is completed,
    expired or cancelled is never changed again; dates once stamped are
    kept, so a referral that has left pending carries its activation
    date and one that became completed its completion date; the
    parties, type, code, rate and accrued commission are never
    touched. *)
Theorem referral_lifecycle_only_advances :
  forall (calls : list LifecycleCall) (st : ReferralStore) (referralId : string)
         (r : Referral),
    ReferralService.findReferral st referralId = Some r ->
    exists r',
      ReferralService.findReferral (fold_left lifecycleStep calls st) referralId
      = Some r' /\
      (referrerId r', referredId r', referral_type r', referralCode r',
       referral_commissionRate r', totalCommission r', referral_expiresAt r')
      = (referrerId r, referredId r, referral_type r, referralCode r,
         referral_commissionRate r, totalCommission r, referral_expiresAt r) /\
      (referralRank (referral_status r) <= referralRank (referral_status r'))%nat /\
      (referralRank (referral_status r) = 2%nat -> r' = r) /\
      (activatedAt r <> None -> activatedAt r' <> None) /\
      (completedAt r <> None -> completedAt r' <> None) /\
      (referral_status r = REFERRAL_STATUS.PENDING ->
       referral_status r' <> REFERRAL_STATUS.PENDING -> activatedAt r' <> None) /\
      (referral_status r <> REFERRAL_STATUS.COMPLETED ->
       referral_status r' = REFERRAL_STATUS.COMPLETED -> completedAt r' <> None).
Proof.
  induction calls as [ | c calls IH ]; intros st referralId r Hfind; simpl.
  - exists r. split; [ assumption | ]. split; [ reflexivity | ].
    split; [ lia | ]. split; [ reflexivity | ].
    split; [ auto | ]. split; [ auto | ].
    split; intros; congruence.
  - destruct (lifecycleStep_referral st c referralId r Hfind)
      as (r1 & Hfind1 & Hsame1 & Hcase).
    destruct (IH (lifecycleStep st c) referralId r1 Hfind1)
      as (r2 & Hfind2 & Hsame2 & Hrank & Hfinal & Hact & Hcomp & Hleft & Hdone).
    exists r2. split; [ assumption | ].
    split; [ rewrite Hsame2; exact Hsame1 | ].
    destruct Hcase as [ E | [ (Hp & Ha & Hat & Hct) | (Hp & Ha & Hat & Hct) ] ].
    + subst r1. repeat split; assumption.
    + assert (Hset : activatedAt r2 <> None)
        by (apply Hact; rewrite Hat; discriminate).
      rewrite Ha in Hrank. rewrite Hp. simpl in Hrank. simpl referralRank.
      split; [ lia | ]. split; [ intro H; discriminate H | ].
      split; [ intros _; exact Hset | ].
      split; [ intro H; apply Hcomp; rewrite Hct; exact H | ].
      split; [ intros _ _; exact Hset | ].
      intros _ H. apply Hdone; [ rewrite Ha; discriminate | exact H ].
    + assert (E : r2 = r1) by (apply Hfinal; rewrite Ha; reflexivity).
      subst r2. rewrite Hp, Ha. simpl referralRank.
      split; [ lia | ]. split; [ intro H; discriminate H | ].
      split; [ rewrite Hat; auto | ].
      split; [ intros _; rewrite Hct; discriminate | ].
      split; [ intro H; discriminate H | ].
      intros _ _. rewrite Hct. discriminate.
Qed.

Lemma referral_lifecycle_only_advances_witness :
  exists r',
    ReferralService.findReferral
      (fold_left lifecycleStep
                 [Complete "referral-1"; Activate "referral-1"; Activate "referral-1";
                  Complete "referral-1"; Activate "referral-1"]
                 Scenario.pendingStore)
      "referral-1" = Some r' /\
    totalCommission r' = Fin 0.
Proof.
  destruct (referral_lifecycle_only_advances
              [Complete "referral-1"; Activate "referral-1"; Activate "referral-1";
               Complete "referral-1"; Activate "referral-1"]
              Scenario.pendingStore "referral-1" Scenario.pendingReferral eq_refl)
    as (r' & Hfind & Hsame & _).
  exists r'. split; [ exact Hfind | ].
  injection Hsame as _ _ _ _ _ Htotal _. exact Htotal.
Defined.

(* ------------------------------------------------------------------ *)
(** * Further properties of referral creation *)

(** What a call does to the table of codes. *)
Lemma createReferral_codes (st : ReferralStore) (data : CreateReferralDto) :
  referralCodes (fst (ReferralService.createReferral st data)) = referralCodes st \/
  exists c c',
    ReferralService.usageLimitReached c = false /\
    maxUsage c' = maxUsage c /\
    usageCount c' = (usageCount c + 1)%Z /\
    referralCodes (fst (ReferralService.createReferral st data))
    = map (fun x => if code_id x =? code_id c then c' else x) (referralCodes st).
Proof.
  unfold ReferralService.createReferral.
  destruct (find _ (referralCodes st)) as [ c | ]; [ | left; reflexivity ].
  destruct (ReferralService.codeExpired st c); [ left; reflexivity | ].
  destruct (ReferralService.usageLimitReached c) eqn:Hlimit; [ left; reflexivity | ].
  destruct (find _ (referrals st)); [ left; reflexivity | ].
  right. exists c. eexists.
  split; [ exact Hlimit | ].
  split; [ | split ]; [ | | reflexivity ]; reflexivity.
Qed.

Lemma capRespected_after_use (c c' : ReferralCode) :
  ReferralService.usageLimitReached c = false ->
  maxUsage c' = maxUsage c ->
  usageCount c' = (usageCount c + 1)%Z ->
  capRespected c'.
Proof.
  unfold ReferralService.usageLimitReached, capRespected.
  intros Hlimit Hmax Hcount. rewrite Hmax, Hcount.
  destruct (maxUsage c) as [ m | ]; [ | exact I ].
  intro Hm. apply Z.eqb_neq in Hm. rewrite Hm in Hlimit. simpl in Hlimit.
  apply Z.leb_gt in Hlimit. lia.
Qed.

(** X17. The usage cap holds as an invariant of [createReferral]: when
    no capped code of the store has been used more often than its cap,
    the same is true after any sequence of calls, whoever makes them and
    however they end. *)
Theorem usage_cap_is_never_exceeded :
  forall (calls : list CreateReferralDto) (st : ReferralStore),
    Forall capRespected (referralCodes st) ->
    Forall capRespected (referralCodes (createReferrals calls st)).
Proof.
  unfold createReferrals.
  induction calls as [ | data calls IH ]; intros st H; simpl; [ exact H | ].
  apply IH.
  destruct (createReferral_codes st data) as [ E | (c & c' & Hlimit & Hmax & Hcount & E) ];
    rewrite E; [ exact H | ].
  apply Forall_forall. intros x Hx.
  apply in_map_iff in Hx. destruct Hx as (y & Hy & Hin).
  destruct (code_id y =? code_id c).
  - subst x. exact (capRespected_after_use c c' Hlimit Hmax Hcount).
  - subst x. rewrite Forall_forall in H. apply H. exact Hin.
Qed.

Lemma usage_cap_is_never_exceeded_witness :
  Forall capRespected
         (referralCodes
            (createReferrals
               [Scenario.referralDto "user-2"; Scenario.referralDto "user-3";
                Scenario.referralDto "user-4"; Scenario.referralDto "user-5";
                Scenario.referralDto "user-6"; Scenario.referralDto "user-7";
                Scenario.referralDto "user-8"]
               Scenario.referralStore)).
Proof.
  apply usage_cap_is_never_exceeded.
  constructor; [ | constructor ].
  unfold capRespected. simpl. intros _. lia.
Defined.





(* ------------------------------------------------------------------ *)
(** * Further properties of the referral payouts *)

Lemma find_referralCommission_id (l : list ReferralCommission) (commissionId : string)
      (c : ReferralCommission) :
  find (fun x => rc_id x =? commissionId) l = Some c -> rc_id c = commissionId.
Proof.
  intro H. apply find_some in H. destruct H as [ _ H ].
  apply String.eqb_eq. assumption.
Qed.


(** What a successful call of the referral [markCommissionAsPaid]
    does. *)
Lemma referral_markCommissionAsPaid_success (st st' : ReferralStore)
      (commissionId payout : string) (c' : ReferralCommission) :
  ReferralService.markCommissionAsPaid st commissionId payout = (st', Return c') ->
  exists c,
    find (fun x => rc_id x =? commissionId) (referralCommissions st) = Some c /\
    rc_status c = REFERRAL_COMMISSION_STATUS.EARNED /\
    rc_id c' = commissionId /\
    rc_status c' = REFERRAL_COMMISSION_STATUS.PAID /\
    st' = ReferralService.saveReferralCommission st c'.
Proof.
  unfold ReferralService.markCommissionAsPaid. intro H.
  destruct (find _ (referralCommissions st)) as [ c | ] eqn:Hfind; [ | discriminate H ].
  unfold REFERRAL_COMMISSION_STATUS.eqb in H.
  destruct (REFERRAL_COMMISSION_STATUS.eq_dec (rc_status c)
                                              REFERRAL_COMMISSION_STATUS.EARNED)
    as [ Hs | Hs ]; simpl in H; [ | discriminate H ].
  injection H as Hst Hc. subst st' c'.
  exists c. split; [ reflexivity | ]. split; [ exact Hs | ].
  split; [ exact (find_referralCommission_id _ _ _ Hfind) | ].
  split; reflexivity.
Qed.



Lemma filter_replaced {A : Type} (p mine : A -> bool) (new : A) (l : list A) :
  p new = false ->
  filter p (map (fun x => if mine x then new else x) l)
  = filter (fun x => negb (mine x)) (filter p l).
Proof.
  intro Hnew. induction l as [ | x l IH ]; simpl; [ reflexivity | ].
  destruct (mine x) eqn:Hm.
  - rewrite Hnew. destruct (p x); simpl; [ rewrite Hm; simpl | ]; exact IH.
  - destruct (p x); simpl; [ rewrite Hm; simpl; f_equal | ]; exact IH.
Qed.

(** X20. A paid commission leaves the payout queue and nothing else
    does: after a successful [markCommissionAsPaid],
    [getPendingCommissions] returns for every user the rows it returned
    before, in the same order, without the commission that was paid. *)
Theorem paid_commission_leaves_the_queue :
  forall (st st' : ReferralStore) (commissionId payout userId : string)
         (c' : ReferralCommission),
    ReferralService.markCommissionAsPaid st commissionId payout = (st', Return c') ->
    ReferralService.getPendingCommissions st' userId
    = filter (fun x => negb (rc_id x =? commissionId))
             (ReferralService.getPendingCommissions st userId).
Proof.
  intros st st' commissionId payout userId c' H.
  destruct (referral_markCommissionAsPaid_success _ _ _ _ _ H)
    as (c & _ & _ & Hid & Hpaid & Hst).
  subst st'. unfold ReferralService.getPendingCommissions.
  cbn [referralCommissions referrals ReferralService.saveReferralCommission].
  rewrite Hid.
  apply (filter_replaced
           (fun x => existsb (fun i => i =? rc_referralId x)
                             (map referral_id
                                  (filter (fun r => referrerId r =? userId) (referrals st)))
                     && REFERRAL_COMMISSION_STATUS.eqb (rc_status x)
                                                       REFERRAL_COMMISSION_STATUS.EARNED)
           (fun x => rc_id x =? commissionId)).
  rewrite Hpaid. apply andb_false_r.
Qed.

Lemma paid_commission_leaves_the_queue_witness :
  ReferralService.getPendingCommissions
    (fst (ReferralService.markCommissionAsPaid Scenario.payoutStore "rc-1" "payout-1"))
    "user-1"
  = [Scenario.secondCommission].
Proof.
  rewrite (paid_commission_leaves_the_queue
             Scenario.payoutStore
             (fst (ReferralService.markCommissionAsPaid Scenario.payoutStore
                                                        "rc-1" "payout-1"))
             "rc-1" "payout-1" "user-1"
             (nth 0 (referralCommissions
                       (fst (ReferralService.markCommissionAsPaid
                               Scenario.payoutStore "rc-1" "payout-1")))
                  Scenario.earnedCommission)
             eq_refl).
  reflexivity.
Defined.


(* ------------------------------------------------------------------ *)
(** * Further properties of the product referral accrual *)

Lemma matching_items_exist {A : Type} (f : A -> bool) (l : list A) :
  (0 <? List.length (filter f l))%nat = existsb f l.
Proof.
  induction l as [ | x l IH ]; simpl; [ reflexivity | ].
  destruct (f x); simpl; [ reflexivity | exact IH ].
Qed.

(** One turn of the loop: nothing for a referral without a matching
    item, and otherwise at most one row, which is stored before the
    total of the referral is written. *)
Lemma accrueOrderCommission_rows (decimalText Number_toString : number -> string)
      (numeric_in : string -> option number) (db : Store) (order : Order) (st : ReferralStore)
      (referral : Referral) :
  let r := ReferralService.accrueOrderCommission
             decimalText Number_toString numeric_in db order st referral in
  referralCodes (fst r) = referralCodes st /\
  sellers (fst r) = sellers st /\
  map referral_id (referrals (fst r)) = map referral_id (referrals st) /\
  if existsb (ReferralService.itemMatches db referral) (order_items db order)
  then
    (referralCommissions (fst r) = referralCommissions st /\ snd r <> Return tt) \/
    (exists c,
        accruedFor order referral c /\
        referralCommissions (fst r) = (referralCommissions st ++ [c])%list)
  else r = (st, Return tt).
Proof.
  cbv zeta. unfold ReferralService.accrueOrderCommission.
  rewrite matching_items_exist.
  destruct (existsb _ _); [ | repeat split ].
  cbv zeta. unfold ReferralService.saveNewReferralCommission.
  cbn [rc_orderId].
  destruct (ReferralService.isUuid (order_id order)).
  - unfold ReferralService.addToTotalCommission. cbv zeta.
    destruct (numeric_in _) as [ stored | ]; cbn [fst snd].
    + split; [ reflexivity | ]. split; [ reflexivity | ]. split.
      * cbn [referrals ReferralService.saveReferral
             ReferralService.insertReferralCommission referral_id].
        rewrite map_map. apply map_ext_in. intros x _.
        destruct (referral_id x =? referral_id referral) eqn:E; [ | reflexivity ].
        apply String.eqb_eq in E. symmetry. exact E.
      * right. eexists. split; [ | reflexivity ]. repeat split.
    + split; [ reflexivity | ]. split; [ reflexivity | ]. split; [ reflexivity | ].
      right. eexists. split; [ | reflexivity ]. repeat split.
  - cbn [fst snd]. repeat split. left. split; [ reflexivity | discriminate ].
Qed.

(** The loop: the rows it stores are rows of an initial segment of the
    referrals that have a matching item, in their order, and of all of
    them when the loop runs to its end. *)
Lemma accrueAll_rows (decimalText Number_toString : number -> string)
      (numeric_in : string -> option number) (db : Store) (order : Order) (l : list Referral)
      (st : ReferralStore) :
  let r := ReferralService.accrueAll decimalText Number_toString numeric_in db order l st in
  let matching :=
    filter (fun x => existsb (ReferralService.itemMatches db x) (order_items db order)) l in
  referralCodes (fst r) = referralCodes st /\
  sellers (fst r) = sellers st /\
  map referral_id (referrals (fst r)) = map referral_id (referrals st) /\
  exists rows served,
    referralCommissions (fst r) = (referralCommissions st ++ rows)%list /\
    Forall2 (accruedFor order) served rows /\
    (exists rest, matching = (served ++ rest)%list) /\
    (snd r = Return tt -> served = matching).
Proof.
  cbv zeta. revert st.
  induction l as [ | x l IH ]; intro st; simpl.
  - repeat split. exists [], []. rewrite app_nil_r.
    split; [ reflexivity | ]. split; [ constructor | ].
    split; [ exists []; reflexivity | reflexivity ].
  - pose proof (accrueOrderCommission_rows decimalText Number_toString numeric_in db order st x) as Hx. cbv zeta in Hx.
    destruct Hx as (Hcodes & Hsellers & Hids & Hx).
    destruct (ReferralService.accrueOrderCommission
                decimalText Number_toString numeric_in db order st x)
      as [ st1 [ [] | error ] ] eqn:E; cbn [fst snd] in *.
    + destruct (IH st1) as (Hcodes' & Hsellers' & Hids' & rows & served & Hrows
                            & Hserved & (rest & Hrest) & Hall).
      split; [ congruence | ]. split; [ congruence | ]. split; [ congruence | ].
      destruct (existsb (ReferralService.itemMatches db x) (order_items db order)).
      * destruct Hx as [ (_ & Hne) | (c & Hc & Hst1) ];
          [ contradiction Hne; reflexivity | ].
        exists (c :: rows), (x :: served).
        split; [ rewrite Hrows, Hst1, <- app_assoc; reflexivity | ].
        split; [ constructor; assumption | ].
        split; [ exists rest; rewrite Hrest; reflexivity | ].
        intro H. rewrite (Hall H). reflexivity.
      * injection Hx as Hx. subst st1.
        exists rows, served. repeat split; try assumption. exists rest. assumption.
    + split; [ assumption | ]. split; [ assumption | ]. split; [ assumption | ].
      destruct (existsb (ReferralService.itemMatches db x) (order_items db order)).
      * destruct Hx as [ (Hsame & _) | (c & Hc & Hst1) ].
        -- exists [], []. rewrite app_nil_r.
           split; [ assumption | ]. split; [ constructor | ].
           split; [ eexists; reflexivity | intro H; discriminate H ].
        -- exists [c], [x].
           split; [ assumption | ]. split; [ constructor; [ assumption | constructor ] | ].
           split; [ eexists; reflexivity | intro H; discriminate H ].
      * discriminate Hx.
Qed.

(** X21. [processOrderCommission] throws "Order not found" and writes
    nothing for an absent order.  Otherwise the rows it appends to the
    referral commissions are earned, unpaid rows for that order at the
    rate of their referral, one each for an initial segment of the
    active product referrals with a matching item, in the order the
    referrals were loaded, and for all of them when the method returns;
    rows already stored, the codes and the sellers are untouched, and
    no referral is added or removed. *)
Theorem processOrderCommission_rows :
  forall (decimalText Number_toString : number -> string)
         (numeric_in : string -> option number)
         (db : Store) (st : ReferralStore) (orderId : string),
    let r := ReferralService.processOrderCommission
               decimalText Number_toString numeric_in db st orderId in
    match findOrder db orderId with
    | None => r = (st, Throw "Order not found")
    | Some order =>
        let matching :=
          filter (fun x => existsb (ReferralService.itemMatches db x)
                                   (order_items db order))
                 (ReferralService.activeProductReferrals st) in
        referralCodes (fst r) = referralCodes st /\
        sellers (fst r) = sellers st /\
        map referral_id (referrals (fst r)) = map referral_id (referrals st) /\
        exists rows served,
          referralCommissions (fst r) = (referralCommissions st ++ rows)%list /\
          Forall2 (fun referral c =>
                     rc_referralId c = referral_id referral /\
                     rc_orderId c = orderId /\
                     rc_commissionRate c = referral_commissionRate referral /\
                     rc_status c = REFERRAL_COMMISSION_STATUS.EARNED /\
                     rc_paidAt c = None)
                  served rows /\
          (exists rest, matching = (served ++ rest)%list) /\
          (snd r = Return tt -> served = matching)
    end.
Proof.
  intros decimalText Number_toString numeric_in db st orderId. cbv zeta.
  unfold ReferralService.processOrderCommission.
  destruct (findOrder db orderId) as [ order | ] eqn:Hfind; [ | reflexivity ].
  pose proof (accrueAll_rows decimalText Number_toString numeric_in db order (ReferralService.activeProductReferrals st) st) as H.
  cbv zeta in H.
  destruct H as (Hcodes & Hsellers & Hids & rows & served & Hrows & Hserved & Hrest & Hall).
  split; [ assumption | ]. split; [ assumption | ]. split; [ assumption | ].
  exists rows, served. split; [ assumption | ].
  split; [ | split; assumption ].
  clear - Hserved Hfind. induction Hserved as [ | x c served rows Hc _ IH ];
    constructor; [ | exact IH ].
  destruct Hc as (H1 & H2 & H3 & H4 & H5 & _).
  rewrite <- (find_order_id _ _ _ Hfind). repeat split; assumption.
Qed.

(** X22. A referral that is not an active product referral earns
    nothing from an order: [processOrderCommission] creates no
    commission row for a referral that is pending, completed, or of the
    seller-account type, whatever the order holds and however the call
    ends. *)
Theorem inactive_referrals_earn_nothing_from_orders :
  forall (decimalText Number_toString : number -> string)
         (numeric_in : string -> option number)
         (db : Store) (st st' : ReferralStore) (orderId : string) (r : Referral)
         (outcome : Result unit),
    ReferralService.processOrderCommission
      decimalText Number_toString numeric_in db st orderId = (st', outcome) ->
    (forall x, In x (referrals st) -> referral_id x = referral_id r ->
               referral_status x <> REFERRAL_STATUS.ACTIVE
               \/ referral_type x <> REFERRAL_TYPE.PRODUCT) ->
    ReferralService.commissionsOfReferral st' r
    = ReferralService.commissionsOfReferral st r.
Proof.
  intros decimalText Number_toString numeric_in db st st' orderId r outcome H Hinactive.
  unfold ReferralService.processOrderCommission in H.
  destruct (findOrder db orderId) as [ order | ];
    [ | injection H as H _; subst st'; reflexivity ].
  pose proof (accrueAll_rows decimalText Number_toString numeric_in db order (ReferralService.activeProductReferrals st) st) as Hl.
  cbv zeta in Hl. rewrite H in Hl. cbn [fst snd] in Hl.
  destruct Hl as (_ & _ & _ & rows & served & Hcs & Hserved & (rest & Hrest) & _).
  unfold ReferralService.commissionsOfReferral.
  rewrite Hcs, filter_app.
  replace (filter (fun c => rc_referralId c =? referral_id r) rows) with
    (@nil ReferralCommission); [ apply app_nil_r | ].
  destruct (filter (fun c => rc_referralId c =? referral_id r) rows) as [ | c l ] eqn:Hf;
    [ reflexivity | exfalso ].
  assert (Hc : In c (filter (fun c => rc_referralId c =? referral_id r) rows))
    by (rewrite Hf; left; reflexivity).
  apply filter_In in Hc. destruct Hc as [ Hin Hid ]. apply String.eqb_eq in Hid.
  assert (Hx : exists x, In x served /\ rc_referralId c = referral_id x).
  { clear - Hserved Hin. induction Hserved as [ | x c' served rows Hc _ IH ];
      [ contradiction Hin | ].
    destruct Hin as [ E | Hin ].
    - subst c'. exists x. split; [ left; reflexivity | apply Hc ].
    - destruct (IH Hin) as (y & Hy & Hid). exists y. split; [ right | ]; assumption. }
  destruct Hx as (x & Hxin & Hxid).
  assert (Hmatch : In x (served ++ rest)%list) by (apply in_or_app; left; exact Hxin).
  rewrite <- Hrest in Hmatch. apply filter_In in Hmatch. destruct Hmatch as [ Hactive _ ].
  unfold ReferralService.activeProductReferrals in Hactive.
  apply filter_In in Hactive. destruct Hactive as [ Hxst Hactive ].
  apply andb_true_iff in Hactive. destruct Hactive as [ Ha Ht ].
  unfold REFERRAL_STATUS.eqb in Ha. unfold REFERRAL_TYPE.eqb in Ht.
  destruct (REFERRAL_STATUS.eq_dec (referral_status x) REFERRAL_STATUS.ACTIVE);
    [ | discriminate Ha ].
  destruct (REFERRAL_TYPE.eq_dec (referral_type x) REFERRAL_TYPE.PRODUCT);
    [ | discriminate Ht ].
  destruct (Hinactive x Hxst) as [ Hn | Hn ]; [ congruence | | ]; contradiction.
Qed.

Lemma inactive_referrals_earn_nothing_from_orders_witness :
  ReferralService.commissionsOfReferral
    (fst (ReferralService.processOrderCommission
            Scenario.decimalText Scenario.Number_toString Scenario.numeric_in
            Scenario.delivered Scenario.pendingStore "order-1"))
    Scenario.pendingReferral
  = [].
Proof.
  rewrite (inactive_referrals_earn_nothing_from_orders
             Scenario.decimalText Scenario.Number_toString Scenario.numeric_in
             Scenario.delivered Scenario.pendingStore
             (fst (ReferralService.processOrderCommission
                     Scenario.decimalText Scenario.Number_toString Scenario.numeric_in
                     Scenario.delivered Scenario.pendingStore "order-1"))
             "order-1" Scenario.pendingReferral (Return tt) eq_refl).
  - reflexivity.
  - intros x [ Hx | [] ] _. subst x. left. simpl. discriminate.
Defined.

Lemma processOrderCommission_rows_witness :
  exists rows,
    referralCommissions
      (fst (ReferralService.processOrderCommission
              Scenario.decimalText Scenario.Number_toString Scenario.numeric_in
              Scenario.delivered Scenario.productReferralStore "order-1"))
    = rows /\
    Forall2 (fun referral c =>
               rc_referralId c = referral_id referral /\
               rc_orderId c = "order-1" /\
               rc_commissionRate c = referral_commissionRate referral /\
               rc_status c = REFERRAL_COMMISSION_STATUS.EARNED /\
               rc_paidAt c = None)
            [Scenario.productReferral] rows.
Proof.
  pose proof (processOrderCommission_rows
                Scenario.decimalText Scenario.Number_toString Scenario.numeric_in
                Scenario.delivered Scenario.productReferralStore "order-1") as H.
  cbv zeta in H.
  change (findOrder Scenario.delivered "order-1")
    with (Some (Scenario.order1 ORDER_STATUS.DELIVERED)) in H.
  cbv iota beta in H.
  destruct H as (_ & _ & _ & rows & served & Hrows & Hserved & _ & Hall).
  assert (Hend : snd (ReferralService.processOrderCommission
                        Scenario.decimalText Scenario.Number_toString Scenario.numeric_in
                        Scenario.delivered Scenario.productReferralStore "order-1")
                 = Return tt) by (vm_compute; reflexivity).
  rewrite (Hall Hend) in Hserved.
  exists rows. split; [ exact Hrows | exact Hserved ].
Defined.
(* ------------------------------------------------------------------ *)
(** * Further properties of the referral statistics *)

Lemma count_by_type (l : list Referral) :
  (List.length (filter (fun r => REFERRAL_TYPE.eqb (referral_type r)
                                                   REFERRAL_TYPE.SELLER_ACCOUNT) l)
   + List.length (filter (fun r => REFERRAL_TYPE.eqb (referral_type r)
                                                     REFERRAL_TYPE.PRODUCT) l)
   = List.length l)%nat.
Proof.
  induction l as [ | r l IH ]; simpl; [ reflexivity | ].
  destruct (referral_type r); simpl; lia.
Qed.

Lemma filter_length_le {A : Type} (f : A -> bool) (l : list A) :
  (List.length (filter f l) <= List.length l)%nat.
Proof.
  induction l as [ | x l IH ]; simpl; [ lia | ].
  destruct (f x); simpl; lia.
Qed.

(** X23. The counts of [getUserReferralStats] add up: the total is the
    number of referrals [getUserReferrals] returns for the user, the
    breakdown by type splits it exactly (seller accounts plus products
    is the total), and the active referrals are among them. *)
Theorem getUserReferralStats_counts :
  forall (st : ReferralStore) (userId : string),
    let stats := ReferralService.getUserReferralStats st userId in
    ReferralService.totalReferrals stats
    = List.length (ReferralService.getUserReferrals st userId) /\
    (ReferralService.sellerAccounts stats + ReferralService.products_count stats
     = ReferralService.totalReferrals stats)%nat /\
    (ReferralService.activeReferrals stats <= ReferralService.totalReferrals stats)%nat.
Proof.
  intros st userId. cbv zeta.
  unfold ReferralService.getUserReferralStats, ReferralService.getUserReferrals.
  cbn [ReferralService.totalReferrals ReferralService.sellerAccounts
       ReferralService.products_count ReferralService.activeReferrals].
  split; [ reflexivity | ].
  split; [ apply count_by_type | apply filter_length_le ].
Qed.

(** X24. A successful [createReferral] shows in the referrer's
    statistics and in nobody else's: the referrer's total goes up by
    one, in the bucket of the requested type, while the number of
    active referrals stays as it was (the new referral is pending); the
    counts of every other user are unchanged. *)
Theorem createReferral_counts_in_stats :
  forall (st st' : ReferralStore) (data : CreateReferralDto) (r : Referral),
    ReferralService.createReferral st data = (st', Return r) ->
    let before := ReferralService.getUserReferralStats st in
    let after := ReferralService.getUserReferralStats st' in
    ReferralService.totalReferrals (after (dto_referrerId data))
    = S (ReferralService.totalReferrals (before (dto_referrerId data))) /\
    ReferralService.activeReferrals (after (dto_referrerId data))
    = ReferralService.activeReferrals (before (dto_referrerId data)) /\
    (if REFERRAL_TYPE.eqb (dto_type data) REFERRAL_TYPE.PRODUCT
     then ReferralService.products_count (after (dto_referrerId data))
          = S (ReferralService.products_count (before (dto_referrerId data)))
     else ReferralService.sellerAccounts (after (dto_referrerId data))
          = S (ReferralService.sellerAccounts (before (dto_referrerId data)))) /\
    (forall other,
        other <> dto_referrerId data ->
        (ReferralService.totalReferrals (after other),
         ReferralService.activeReferrals (after other),
         ReferralService.sellerAccounts (after other),
         ReferralService.products_count (after other))
        = (ReferralService.totalReferrals (before other),
           ReferralService.activeReferrals (before other),
           ReferralService.sellerAccounts (before other),
           ReferralService.products_count (before other))).
Proof.
  intros st st' data r H. cbv zeta.
  unfold ReferralService.createReferral in H.
  destruct (find _ (referralCodes st)) as [ c | ]; [ | discriminate H ].
  destruct (ReferralService.codeExpired st c); [ discriminate H | ].
  destruct (ReferralService.usageLimitReached c); [ discriminate H | ].
  destruct (find _ (referrals st)); [ discriminate H | ].
  injection H as Hst Hr. subst st'.
  unfold ReferralService.getUserReferralStats.
  cbn [ReferralService.totalReferrals ReferralService.sellerAccounts
       ReferralService.products_count ReferralService.activeReferrals
       referrals ReferralService.saveReferralCode ReferralService.insertReferral].
  rewrite filter_app. cbn [filter referrerId]. rewrite String.eqb_refl.
  rewrite !filter_app. cbn [filter referral_status referral_type].
  split; [ rewrite length_app; simpl; lia | ].
  split.
  { replace (REFERRAL_STATUS.eqb REFERRAL_STATUS.PENDING REFERRAL_STATUS.ACTIVE)
      with false by reflexivity.
    rewrite app_nil_r. reflexivity. }
  split.
  { destruct (dto_type data); simpl; rewrite length_app; simpl; lia. }
  intros other Hother.
  rewrite filter_app. cbn [filter referrerId].
  replace (dto_referrerId data =? other) with false
    by (symmetry; apply String.eqb_neq; congruence).
  rewrite app_nil_r. reflexivity.
Qed.

Lemma createReferral_counts_in_stats_witness :
  ReferralService.totalReferrals
    (ReferralService.getUserReferralStats
       (fst (ReferralService.createReferral Scenario.referralStore
                                            (Scenario.referralDto "user-2")))
       "user-1")
  = 1%nat.
Proof.
  exact (proj1 (createReferral_counts_in_stats
                  Scenario.referralStore
                  (fst (ReferralService.createReferral Scenario.referralStore
                                                       (Scenario.referralDto "user-2")))
                  (Scenario.referralDto "user-2")
                  (nth 0 (referrals
                            (fst (ReferralService.createReferral
                                    Scenario.referralStore
                                    (Scenario.referralDto "user-2"))))
                       Scenario.pendingReferral)
                  eq_refl)).
Defined.

